(** * ghidra-frida: the architecture resolver, the mappers and the
      trace-synchronisation commands, embedded from
      [ghidrafrida/arch.py], [ghidrafrida/util.py] and
      [ghidrafrida/commands.py].

    Layout: Python values and built-ins ([Py]), then one module per
    source file ([util], [arch], [commands]) holding the definitions,
    then the properties. *)

From Stdlib Require Import String Ascii List ZArith NArith Lia Bool.
From Stdlib Require Import DecimalString HexadecimalString.
Import ListNotations.
Local Open Scope list_scope.
Local Open Scope string_scope.

(* ===================================================================== *)
(** * Python values and built-ins used by the sources                     *)
(* ===================================================================== *)

Module Py.

(** Exceptions, by class.  [RuntimeError] carries its literal message
    where the source gives one. *)
Inductive exn : Type :=
| RuntimeError (msg : string)
| ValueError (msg : string)
| KeyError (key : string)
| NameError (name : string)
| TypeError (msg : string)
| AttributeError (msg : string)
| UnboundLocalError (name : string)
| IndexError (msg : string).

(** A computation that may raise. *)
Definition result (A : Type) : Type := (exn + A)%type.
Definition ok {A} (a : A) : result A := inr a.
Definition raise {A} (e : exn) : result A := inl e.

Definition is_ok {A} (r : result A) : bool :=
  match r with inr _ => true | inl _ => false end.

(** The dynamically typed values that flow through the selection state
    and the path templates: [None], an [int] or a [str]. *)
Inductive pyval : Type :=
| PyNone
| PyInt (n : Z)
| PyStr (s : string).

Definition pyval_eqb (a b : pyval) : bool :=
  match a, b with
  | PyNone, PyNone => true
  | PyInt x, PyInt y => Z.eqb x y
  | PyStr x, PyStr y => String.eqb x y
  | _, _ => false
  end.

(** [s.startswith(p)]. *)
Fixpoint startswith (p s : string) : bool :=
  match p with
  | EmptyString => true
  | String a p' =>
      match s with
      | EmptyString => false
      | String b s' => Ascii.eqb a b && startswith p' s'
      end
  end.

(** [sub in s] on strings. *)
Fixpoint contains (sub s : string) : bool :=
  startswith sub s ||
  match s with
  | EmptyString => false
  | String _ s' => contains sub s'
  end.

(** [s.endswith(p)]. *)
Definition endswith (p s : string) : bool :=
  (String.length p <=? String.length s)%nat &&
  String.eqb (String.substring (String.length s - String.length p)
                               (String.length p) s) p.

(** [s[n:]]. *)
Definition slice_from (n : nat) (s : string) : string :=
  String.substring n (String.length s - n) s.

(** [l[-n:]] on a sequence, for [n > 0]. *)
Definition tail_slice {A} (n : nat) (l : list A) : list A :=
  skipn (List.length l - n) l.

(** [str(n)] for an [int]. *)
Definition str_int (n : Z) : string :=
  DecimalString.NilZero.string_of_int (Z.to_int n).

(** ['{:x}'.format(n)] for an [int]. *)
Definition format_x (n : Z) : string :=
  let digits := HexadecimalString.NilZero.string_of_uint
                  (N.to_hex_uint (Z.abs_N n)) in
  if (n <? 0)%Z then "-" ++ digits else digits.

(** [hex(n)]. *)
Definition hex (n : Z) : string :=
  let digits := HexadecimalString.NilZero.string_of_uint
                  (N.to_hex_uint (Z.abs_N n)) in
  if (n <? 0)%Z then "-0x" ++ digits else "0x" ++ digits.

(** [str(v)], which is also what ['{}'.format(v)] and a named
    replacement field print. *)
Definition str (v : pyval) : string :=
  match v with
  | PyNone => "None"
  | PyInt n => str_int n
  | PyStr s => s
  end.

(** ['{:x}'.format(v)] and ['{:d}'.format(v)]: only an [int] accepts
    these format codes. *)
Definition format_x_value (v : pyval) : result string :=
  match v with
  | PyInt n => ok (format_x n)
  | PyNone => raise (TypeError "unsupported format string passed to NoneType.__format__")
  | PyStr _ => raise (ValueError "Unknown format code 'x' for object of type 'str'")
  end.

(** ** Text

    A [str] is represented by its UTF-8 encoding.  A byte that is not
    part of a well-formed sequence stands for the lone surrogate
    [U+DC00 + byte], as in [bytes.decode('utf-8', 'surrogateescape')],
    so that every [string] denotes exactly one [str], two different
    [string]s denote different [str]s, and every [str] of Unicode
    scalar values is denoted.  On such text [startswith], [contains],
    [endswith], concatenation and equality are those of the code
    point sequences; [slice_from] and [String.length] count bytes,
    and the sources apply them to ASCII text only (the register
    prefix ["zmm"], the language ids of the static table). *)

Definition bytes_of_string (s : string) : list N :=
  List.map N_of_ascii (list_ascii_of_string s).

Definition string_of_bytes (l : list N) : string :=
  string_of_list_ascii (List.map ascii_of_N l).

Definition continuation (b : N) : bool := ((0x80 <=? b) && (b <=? 0xBF))%N.

(** The code point of a well-formed sequence of two, three or four
    bytes: shortest form only, no surrogate, at most [U+10FFFF]. *)
Definition two_bytes (b0 b1 : N) : option N :=
  let c := ((b0 - 0xC0) * 64 + (b1 - 0x80))%N in
  if ((0xC2 <=? b0) && (b0 <=? 0xDF))%N && continuation b1
  then Some c else None.

Definition three_bytes (b0 b1 b2 : N) : option N :=
  let c := ((b0 - 0xE0) * 4096 + (b1 - 0x80) * 64 + (b2 - 0x80))%N in
  if ((0xE0 <=? b0) && (b0 <=? 0xEF))%N && continuation b1 && continuation b2
     && (0x800 <=? c)%N && negb ((0xD800 <=? c) && (c <=? 0xDFFF))%N
  then Some c else None.

Definition four_bytes (b0 b1 b2 b3 : N) : option N :=
  let c := ((b0 - 0xF0) * 262144 + (b1 - 0x80) * 4096 + (b2 - 0x80) * 64
            + (b3 - 0x80))%N in
  if ((0xF0 <=? b0) && (b0 <=? 0xF4))%N && continuation b1 && continuation b2
     && continuation b3 && (0x10000 <=? c)%N && (c <=? 0x10FFFF)%N
  then Some c else None.

Definition surrogateescape (b : N) : N := (0xDC00 + b)%N.

(** The code points of the [str] that a sequence of bytes denotes. *)
Fixpoint decode (s : list N) : list N :=
  match s with
  | [] => []
  | b0 :: s1 =>
      if (b0 <? 0x80)%N then b0 :: decode s1
      else
        match s1 with
        | [] => [surrogateescape b0]
        | b1 :: s2 =>
            match two_bytes b0 b1 with
            | Some c => c :: decode s2
            | None =>
                match s2 with
                | [] => surrogateescape b0 :: decode s1
                | b2 :: s3 =>
                    match three_bytes b0 b1 b2 with
                    | Some c => c :: decode s3
                    | None =>
                        match s3 with
                        | [] => surrogateescape b0 :: decode s1
                        | b3 :: s4 =>
                            match four_bytes b0 b1 b2 b3 with
                            | Some c => c :: decode s4
                            | None => surrogateescape b0 :: decode s1
                            end
                        end
                    end
                end
            end
        end
  end.

Definition code_points (s : string) : list N := decode (bytes_of_string s).

(** The UTF-8 encoding of a code point. *)
Definition encode (c : N) : list N :=
  if (c <? 0x80)%N then [c]
  else if (c <? 0x800)%N then [0xC0 + c / 64; 0x80 + c mod 64]%N
  else if (c <? 0x10000)%N
  then [0xE0 + c / 4096; 0x80 + (c / 64) mod 64; 0x80 + c mod 64]%N
  else [0xF0 + c / 262144; 0x80 + (c / 4096) mod 64;
        0x80 + (c / 64) mod 64; 0x80 + c mod 64]%N.

(** *** The character database

    The tables of the Unicode Character Database 14.0.0, the one
    CPython 3.11 is built with, from [U+007F] upwards: the characters
    [str.isspace] accepts, the zeros of the runs of decimal digits, and
    the characters [str.isprintable] rejects. *)
Definition in_ranges (ranges : list (N * N)) (c : N) : bool :=
  existsb (fun r => ((fst r <=? c) && (c <=? snd r))%N) ranges.

Definition unicode_spaces : list (N * N) := [
   (0x85, 0x85); (0xA0, 0xA0); (0x1680, 0x1680); (0x2000, 0x200A);
   (0x2028, 0x2029); (0x202F, 0x202F); (0x205F, 0x205F); (0x3000, 0x3000)
]%N.

Definition decimal_zeros : list N := [
   0x660; 0x6F0; 0x7C0; 0x966; 0x9E6; 0xA66; 0xAE6; 0xB66;
   0xBE6; 0xC66; 0xCE6; 0xD66; 0xDE6; 0xE50; 0xED0; 0xF20;
   0x1040; 0x1090; 0x17E0; 0x1810; 0x1946; 0x19D0; 0x1A80; 0x1A90;
   0x1B50; 0x1BB0; 0x1C40; 0x1C50; 0xA620; 0xA8D0; 0xA900; 0xA9D0;
   0xA9F0; 0xAA50; 0xABF0; 0xFF10; 0x104A0; 0x10D30; 0x11066; 0x110F0;
   0x11136; 0x111D0; 0x112F0; 0x11450; 0x114D0; 0x11650; 0x116C0; 0x11730;
   0x118E0; 0x11950; 0x11C50; 0x11D50; 0x11DA0; 0x16A60; 0x16AC0; 0x16B50;
   0x1D7CE; 0x1D7D8; 0x1D7E2; 0x1D7EC; 0x1D7F6; 0x1E140; 0x1E2F0; 0x1E950;
   0x1FBF0
]%N.

Definition unprintable : list (N * N) := [
   (0x80, 0xA0); (0xAD, 0xAD); (0x378, 0x379); (0x380, 0x383);
   (0x38B, 0x38B); (0x38D, 0x38D); (0x3A2, 0x3A2); (0x530, 0x530);
   (0x557, 0x558); (0x58B, 0x58C); (0x590, 0x590); (0x5C8, 0x5CF);
   (0x5EB, 0x5EE); (0x5F5, 0x605); (0x61C, 0x61C); (0x6DD, 0x6DD);
   (0x70E, 0x70F); (0x74B, 0x74C); (0x7B2, 0x7BF); (0x7FB, 0x7FC);
   (0x82E, 0x82F); (0x83F, 0x83F); (0x85C, 0x85D); (0x85F, 0x85F);
   (0x86B, 0x86F); (0x88F, 0x897); (0x8E2, 0x8E2); (0x984, 0x984);
   (0x98D, 0x98E); (0x991, 0x992); (0x9A9, 0x9A9); (0x9B1, 0x9B1);
   (0x9B3, 0x9B5); (0x9BA, 0x9BB); (0x9C5, 0x9C6); (0x9C9, 0x9CA);
   (0x9CF, 0x9D6); (0x9D8, 0x9DB); (0x9DE, 0x9DE); (0x9E4, 0x9E5);
   (0x9FF, 0xA00); (0xA04, 0xA04); (0xA0B, 0xA0E); (0xA11, 0xA12);
   (0xA29, 0xA29); (0xA31, 0xA31); (0xA34, 0xA34); (0xA37, 0xA37);
   (0xA3A, 0xA3B); (0xA3D, 0xA3D); (0xA43, 0xA46); (0xA49, 0xA4A);
   (0xA4E, 0xA50); (0xA52, 0xA58); (0xA5D, 0xA5D); (0xA5F, 0xA65);
   (0xA77, 0xA80); (0xA84, 0xA84); (0xA8E, 0xA8E); (0xA92, 0xA92);
   (0xAA9, 0xAA9); (0xAB1, 0xAB1); (0xAB4, 0xAB4); (0xABA, 0xABB);
   (0xAC6, 0xAC6); (0xACA, 0xACA); (0xACE, 0xACF); (0xAD1, 0xADF);
   (0xAE4, 0xAE5); (0xAF2, 0xAF8); (0xB00, 0xB00); (0xB04, 0xB04);
   (0xB0D, 0xB0E); (0xB11, 0xB12); (0xB29, 0xB29); (0xB31, 0xB31);
   (0xB34, 0xB34); (0xB3A, 0xB3B); (0xB45, 0xB46); (0xB49, 0xB4A);
   (0xB4E, 0xB54); (0xB58, 0xB5B); (0xB5E, 0xB5E); (0xB64, 0xB65);
   (0xB78, 0xB81); (0xB84, 0xB84); (0xB8B, 0xB8D); (0xB91, 0xB91);
   (0xB96, 0xB98); (0xB9B, 0xB9B); (0xB9D, 0xB9D); (0xBA0, 0xBA2);
   (0xBA5, 0xBA7); (0xBAB, 0xBAD); (0xBBA, 0xBBD); (0xBC3, 0xBC5);
   (0xBC9, 0xBC9); (0xBCE, 0xBCF); (0xBD1, 0xBD6); (0xBD8, 0xBE5);
   (0xBFB, 0xBFF); (0xC0D, 0xC0D); (0xC11, 0xC11); (0xC29, 0xC29);
   (0xC3A, 0xC3B); (0xC45, 0xC45); (0xC49, 0xC49); (0xC4E, 0xC54);
   (0xC57, 0xC57); (0xC5B, 0xC5C); (0xC5E, 0xC5F); (0xC64, 0xC65);
   (0xC70, 0xC76); (0xC8D, 0xC8D); (0xC91, 0xC91); (0xCA9, 0xCA9);
   (0xCB4, 0xCB4); (0xCBA, 0xCBB); (0xCC5, 0xCC5); (0xCC9, 0xCC9);
   (0xCCE, 0xCD4); (0xCD7, 0xCDC); (0xCDF, 0xCDF); (0xCE4, 0xCE5);
   (0xCF0, 0xCF0); (0xCF3, 0xCFF); (0xD0D, 0xD0D); (0xD11, 0xD11);
   (0xD45, 0xD45); (0xD49, 0xD49); (0xD50, 0xD53); (0xD64, 0xD65);
   (0xD80, 0xD80); (0xD84, 0xD84); (0xD97, 0xD99); (0xDB2, 0xDB2);
   (0xDBC, 0xDBC); (0xDBE, 0xDBF); (0xDC7, 0xDC9); (0xDCB, 0xDCE);
   (0xDD5, 0xDD5); (0xDD7, 0xDD7); (0xDE0, 0xDE5); (0xDF0, 0xDF1);
   (0xDF5, 0xE00); (0xE3B, 0xE3E); (0xE5C, 0xE80); (0xE83, 0xE83);
   (0xE85, 0xE85); (0xE8B, 0xE8B); (0xEA4, 0xEA4); (0xEA6, 0xEA6);
   (0xEBE, 0xEBF); (0xEC5, 0xEC5); (0xEC7, 0xEC7); (0xECE, 0xECF);
   (0xEDA, 0xEDB); (0xEE0, 0xEFF); (0xF48, 0xF48); (0xF6D, 0xF70);
   (0xF98, 0xF98); (0xFBD, 0xFBD); (0xFCD, 0xFCD); (0xFDB, 0xFFF);
   (0x10C6, 0x10C6); (0x10C8, 0x10CC); (0x10CE, 0x10CF); (0x1249, 0x1249);
   (0x124E, 0x124F); (0x1257, 0x1257); (0x1259, 0x1259); (0x125E, 0x125F);
   (0x1289, 0x1289); (0x128E, 0x128F); (0x12B1, 0x12B1); (0x12B6, 0x12B7);
   (0x12BF, 0x12BF); (0x12C1, 0x12C1); (0x12C6, 0x12C7); (0x12D7, 0x12D7);
   (0x1311, 0x1311); (0x1316, 0x1317); (0x135B, 0x135C); (0x137D, 0x137F);
   (0x139A, 0x139F); (0x13F6, 0x13F7); (0x13FE, 0x13FF); (0x1680, 0x1680);
   (0x169D, 0x169F); (0x16F9, 0x16FF); (0x1716, 0x171E); (0x1737, 0x173F);
   (0x1754, 0x175F); (0x176D, 0x176D); (0x1771, 0x1771); (0x1774, 0x177F);
   (0x17DE, 0x17DF); (0x17EA, 0x17EF); (0x17FA, 0x17FF); (0x180E, 0x180E);
   (0x181A, 0x181F); (0x1879, 0x187F); (0x18AB, 0x18AF); (0x18F6, 0x18FF);
   (0x191F, 0x191F); (0x192C, 0x192F); (0x193C, 0x193F); (0x1941, 0x1943);
   (0x196E, 0x196F); (0x1975, 0x197F); (0x19AC, 0x19AF); (0x19CA, 0x19CF);
   (0x19DB, 0x19DD); (0x1A1C, 0x1A1D); (0x1A5F, 0x1A5F); (0x1A7D, 0x1A7E);
   (0x1A8A, 0x1A8F); (0x1A9A, 0x1A9F); (0x1AAE, 0x1AAF); (0x1ACF, 0x1AFF);
   (0x1B4D, 0x1B4F); (0x1B7F, 0x1B7F); (0x1BF4, 0x1BFB); (0x1C38, 0x1C3A);
   (0x1C4A, 0x1C4C); (0x1C89, 0x1C8F); (0x1CBB, 0x1CBC); (0x1CC8, 0x1CCF);
   (0x1CFB, 0x1CFF); (0x1F16, 0x1F17); (0x1F1E, 0x1F1F); (0x1F46, 0x1F47);
   (0x1F4E, 0x1F4F); (0x1F58, 0x1F58); (0x1F5A, 0x1F5A); (0x1F5C, 0x1F5C);
   (0x1F5E, 0x1F5E); (0x1F7E, 0x1F7F); (0x1FB5, 0x1FB5); (0x1FC5, 0x1FC5);
   (0x1FD4, 0x1FD5); (0x1FDC, 0x1FDC); (0x1FF0, 0x1FF1); (0x1FF5, 0x1FF5);
   (0x1FFF, 0x200F); (0x2028, 0x202F); (0x205F, 0x206F); (0x2072, 0x2073);
   (0x208F, 0x208F); (0x209D, 0x209F); (0x20C1, 0x20CF); (0x20F1, 0x20FF);
   (0x218C, 0x218F); (0x2427, 0x243F); (0x244B, 0x245F); (0x2B74, 0x2B75);
   (0x2B96, 0x2B96); (0x2CF4, 0x2CF8); (0x2D26, 0x2D26); (0x2D28, 0x2D2C);
   (0x2D2E, 0x2D2F); (0x2D68, 0x2D6E); (0x2D71, 0x2D7E); (0x2D97, 0x2D9F);
   (0x2DA7, 0x2DA7); (0x2DAF, 0x2DAF); (0x2DB7, 0x2DB7); (0x2DBF, 0x2DBF);
   (0x2DC7, 0x2DC7); (0x2DCF, 0x2DCF); (0x2DD7, 0x2DD7); (0x2DDF, 0x2DDF);
   (0x2E5E, 0x2E7F); (0x2E9A, 0x2E9A); (0x2EF4, 0x2EFF); (0x2FD6, 0x2FEF);
   (0x2FFC, 0x3000); (0x3040, 0x3040); (0x3097, 0x3098); (0x3100, 0x3104);
   (0x3130, 0x3130); (0x318F, 0x318F); (0x31E4, 0x31EF); (0x321F, 0x321F);
   (0xA48D, 0xA48F); (0xA4C7, 0xA4CF); (0xA62C, 0xA63F); (0xA6F8, 0xA6FF);
   (0xA7CB, 0xA7CF); (0xA7D2, 0xA7D2); (0xA7D4, 0xA7D4); (0xA7DA, 0xA7F1);
   (0xA82D, 0xA82F); (0xA83A, 0xA83F); (0xA878, 0xA87F); (0xA8C6, 0xA8CD);
   (0xA8DA, 0xA8DF); (0xA954, 0xA95E); (0xA97D, 0xA97F); (0xA9CE, 0xA9CE);
   (0xA9DA, 0xA9DD); (0xA9FF, 0xA9FF); (0xAA37, 0xAA3F); (0xAA4E, 0xAA4F);
   (0xAA5A, 0xAA5B); (0xAAC3, 0xAADA); (0xAAF7, 0xAB00); (0xAB07, 0xAB08);
   (0xAB0F, 0xAB10); (0xAB17, 0xAB1F); (0xAB27, 0xAB27); (0xAB2F, 0xAB2F);
   (0xAB6C, 0xAB6F); (0xABEE, 0xABEF); (0xABFA, 0xABFF); (0xD7A4, 0xD7AF);
   (0xD7C7, 0xD7CA); (0xD7FC, 0xF8FF); (0xFA6E, 0xFA6F); (0xFADA, 0xFAFF);
   (0xFB07, 0xFB12); (0xFB18, 0xFB1C); (0xFB37, 0xFB37); (0xFB3D, 0xFB3D);
   (0xFB3F, 0xFB3F); (0xFB42, 0xFB42); (0xFB45, 0xFB45); (0xFBC3, 0xFBD2);
   (0xFD90, 0xFD91); (0xFDC8, 0xFDCE); (0xFDD0, 0xFDEF); (0xFE1A, 0xFE1F);
   (0xFE53, 0xFE53); (0xFE67, 0xFE67); (0xFE6C, 0xFE6F); (0xFE75, 0xFE75);
   (0xFEFD, 0xFF00); (0xFFBF, 0xFFC1); (0xFFC8, 0xFFC9); (0xFFD0, 0xFFD1);
   (0xFFD8, 0xFFD9); (0xFFDD, 0xFFDF); (0xFFE7, 0xFFE7); (0xFFEF, 0xFFFB);
   (0xFFFE, 0xFFFF); (0x1000C, 0x1000C); (0x10027, 0x10027); (0x1003B, 0x1003B);
   (0x1003E, 0x1003E); (0x1004E, 0x1004F); (0x1005E, 0x1007F); (0x100FB, 0x100FF);
   (0x10103, 0x10106); (0x10134, 0x10136); (0x1018F, 0x1018F); (0x1019D, 0x1019F);
   (0x101A1, 0x101CF); (0x101FE, 0x1027F); (0x1029D, 0x1029F); (0x102D1, 0x102DF);
   (0x102FC, 0x102FF); (0x10324, 0x1032C); (0x1034B, 0x1034F); (0x1037B, 0x1037F);
   (0x1039E, 0x1039E); (0x103C4, 0x103C7); (0x103D6, 0x103FF); (0x1049E, 0x1049F);
   (0x104AA, 0x104AF); (0x104D4, 0x104D7); (0x104FC, 0x104FF); (0x10528, 0x1052F);
   (0x10564, 0x1056E); (0x1057B, 0x1057B); (0x1058B, 0x1058B); (0x10593, 0x10593);
   (0x10596, 0x10596); (0x105A2, 0x105A2); (0x105B2, 0x105B2); (0x105BA, 0x105BA);
   (0x105BD, 0x105FF); (0x10737, 0x1073F); (0x10756, 0x1075F); (0x10768, 0x1077F);
   (0x10786, 0x10786); (0x107B1, 0x107B1); (0x107BB, 0x107FF); (0x10806, 0x10807);
   (0x10809, 0x10809); (0x10836, 0x10836); (0x10839, 0x1083B); (0x1083D, 0x1083E);
   (0x10856, 0x10856); (0x1089F, 0x108A6); (0x108B0, 0x108DF); (0x108F3, 0x108F3);
   (0x108F6, 0x108FA); (0x1091C, 0x1091E); (0x1093A, 0x1093E); (0x10940, 0x1097F);
   (0x109B8, 0x109BB); (0x109D0, 0x109D1); (0x10A04, 0x10A04); (0x10A07, 0x10A0B);
   (0x10A14, 0x10A14); (0x10A18, 0x10A18); (0x10A36, 0x10A37); (0x10A3B, 0x10A3E);
   (0x10A49, 0x10A4F); (0x10A59, 0x10A5F); (0x10AA0, 0x10ABF); (0x10AE7, 0x10AEA);
   (0x10AF7, 0x10AFF); (0x10B36, 0x10B38); (0x10B56, 0x10B57); (0x10B73, 0x10B77);
   (0x10B92, 0x10B98); (0x10B9D, 0x10BA8); (0x10BB0, 0x10BFF); (0x10C49, 0x10C7F);
   (0x10CB3, 0x10CBF); (0x10CF3, 0x10CF9); (0x10D28, 0x10D2F); (0x10D3A, 0x10E5F);
   (0x10E7F, 0x10E7F); (0x10EAA, 0x10EAA); (0x10EAE, 0x10EAF); (0x10EB2, 0x10EFF);
   (0x10F28, 0x10F2F); (0x10F5A, 0x10F6F); (0x10F8A, 0x10FAF); (0x10FCC, 0x10FDF);
   (0x10FF7, 0x10FFF); (0x1104E, 0x11051); (0x11076, 0x1107E); (0x110BD, 0x110BD);
   (0x110C3, 0x110CF); (0x110E9, 0x110EF); (0x110FA, 0x110FF); (0x11135, 0x11135);
   (0x11148, 0x1114F); (0x11177, 0x1117F); (0x111E0, 0x111E0); (0x111F5, 0x111FF);
   (0x11212, 0x11212); (0x1123F, 0x1127F); (0x11287, 0x11287); (0x11289, 0x11289);
   (0x1128E, 0x1128E); (0x1129E, 0x1129E); (0x112AA, 0x112AF); (0x112EB, 0x112EF);
   (0x112FA, 0x112FF); (0x11304, 0x11304); (0x1130D, 0x1130E); (0x11311, 0x11312);
   (0x11329, 0x11329); (0x11331, 0x11331); (0x11334, 0x11334); (0x1133A, 0x1133A);
   (0x11345, 0x11346); (0x11349, 0x1134A); (0x1134E, 0x1134F); (0x11351, 0x11356);
   (0x11358, 0x1135C); (0x11364, 0x11365); (0x1136D, 0x1136F); (0x11375, 0x113FF);
   (0x1145C, 0x1145C); (0x11462, 0x1147F); (0x114C8, 0x114CF); (0x114DA, 0x1157F);
   (0x115B6, 0x115B7); (0x115DE, 0x115FF); (0x11645, 0x1164F); (0x1165A, 0x1165F);
   (0x1166D, 0x1167F); (0x116BA, 0x116BF); (0x116CA, 0x116FF); (0x1171B, 0x1171C);
   (0x1172C, 0x1172F); (0x11747, 0x117FF); (0x1183C, 0x1189F); (0x118F3, 0x118FE);
   (0x11907, 0x11908); (0x1190A, 0x1190B); (0x11914, 0x11914); (0x11917, 0x11917);
   (0x11936, 0x11936); (0x11939, 0x1193A); (0x11947, 0x1194F); (0x1195A, 0x1199F);
   (0x119A8, 0x119A9); (0x119D8, 0x119D9); (0x119E5, 0x119FF); (0x11A48, 0x11A4F);
   (0x11AA3, 0x11AAF); (0x11AF9, 0x11BFF); (0x11C09, 0x11C09); (0x11C37, 0x11C37);
   (0x11C46, 0x11C4F); (0x11C6D, 0x11C6F); (0x11C90, 0x11C91); (0x11CA8, 0x11CA8);
   (0x11CB7, 0x11CFF); (0x11D07, 0x11D07); (0x11D0A, 0x11D0A); (0x11D37, 0x11D39);
   (0x11D3B, 0x11D3B); (0x11D3E, 0x11D3E); (0x11D48, 0x11D4F); (0x11D5A, 0x11D5F);
   (0x11D66, 0x11D66); (0x11D69, 0x11D69); (0x11D8F, 0x11D8F); (0x11D92, 0x11D92);
   (0x11D99, 0x11D9F); (0x11DAA, 0x11EDF); (0x11EF9, 0x11FAF); (0x11FB1, 0x11FBF);
   (0x11FF2, 0x11FFE); (0x1239A, 0x123FF); (0x1246F, 0x1246F); (0x12475, 0x1247F);
   (0x12544, 0x12F8F); (0x12FF3, 0x12FFF); (0x1342F, 0x143FF); (0x14647, 0x167FF);
   (0x16A39, 0x16A3F); (0x16A5F, 0x16A5F); (0x16A6A, 0x16A6D); (0x16ABF, 0x16ABF);
   (0x16ACA, 0x16ACF); (0x16AEE, 0x16AEF); (0x16AF6, 0x16AFF); (0x16B46, 0x16B4F);
   (0x16B5A, 0x16B5A); (0x16B62, 0x16B62); (0x16B78, 0x16B7C); (0x16B90, 0x16E3F);
   (0x16E9B, 0x16EFF); (0x16F4B, 0x16F4E); (0x16F88, 0x16F8E); (0x16FA0, 0x16FDF);
   (0x16FE5, 0x16FEF); (0x16FF2, 0x16FFF); (0x187F8, 0x187FF); (0x18CD6, 0x18CFF);
   (0x18D09, 0x1AFEF); (0x1AFF4, 0x1AFF4); (0x1AFFC, 0x1AFFC); (0x1AFFF, 0x1AFFF);
   (0x1B123, 0x1B14F); (0x1B153, 0x1B163); (0x1B168, 0x1B16F); (0x1B2FC, 0x1BBFF);
   (0x1BC6B, 0x1BC6F); (0x1BC7D, 0x1BC7F); (0x1BC89, 0x1BC8F); (0x1BC9A, 0x1BC9B);
   (0x1BCA0, 0x1CEFF); (0x1CF2E, 0x1CF2F); (0x1CF47, 0x1CF4F); (0x1CFC4, 0x1CFFF);
   (0x1D0F6, 0x1D0FF); (0x1D127, 0x1D128); (0x1D173, 0x1D17A); (0x1D1EB, 0x1D1FF);
   (0x1D246, 0x1D2DF); (0x1D2F4, 0x1D2FF); (0x1D357, 0x1D35F); (0x1D379, 0x1D3FF);
   (0x1D455, 0x1D455); (0x1D49D, 0x1D49D); (0x1D4A0, 0x1D4A1); (0x1D4A3, 0x1D4A4);
   (0x1D4A7, 0x1D4A8); (0x1D4AD, 0x1D4AD); (0x1D4BA, 0x1D4BA); (0x1D4BC, 0x1D4BC);
   (0x1D4C4, 0x1D4C4); (0x1D506, 0x1D506); (0x1D50B, 0x1D50C); (0x1D515, 0x1D515);
   (0x1D51D, 0x1D51D); (0x1D53A, 0x1D53A); (0x1D53F, 0x1D53F); (0x1D545, 0x1D545);
   (0x1D547, 0x1D549); (0x1D551, 0x1D551); (0x1D6A6, 0x1D6A7); (0x1D7CC, 0x1D7CD);
   (0x1DA8C, 0x1DA9A); (0x1DAA0, 0x1DAA0); (0x1DAB0, 0x1DEFF); (0x1DF1F, 0x1DFFF);
   (0x1E007, 0x1E007); (0x1E019, 0x1E01A); (0x1E022, 0x1E022); (0x1E025, 0x1E025);
   (0x1E02B, 0x1E0FF); (0x1E12D, 0x1E12F); (0x1E13E, 0x1E13F); (0x1E14A, 0x1E14D);
   (0x1E150, 0x1E28F); (0x1E2AF, 0x1E2BF); (0x1E2FA, 0x1E2FE); (0x1E300, 0x1E7DF);
   (0x1E7E7, 0x1E7E7); (0x1E7EC, 0x1E7EC); (0x1E7EF, 0x1E7EF); (0x1E7FF, 0x1E7FF);
   (0x1E8C5, 0x1E8C6); (0x1E8D7, 0x1E8FF); (0x1E94C, 0x1E94F); (0x1E95A, 0x1E95D);
   (0x1E960, 0x1EC70); (0x1ECB5, 0x1ED00); (0x1ED3E, 0x1EDFF); (0x1EE04, 0x1EE04);
   (0x1EE20, 0x1EE20); (0x1EE23, 0x1EE23); (0x1EE25, 0x1EE26); (0x1EE28, 0x1EE28);
   (0x1EE33, 0x1EE33); (0x1EE38, 0x1EE38); (0x1EE3A, 0x1EE3A); (0x1EE3C, 0x1EE41);
   (0x1EE43, 0x1EE46); (0x1EE48, 0x1EE48); (0x1EE4A, 0x1EE4A); (0x1EE4C, 0x1EE4C);
   (0x1EE50, 0x1EE50); (0x1EE53, 0x1EE53); (0x1EE55, 0x1EE56); (0x1EE58, 0x1EE58);
   (0x1EE5A, 0x1EE5A); (0x1EE5C, 0x1EE5C); (0x1EE5E, 0x1EE5E); (0x1EE60, 0x1EE60);
   (0x1EE63, 0x1EE63); (0x1EE65, 0x1EE66); (0x1EE6B, 0x1EE6B); (0x1EE73, 0x1EE73);
   (0x1EE78, 0x1EE78); (0x1EE7D, 0x1EE7D); (0x1EE7F, 0x1EE7F); (0x1EE8A, 0x1EE8A);
   (0x1EE9C, 0x1EEA0); (0x1EEA4, 0x1EEA4); (0x1EEAA, 0x1EEAA); (0x1EEBC, 0x1EEEF);
   (0x1EEF2, 0x1EFFF); (0x1F02C, 0x1F02F); (0x1F094, 0x1F09F); (0x1F0AF, 0x1F0B0);
   (0x1F0C0, 0x1F0C0); (0x1F0D0, 0x1F0D0); (0x1F0F6, 0x1F0FF); (0x1F1AE, 0x1F1E5);
   (0x1F203, 0x1F20F); (0x1F23C, 0x1F23F); (0x1F249, 0x1F24F); (0x1F252, 0x1F25F);
   (0x1F266, 0x1F2FF); (0x1F6D8, 0x1F6DC); (0x1F6ED, 0x1F6EF); (0x1F6FD, 0x1F6FF);
   (0x1F774, 0x1F77F); (0x1F7D9, 0x1F7DF); (0x1F7EC, 0x1F7EF); (0x1F7F1, 0x1F7FF);
   (0x1F80C, 0x1F80F); (0x1F848, 0x1F84F); (0x1F85A, 0x1F85F); (0x1F888, 0x1F88F);
   (0x1F8AE, 0x1F8AF); (0x1F8B2, 0x1F8FF); (0x1FA54, 0x1FA5F); (0x1FA6E, 0x1FA6F);
   (0x1FA75, 0x1FA77); (0x1FA7D, 0x1FA7F); (0x1FA87, 0x1FA8F); (0x1FAAD, 0x1FAAF);
   (0x1FABB, 0x1FABF); (0x1FAC6, 0x1FACF); (0x1FADA, 0x1FADF); (0x1FAE8, 0x1FAEF);
   (0x1FAF7, 0x1FAFF); (0x1FB93, 0x1FB93); (0x1FBCB, 0x1FBEF); (0x1FBFA, 0x1FFFF);
   (0x2A6E0, 0x2A6FF); (0x2B739, 0x2B73F); (0x2B81E, 0x2B81F); (0x2CEA2, 0x2CEAF);
   (0x2EBE1, 0x2F7FF); (0x2FA1E, 0x2FFFF); (0x3134B, 0xE00FF); (0xE01F0, 0x10FFFF)
]%N.

(** [Py_UNICODE_ISSPACE], [Py_UNICODE_TODECIMAL] and
    [Py_UNICODE_ISPRINTABLE] on a character above [U+007E]. *)
Definition Py_UNICODE_ISSPACE (c : N) : bool := in_ranges unicode_spaces c.

Definition Py_UNICODE_TODECIMAL (c : N) : option N :=
  match find (fun z => ((z <=? c) && (c <=? z + 9))%N) decimal_zeros with
  | Some z => Some (c - z)%N
  | None => None
  end.

Definition Py_UNICODE_ISPRINTABLE (c : N) : bool :=
  negb (in_ranges unprintable c).

(** ** [repr(s)] of a [str], as code points *)

Definition hex_digit (d : N) : N :=
  if (d <? 10)%N then (48 + d)%N else (87 + d)%N.

Fixpoint hex_digits (width : nat) (c : N) (acc : list N) : list N :=
  match width with
  | O => acc
  | S w => hex_digits w (c / 16)%N (hex_digit (c mod 16)%N :: acc)
  end.

Definition repr_char (quote c : N) : list N :=
  if ((c =? quote) || (c =? 92))%N then [92; c]%N
  else if (c =? 9)%N then [92; 116]%N
  else if (c =? 10)%N then [92; 110]%N
  else if (c =? 13)%N then [92; 114]%N
  else if ((c <? 32) || (c =? 0x7F))%N then (92 :: 120 :: hex_digits 2 c [])%N
  else if (c <? 0x7F)%N then [c]
  else if Py_UNICODE_ISPRINTABLE c then [c]
  else if (c <=? 0xFF)%N then (92 :: 120 :: hex_digits 2 c [])%N
  else if (c <=? 0xFFFF)%N then (92 :: 117 :: hex_digits 4 c [])%N
  else (92 :: 85 :: hex_digits 8 c [])%N.

Definition repr_code_points (s : list N) : list N :=
  let squote := existsb (N.eqb 39) s in
  let dquote := existsb (N.eqb 34) s in
  let quote := if squote && negb dquote then 34%N else 39%N in
  (quote :: flat_map (repr_char quote) s ++ [quote])%list.

(** ** [int(s, base)] for a [str]

    [PyLong_FromUnicodeObject]: the characters above [U+007E] are
    replaced (a space for white space, the ASCII digit for a decimal
    digit, a question mark for anything else, where the text is cut),
    then [PyLong_FromString] reads the literal: white space in the sense
    of [Py_ISSPACE], an optional sign, the base prefix, digits with
    single underscores between them, white space. *)

Fixpoint transform (s : list N) : list N :=
  match s with
  | [] => []
  | c :: s' =>
      if (c <? 127)%N then c :: transform s'
      else if Py_UNICODE_ISSPACE c then 32%N :: transform s'
      else match Py_UNICODE_TODECIMAL c with
           | Some d => (48 + d)%N :: transform s'
           | None => [63%N]
           end
  end.

Definition Py_ISSPACE (c : N) : bool :=
  ((9 <=? c) && (c <=? 13) || (c =? 32))%N.

(** [_PyLong_DigitValue]: 37 for a character that is no digit in any
    base. *)
Definition PyLong_DigitValue (c : N) : N :=
  if ((48 <=? c) && (c <=? 57))%N then (c - 48)%N
  else if ((97 <=? c) && (c <=? 122))%N then (c - 87)%N
  else if ((65 <=? c) && (c <=? 90))%N then (c - 55)%N
  else 37%N.

Fixpoint skip_spaces (s : list N) : list N :=
  match s with
  | c :: s' => if Py_ISSPACE c then skip_spaces s' else s
  | [] => []
  end.

(** The run of digits and underscores at the head of [s]: its digits
    and what follows it, or [None] for a doubled or a trailing
    underscore. *)
Fixpoint scan_digits (base : N) (prev_underscore : bool) (s : list N)
  : option (list N * list N) :=
  match s with
  | c :: s' =>
      if (c =? 95)%N
      then if prev_underscore then None else scan_digits base true s'
      else if (PyLong_DigitValue c <? base)%N
      then match scan_digits base false s' with
           | Some (digits, rest) => Some (PyLong_DigitValue c :: digits, rest)
           | None => None
           end
      else if prev_underscore then None else Some ([], s)
  | [] => if prev_underscore then None else Some ([], [])
  end.

(** The base a literal is read in, and whether it is a decimal that
    starts with a zero and must therefore be zero. *)
Definition literal_base (base : N) (s : list N) : N * bool :=
  if negb (base =? 0)%N then (base, false)
  else
    match s with
    | 48%N :: c :: _ =>
        if ((c =? 120) || (c =? 88))%N then (16%N, false)
        else if ((c =? 111) || (c =? 79))%N then (8%N, false)
        else if ((c =? 98) || (c =? 66))%N then (2%N, false)
        else (10%N, true)
    | 48%N :: [] => (10%N, true)
    | _ => (10%N, false)
    end.

Definition skip_prefix (base : N) (s : list N) : list N :=
  match s with
  | 48%N :: c :: s' =>
      if ((base =? 16) && ((c =? 120) || (c =? 88))
          || (base =? 8) && ((c =? 111) || (c =? 79))
          || (base =? 2) && ((c =? 98) || (c =? 66)))%N
      then match s' with
           | 95%N :: s'' => s''
           | _ => s'
           end
      else s
  | _ => s
  end.

Definition power_of_two (base : N) : bool :=
  ((base =? 2) || (base =? 4) || (base =? 8) || (base =? 16)
   || (base =? 32))%N.

(** [sys.get_int_max_str_digits()], which the sources leave at its
    default. *)
Definition int_max_str_digits : N := 4300.

Inductive literal : Type :=
| Value (n : Z)
| Invalid
| TooManyDigits (digits : N).

Definition PyLong_FromString (s : list N) (base : N) : literal :=
  let s := skip_spaces s in
  let (negative, s) :=
    match s with
    | 43%N :: s' => (false, s')
    | 45%N :: s' => (true, s')
    | _ => (false, s)
    end in
  let (base, zero_only) := literal_base base s in
  let s := skip_prefix base s in
  match s with
  | 95%N :: _ => Invalid
  | _ =>
      match scan_digits base false s with
      | None => Invalid
      | Some (digits, rest) =>
          let count := N.of_nat (List.length digits) in
          if negb (power_of_two base) && (int_max_str_digits <? count)%N
          then TooManyDigits count
          else
            let n := fold_left (fun acc d => (acc * base + d)%N) digits 0%N in
            if zero_only && negb (n =? 0)%N then Invalid
            else
              match digits, skip_spaces rest with
              | _ :: _, [] =>
                  Value (if negative then (- Z.of_N n)%Z else Z.of_N n)
              | _, _ => Invalid
              end
      end
  end.

Definition int (s : string) (base : N) : result Z :=
  if negb (base =? 0)%N && ((base <? 2) || (36 <? base))%N
  then raise (ValueError "int() base must be >= 2 and <= 36, or 0")
  else
    match PyLong_FromString (transform (code_points s)) base with
    | Value n => ok n
    | TooManyDigits digits =>
        raise (ValueError
                 ("Exceeds the limit (" ++ str_int (Z.of_N int_max_str_digits)
                  ++ " digits) for integer string conversion: value has "
                  ++ str_int (Z.of_N digits)
                  ++ " digits; use sys.set_int_max_str_digits() to increase the limit"))
    | Invalid =>
        raise (ValueError
                 ("invalid literal for int() with base "
                  ++ str_int (Z.of_N base) ++ ": "
                  ++ string_of_bytes
                       (flat_map encode
                          (firstn 200 (repr_code_points (code_points s))))))
    end.

(** [n.to_bytes(length, 'big')]: [None] stands for the [OverflowError]
    of a negative or too wide [n]. *)
Fixpoint be_bytes (length : nat) (n : N) (acc : list Byte.byte)
  : list Byte.byte :=
  match length with
  | O => acc
  | S k =>
      match Byte.of_N (n mod 256)%N with
      | Some b => be_bytes k (n / 256)%N (b :: acc)
      | None => acc
      end
  end.

Definition to_bytes_big (length : nat) (n : Z) : option (list Byte.byte) :=
  if ((0 <=? n) && (n <? 256 ^ Z.of_nat length))%Z
  then Some (be_bytes length (Z.to_N n) [])
  else None.

(** ** Dictionaries

    A [dict] keeps its keys in insertion order; assigning to a key that
    is present keeps its position. *)
Definition dict (K V : Type) : Type := list (K * V).

Section Dict.
Context {K V : Type} (eqb : K -> K -> bool).

Fixpoint dict_get (k : K) (d : dict K V) : option V :=
  match d with
  | [] => None
  | (k', v) :: d' => if eqb k k' then Some v else dict_get k d'
  end.

Definition dict_mem (k : K) (d : dict K V) : bool :=
  match dict_get k d with Some _ => true | None => false end.

Fixpoint dict_set (k : K) (v : V) (d : dict K V) : dict K V :=
  match d with
  | [] => [(k, v)]
  | (k', v') :: d' =>
      if eqb k k' then (k, v) :: d' else (k', v') :: dict_set k v d'
  end.

Definition dict_keys (d : dict K V) : list K := List.map fst d.
End Dict.

Definition option_eqb {A} (eqb : A -> A -> bool) (a b : option A) : bool :=
  match a, b with
  | None, None => true
  | Some x, Some y => eqb x y
  | _, _ => false
  end.

(** [sorted(l, key=key)] is stable: elements with equal keys keep their
    order.  Insertion from the right puts an element before the first
    one whose key is not smaller. *)
Section Sorted.
Context {A : Type} (key : A -> nat).

Fixpoint insert_by_key (x : A) (l : list A) : list A :=
  match l with
  | [] => [x]
  | y :: l' =>
      if (key x <=? key y)%nat then x :: y :: l'
      else y :: insert_by_key x l'
  end.

Definition sorted (l : list A) : list A :=
  fold_right insert_by_key [] l.
End Sorted.

End Py.

(* ===================================================================== *)
(** * util.py                                                             *)
(* ===================================================================== *)

Module util.
Import Py.

(** [conv_map]: a stored value may be [None]. *)
Definition conv_map_t : Type := dict string (option string).

Definition get_convenience_variable (conv_map : conv_map_t) (id : string)
  : string :=
  match dict_get String.eqb id conv_map with
  | None => "auto"
  | Some None => "auto"
  | Some (Some val) => val
  end.

Definition set_convenience_variable (conv_map : conv_map_t) (id : string)
  (value : option string) : conv_map_t :=
  dict_set String.eqb id value conv_map.

(** What [dbg.query_system_parameters()] answers: the entries the
    sources read by name are fields; the remaining entries, strings or
    nested dictionaries of strings, are kept in the dictionary's order. *)
Inductive sp_value : Type :=
| SPStr (s : string)
| SPDict (d : dict string string).

Record system_parameters : Type := {
  sp_arch : string;
  sp_platform : string;
  sp_other : dict string sp_value
}.

(** The device handle [util.dbg] as far as the sources query it: the
    answer of [query_system_parameters()], or the exception it raises
    (which includes the [AttributeError] of an unset [util.dbg]). *)
Definition dbg_t : Type := result system_parameters.

(** [parse_and_eval(expr)] is [int(expr)]: an [int] is returned as it
    is, a [str] is read as a decimal literal. *)
Definition parse_and_eval (expr : pyval) : result Z :=
  match expr with
  | PyInt n => ok n
  | PyStr s => int s 10
  | PyNone =>
      raise (TypeError "int() argument must be a string, a bytes-like object or a real number, not 'NoneType'")
  end.

End util.

(* ===================================================================== *)
(** * arch.py                                                             *)
(* ===================================================================== *)

Module arch.
Import Py.

Definition language_map : dict string (list string) := [
  ("aarch64", ["AARCH64:BE:64:v8A"; "AARCH64:LE:64:AppleSilicon"; "AARCH64:LE:64:v8A"]);
  ("aarch64:ilp32", ["AARCH64:BE:32:ilp32"; "AARCH64:LE:32:ilp32"; "AARCH64:LE:64:AppleSilicon"]);
  ("arm_any", ["ARM:BE:32:v8"; "ARM:BE:32:v8T"; "ARM:LE:32:v8"; "ARM:LE:32:v8T"]);
  ("armv2", ["ARM:BE:32:v4"; "ARM:LE:32:v4"]);
  ("armv2a", ["ARM:BE:32:v4"; "ARM:LE:32:v4"]);
  ("armv3", ["ARM:BE:32:v4"; "ARM:LE:32:v4"]);
  ("armv3m", ["ARM:BE:32:v4"; "ARM:LE:32:v4"]);
  ("armv4", ["ARM:BE:32:v4"; "ARM:LE:32:v4"]);
  ("armv4t", ["ARM:BE:32:v4t"; "ARM:LE:32:v4t"]);
  ("armv5", ["ARM:BE:32:v5"; "ARM:LE:32:v5"]);
  ("armv5t", ["ARM:BE:32:v5t"; "ARM:LE:32:v5t"]);
  ("armv5tej", ["ARM:BE:32:v5t"; "ARM:LE:32:v5t"]);
  ("armv6", ["ARM:BE:32:v6"; "ARM:LE:32:v6"]);
  ("armv6-m", ["ARM:BE:32:Cortex"; "ARM:LE:32:Cortex"]);
  ("armv6k", ["ARM:BE:32:Cortex"; "ARM:LE:32:Cortex"]);
  ("armv6kz", ["ARM:BE:32:Cortex"; "ARM:LE:32:Cortex"]);
  ("armv6s-m", ["ARM:BE:32:Cortex"; "ARM:LE:32:Cortex"]);
  ("armv7", ["ARM:BE:32:v7"; "ARM:LE:32:v7"]);
  ("armv7e-m", ["ARM:LE:32:Cortex"]);
  ("armv8-a", ["ARM:BE:32:v8"; "ARM:LE:32:v8"]);
  ("armv8-m.base", ["ARM:BE:32:v8"; "ARM:LE:32:v8"]);
  ("armv8-m.main", ["ARM:BE:32:v8"; "ARM:LE:32:v8"]);
  ("armv8-r", ["ARM:BE:32:v8"; "ARM:LE:32:v8"]);
  ("armv8.1-m.main", ["ARM:BE:32:v8"; "ARM:LE:32:v8"]);
  ("avr:107", ["avr8:LE:24:xmega"]);
  ("avr:31", ["avr8:LE:16:default"]);
  ("avr:51", ["avr8:LE:16:atmega256"]);
  ("avr:6", ["avr8:LE:16:atmega256"]);
  ("hppa2.0w", ["pa-risc:BE:32:default"]);
  ("i386", ["x86:LE:32:default"]);
  ("i386:intel", ["x86:LE:32:default"]);
  ("i386:x86-64", ["x86:LE:64:default"]);
  ("i386:x86-64:intel", ["x86:LE:64:default"]);
  ("i8086", ["x86:LE:16:Protected Mode"; "x86:LE:16:Real Mode"]);
  ("iwmmxt", ["ARM:BE:32:v7"; "ARM:BE:32:v8"; "ARM:BE:32:v8T"; "ARM:LE:32:v7"; "ARM:LE:32:v8"; "ARM:LE:32:v8T"]);
  ("m68hc12", ["HC-12:BE:16:default"]);
  ("m68k", ["68000:BE:32:default"]);
  ("m68k:68020", ["68000:BE:32:MC68020"]);
  ("m68k:68030", ["68000:BE:32:MC68030"]);
  ("m9s12x", ["HCS-12:BE:24:default"; "HCS-12X:BE:24:default"]);
  ("mips:4000", ["MIPS:BE:32:default"; "MIPS:LE:32:default"]);
  ("mips:5000", ["MIPS:BE:64:64-32addr"; "MIPS:BE:64:default"; "MIPS:LE:64:64-32addr"; "MIPS:LE:64:default"]);
  ("mips:micromips", ["MIPS:BE:32:micro"]);
  ("msp:430X", ["TI_MSP430:LE:16:default"]);
  ("powerpc:403", ["PowerPC:BE:32:4xx"; "PowerPC:LE:32:4xx"]);
  ("powerpc:MPC8XX", ["PowerPC:BE:32:MPC8270"; "PowerPC:BE:32:QUICC"; "PowerPC:LE:32:QUICC"]);
  ("powerpc:common", ["PowerPC:BE:32:default"; "PowerPC:LE:32:default"]);
  ("powerpc:common64", ["PowerPC:BE:64:64-32addr"; "PowerPC:BE:64:default"; "PowerPC:LE:64:64-32addr"; "PowerPC:LE:64:default"]);
  ("powerpc:e500", ["PowerPC:BE:32:e500"; "PowerPC:LE:32:e500"]);
  ("powerpc:e500mc", ["PowerPC:BE:64:A2ALT"; "PowerPC:LE:64:A2ALT"]);
  ("powerpc:e500mc64", ["PowerPC:BE:64:A2-32addr"; "PowerPC:BE:64:A2ALT-32addr"; "PowerPC:LE:64:A2-32addr"; "PowerPC:LE:64:A2ALT-32addr"]);
  ("riscv:rv32", ["RISCV:LE:32:RV32G"; "RISCV:LE:32:RV32GC"; "RISCV:LE:32:RV32I"; "RISCV:LE:32:RV32IC"; "RISCV:LE:32:RV32IMC"; "RISCV:LE:32:default"]);
  ("riscv:rv64", ["RISCV:LE:64:RV64G"; "RISCV:LE:64:RV64GC"; "RISCV:LE:64:RV64I"; "RISCV:LE:64:RV64IC"; "RISCV:LE:64:default"]);
  ("sh4", ["SuperH4:BE:32:default"; "SuperH4:LE:32:default"]);
  ("sparc:v9b", ["sparc:BE:32:default"; "sparc:BE:64:default"]);
  ("x86", ["x86:LE:32:default"]);
  ("x64", ["x86:LE:64:default"]);
  ("xscale", ["ARM:BE:32:v6"; "ARM:LE:32:v6"]);
  ("z80", ["z80:LE:16:default"; "z8401x:LE:16:default"])
].

(** The compiler tables are keyed by an OS/ABI name or by [None]. *)
Definition data64_compiler_map : dict (option string) string := [
  (None, "pointer64")
].

Definition x86_compiler_map : dict (option string) string := [
  (Some "linux", "gcc");
  (Some "windows", "windows");
  (Some "Cygwin", "Visual Studio")
].

Definition compiler_map : dict string (dict (option string) string) := [
  ("DATA:BE:64:default", data64_compiler_map);
  ("DATA:LE:64:default", data64_compiler_map);
  ("x86:LE:32:default", x86_compiler_map);
  ("x86:LE:64:default", x86_compiler_map)
].

Section Resolver.
(** The ambient state the resolver reads: the convenience variables
    and the device. *)
Variable conv_map : util.conv_map_t.
Variable dbg : util.dbg_t.

Definition get_arch : string :=
  match dbg with
  | inl _ => "Unknown"
  | inr params => util.sp_arch params
  end.

(** [get_convenience_variable] never answers [None], so only the
    comparison with ['auto'] decides. *)
Definition get_endian : string :=
  let parm := util.get_convenience_variable conv_map "endian" in
  if negb (String.eqb parm "auto") then parm else "little".

(** When the query raises, the handler only prints, and the final
    [params['platform']] reads a local that was never bound. *)
Definition get_osabi : result string :=
  let parm := util.get_convenience_variable conv_map "osabi" in
  if negb (String.eqb parm "auto" || String.eqb parm "default")
  then ok parm
  else match dbg with
       | inl _ => raise (UnboundLocalError "params")
       | inr params => ok (util.sp_platform params)
       end.

Definition lebe_of (endian : string) : string :=
  if String.eqb endian "big" then ":BE:" else ":LE:".

(** The sort key of the candidates: [0] for a [':default'] variant,
    the length of the identifier otherwise. *)
Definition language_key (l : string) : nat :=
  if endswith ":default" l then 0%nat else String.length l.

Definition compute_ghidra_language : string :=
  let lang := util.get_convenience_variable conv_map "ghidra-language" in
  if negb (String.eqb lang "auto") then lang
  else
    let arch := get_arch in
    let endian := get_endian in
    let lebe := lebe_of endian in
    match dict_get String.eqb arch language_map with
    | None => "DATA" ++ lebe ++ "64:default"
    | Some langs =>
        let matched_endian :=
          sorted language_key (filter (contains lebe) langs) in
        match matched_endian with
        | l :: _ => l
        | [] => "DATA" ++ lebe ++ "64:default"
        end
    end.

Definition compute_ghidra_compiler (lang : string) : result string :=
  let comp := util.get_convenience_variable conv_map "ghidra-compiler" in
  if negb (String.eqb comp "auto") then ok comp
  else
    match dict_get String.eqb lang compiler_map with
    | None => ok "default"
    | Some comp_map =>
        match get_osabi with
        | inl e => raise e
        | inr osabi =>
            match dict_get (option_eqb String.eqb) (Some osabi) comp_map with
            | Some c => ok c
            | None =>
                match dict_get (option_eqb String.eqb) None comp_map with
                | Some c => ok c
                | None => ok "default"
                end
            end
        end
    end.

Definition compute_ghidra_lcsp : result (string * string) :=
  let lang := compute_ghidra_language in
  match compute_ghidra_compiler lang with
  | inl e => raise e
  | inr comp => ok (lang, comp)
  end.
End Resolver.

(** [ghidratrace.client.Address] and [RegVal], as the sources build and
    read them. *)
Record Address : Type := { space : string; offset : Z }.
Record RegVal : Type := { name : option string; value : list Byte.byte }.

(** How the client library's dataclass prints in the f-string of
    [map_back]. *)
Definition Address_repr (a : Address) : string :=
  "Address(space='" ++ space a ++ "', offset=" ++ str_int (offset a) ++ ")".

(** ** DefaultMemoryMapper *)
Record DefaultMemoryMapper : Type := { defaultSpace : string }.

Definition DefaultMemoryMapper_map (self : DefaultMemoryMapper)
  (proc : pyval) (offset : Z) : string * Address :=
  let space := defaultSpace self in
  (defaultSpace self, {| space := space; offset := offset |}).

Definition DefaultMemoryMapper_map_back (self : DefaultMemoryMapper)
  (proc : pyval) (address : Address) : result Z :=
  if String.eqb (space address) (defaultSpace self)
  then ok (offset address)
  else raise (ValueError ("Address " ++ Address_repr address
                          ++ " is not in process " ++ str proc)).

Definition DEFAULT_MEMORY_MAPPER : DefaultMemoryMapper :=
  {| defaultSpace := "ram" |}.

Definition memory_mappers : dict string DefaultMemoryMapper := [].

Definition compute_memory_mapper (lang : string) : DefaultMemoryMapper :=
  match dict_get String.eqb lang memory_mappers with
  | None => DEFAULT_MEMORY_MAPPER
  | Some m => m
  end.

(** ** The register mappers

    The two classes are the constructors; a method called on [self] is
    dispatched on the constructor, so that the base class's [map_value]
    reaches the subclass's [map_name]. *)
Inductive RegisterMapper : Type :=
| DefaultRegisterMapper (byte_order : string)
| Intel_x86_64_RegisterMapper.

Definition DefaultRegisterMapper_map_name (proc : pyval)
  (name : option string) : option string := name.

Definition Intel_x86_64_RegisterMapper_map_name (proc : pyval)
  (name : option string) : option string :=
  match name with
  | None => Some "UNKNOWN"
  | Some n =>
      if String.eqb n "efl" then Some "rflags"
      else if startswith "zmm" n then Some ("ymm" ++ slice_from 3 n)
      else DefaultRegisterMapper_map_name proc name
  end.

Definition map_name (self : RegisterMapper) (proc : pyval)
  (name : option string) : option string :=
  match self with
  | DefaultRegisterMapper _ => DefaultRegisterMapper_map_name proc name
  | Intel_x86_64_RegisterMapper =>
      Intel_x86_64_RegisterMapper_map_name proc name
  end.

Definition name_str (name : option string) : string :=
  match name with Some n => n | None => "None" end.

Definition DefaultRegisterMapper_map_value (self : RegisterMapper)
  (proc : pyval) (name : option string) (val : Z) : result RegVal :=
  match to_bytes_big 8 val with
  | None =>
      raise (ValueError ("Cannot convert " ++ name_str name ++ "'s value: '"
                         ++ str_int val ++ "', type: '<class 'int'>'"))
  | Some av => ok {| name := map_name self proc name; value := av |}
  end.

Definition Intel_x86_64_RegisterMapper_map_value (self : RegisterMapper)
  (proc : pyval) (raw : option string) (val : Z) : result RegVal :=
  match DefaultRegisterMapper_map_value self proc raw val with
  | inl e => raise e
  | inr rv =>
      match name rv with
      | None => raise (AttributeError "'NoneType' object has no attribute 'startswith'")
      | Some rvname =>
          if startswith "ymm" rvname && (32 <? List.length (value rv))%nat
          then ok {| name := Some rvname; value := tail_slice 32 (value rv) |}
          else ok rv
      end
  end.

Definition map_value (self : RegisterMapper) (proc : pyval)
  (name : option string) (val : Z) : result RegVal :=
  match self with
  | DefaultRegisterMapper _ => DefaultRegisterMapper_map_value self proc name val
  | Intel_x86_64_RegisterMapper =>
      Intel_x86_64_RegisterMapper_map_value self proc name val
  end.

Definition DefaultRegisterMapper_map_name_back (proc : pyval)
  (name : option string) : option string := name.

(** The method has a single [if] and no other [return]: every other
    name falls off the end and yields [None]. *)
Definition Intel_x86_64_RegisterMapper_map_name_back (proc : pyval)
  (name : option string) : option string :=
  if option_eqb String.eqb name (Some "rflags") then Some "eflags"
  else None.

Definition map_name_back (self : RegisterMapper) (proc : pyval)
  (name : option string) : option string :=
  match self with
  | DefaultRegisterMapper _ => DefaultRegisterMapper_map_name_back proc name
  | Intel_x86_64_RegisterMapper =>
      Intel_x86_64_RegisterMapper_map_name_back proc name
  end.

Definition map_value_back (self : RegisterMapper) (proc : pyval)
  (name : option string) (val : list Byte.byte) : RegVal :=
  {| name := map_name_back self proc name; value := val |}.

Definition DEFAULT_BE_REGISTER_MAPPER : RegisterMapper :=
  DefaultRegisterMapper "big".
Definition DEFAULT_LE_REGISTER_MAPPER : RegisterMapper :=
  DefaultRegisterMapper "little".

Definition register_mappers : dict string RegisterMapper := [
  ("x86:LE:64:default", Intel_x86_64_RegisterMapper)
].

Definition compute_register_mapper (lang : string) : result RegisterMapper :=
  match dict_get String.eqb lang register_mappers with
  | Some m => ok m
  | None =>
      if contains ":BE:" lang then ok DEFAULT_BE_REGISTER_MAPPER
      else if contains ":LE:" lang then ok DEFAULT_LE_REGISTER_MAPPER
      else raise (KeyError lang)
  end.

End arch.

(* ===================================================================== *)
(** * commands.py                                                         *)
(* ===================================================================== *)

Module commands.
Import Py.

Definition PAGE_SIZE : Z := 4096.

(** ** Path templates

    A template is its text cut at the replacement fields;
    [t.format] with keyword arguments raises [KeyError] at the first field that
    the arguments do not name, and ignores the names it does not use. *)
Inductive segment : Type :=
| Lit (s : string)
| Field (name : string).

Definition template : Type := list segment.

Fixpoint format (t : template) (kwargs : dict string pyval) : result string :=
  match t with
  | [] => ok ""
  | Lit s :: t' =>
      match format t' kwargs with
      | inl e => raise e
      | inr r => ok (s ++ r)
      end
  | Field f :: t' =>
      match dict_get String.eqb f kwargs with
      | None => raise (KeyError f)
      | Some v =>
          match format t' kwargs with
          | inl e => raise e
          | inr r => ok (str v ++ r)
          end
      end
  end.

(** The text of a template used as a plain string, braces included. *)
Fixpoint template_text (t : template) : string :=
  match t with
  | [] => ""
  | Lit s :: t' => s ++ template_text t'
  | Field f :: t' => "{" ++ f ++ "}" ++ template_text t'
  end.

Definition plus (t : template) (s : string) : template := (t ++ [Lit s])%list.
Definition key_pattern (field : string) : template :=
  [Lit "["; Field field; Lit "]"].

Definition SESSIONS_PATH : string := "Sessions".
Definition SESSION_KEY_PATTERN : template := key_pattern "sid".
Definition SESSION_PATTERN : template := Lit SESSIONS_PATH :: SESSION_KEY_PATTERN.
Definition ATTRIBUTES_PATH : template := plus SESSION_PATTERN ".Attributes".
Definition AVAILABLES_PATH : template := plus SESSION_PATTERN ".Available".
Definition AVAILABLE_KEY_PATTERN : template := key_pattern "pid".
Definition AVAILABLE_PATTERN : template := (AVAILABLES_PATH ++ AVAILABLE_KEY_PATTERN)%list.
Definition APPLICATIONS_PATH : template := plus SESSION_PATTERN ".Applications".
Definition APPLICATION_KEY_PATTERN : template := key_pattern "pid".
Definition APPLICATION_PATTERN : template := (APPLICATIONS_PATH ++ APPLICATION_KEY_PATTERN)%list.
Definition PROCESSES_PATH : template := plus SESSION_PATTERN ".Processes".
Definition PROCESS_KEY_PATTERN : template := key_pattern "pid".
Definition PROCESS_PATTERN : template := (PROCESSES_PATH ++ PROCESS_KEY_PATTERN)%list.
Definition ENV_PATTERN : template := plus SESSION_PATTERN ".Environment".
Definition THREADS_PATTERN : template := plus PROCESS_PATTERN ".Threads".
Definition THREAD_KEY_PATTERN : template := key_pattern "tid".
Definition THREAD_PATTERN : template := (THREADS_PATTERN ++ THREAD_KEY_PATTERN)%list.
Definition FRAMES_PATTERN : template := plus THREAD_PATTERN ".Stack".
Definition FRAME_KEY_PATTERN : template := key_pattern "level".
Definition FRAME_PATTERN : template := (FRAMES_PATTERN ++ FRAME_KEY_PATTERN)%list.
Definition REGS_PATTERN : template := plus THREAD_PATTERN ".Registers".
Definition REGIONS_PATTERN : template := plus PROCESS_PATTERN ".Memory".
Definition REGION_KEY_PATTERN : template := key_pattern "start".
Definition REGION_PATTERN : template := (REGIONS_PATTERN ++ REGION_KEY_PATTERN)%list.
Definition KREGIONS_PATTERN : template := plus SESSION_PATTERN ".Memory".
Definition KREGION_KEY_PATTERN : template := key_pattern "start".
Definition KREGION_PATTERN : template := (KREGIONS_PATTERN ++ KREGION_KEY_PATTERN)%list.
Definition HEAP_PATTERN : template := plus PROCESS_PATTERN ".Heap".
Definition HEAP_REGION_KEY_PATTERN : template := key_pattern "start".
Definition HEAP_REGION_PATTERN : template := (HEAP_PATTERN ++ HEAP_REGION_KEY_PATTERN)%list.
Definition MODULES_PATTERN : template := plus PROCESS_PATTERN ".Modules".
Definition MODULE_KEY_PATTERN : template := key_pattern "modpath".
Definition MODULE_PATTERN : template := (MODULES_PATTERN ++ MODULE_KEY_PATTERN)%list.
Definition KMODULES_PATTERN : template := plus SESSION_PATTERN ".Modules".
Definition KMODULE_KEY_PATTERN : template := key_pattern "modpath".
Definition KMODULE_PATTERN : template := (KMODULES_PATTERN ++ KMODULE_KEY_PATTERN)%list.
Definition SECTIONS_PATTERN : template := plus MODULE_PATTERN ".Sections".
Definition SECTION_KEY_PATTERN : template := key_pattern "start".
Definition SECTION_PATTERN : template := (SECTIONS_PATTERN ++ SECTION_KEY_PATTERN)%list.
Definition IMPORTS_PATTERN : template := plus MODULE_PATTERN ".Imports".
Definition IMPORT_KEY_PATTERN : template := key_pattern "addr".
Definition IMPORT_PATTERN : template := (IMPORTS_PATTERN ++ IMPORT_KEY_PATTERN)%list.
Definition EXPORTS_PATTERN : template := plus MODULE_PATTERN ".Exports".
Definition EXPORT_KEY_PATTERN : template := key_pattern "addr".
Definition EXPORT_PATTERN : template := (EXPORTS_PATTERN ++ EXPORT_KEY_PATTERN)%list.
Definition SYMBOLS_PATTERN : template := plus MODULE_PATTERN ".Symbols".
Definition SYMBOL_KEY_PATTERN : template := key_pattern "addr".
Definition SYMBOL_PATTERN : template := (SYMBOLS_PATTERN ++ SYMBOL_KEY_PATTERN)%list.
Definition DEPENDENCIES_PATTERN : template := plus MODULE_PATTERN ".Dependencies".
Definition DEPENDENCY_KEY_PATTERN : template := key_pattern "name".
Definition DEPENDENCY_PATTERN : template := (DEPENDENCIES_PATTERN ++ DEPENDENCY_KEY_PATTERN)%list.
Definition CLASSES_PATTERN : template := plus PROCESS_PATTERN ".Classes".
Definition CLASS_KEY_PATTERN : template := key_pattern "path".
Definition CLASS_PATTERN : template := (CLASSES_PATTERN ++ CLASS_KEY_PATTERN)%list.
Definition METHODS_PATTERN : template := plus CLASS_PATTERN ".Methods".
Definition METHOD_KEY_PATTERN : template := key_pattern "name".
Definition METHOD_PATTERN : template := (METHODS_PATTERN ++ METHOD_KEY_PATTERN)%list.
Definition LOADERS_PATTERN : template := plus PROCESS_PATTERN ".ClassLoaders".
Definition LOADER_KEY_PATTERN : template := key_pattern "path".
Definition LOADER_PATTERN : template := (LOADERS_PATTERN ++ LOADER_KEY_PATTERN)%list.

(** ** The trace store and the target, seen from the client

    Both are outside the program.  The store is represented by the
    sequence of requests sent to it, the target by the sequence of
    queries sent to it together with its answers ([target], below). *)

(** Values written with [set_value]; [TRange a n] is [a.extend(n)]. *)
Inductive tval : Type :=
| TNone
| TInt (n : Z)
| TStr (s : string)
| TBool (b : bool)
| TAddress (a : arch.Address)
| TRange (min : arch.Address) (length : Z).

Inductive store_call : Type :=
| create_object (path : string)
| set_value (path key : string) (v : tval)
| insert (path : string)
| retain_values (path : string) (keys : list string)
| create_overlay_space (base space : string)
| put_registers (space : string) (values : list arch.RegVal)
| put_bytes (addr : arch.Address) (data : list Z)
| set_memory_state (min : arch.Address) (length : Z) (state : string)
| batch_enter
| batch_exit.

Inductive target_query : Type :=
| run_script_query (text : string)
| enumerate_devices
| enumerate_processes
| enumerate_applications
| query_system_parameters.

(** [STATE]: the client, the trace with the two mappers [start_trace]
    attaches to it, and the open transaction. *)
Inductive Client : Type := MkClient (description : string).
Inductive Tx : Type := MkTx (description : string).

Record Trace : Type := {
  memory_mapper : arch.DefaultMemoryMapper;
  register_mapper : arch.RegisterMapper
}.

Record State : Type := {
  client : option Client;
  trace : option Trace;
  tx : option Tx
}.

(** An entry of [util.processes]. *)
Record process : Type := { proc_pid : Z; proc_name : string }.

(** Everything the commands can change: [STATE], the module globals of
    [util] and [commands], and the two request sequences (oldest
    first). *)
Record world : Type := {
  STATE : State;
  conv_map : util.conv_map_t;
  current_state : dict string pyval;
  processes : dict Z process;
  targets : list Z;
  last_address : Z;
  last_length : Z;
  store : list store_call;
  queries : list target_query
}.

Definition initial_current_state : dict string pyval :=
  [("sid", PyStr "local"); ("pid", PyNone); ("tid", PyNone); ("fid", PyNone)].

Definition set_current_state (d : dict string pyval) (w : world) : world :=
  {| STATE := STATE w; conv_map := conv_map w; current_state := d;
     processes := processes w; targets := targets w;
     last_address := last_address w; last_length := last_length w;
     store := store w; queries := queries w |}.

Definition set_last (address length : Z) (w : world) : world :=
  {| STATE := STATE w; conv_map := conv_map w;
     current_state := current_state w;
     processes := processes w; targets := targets w;
     last_address := address; last_length := length;
     store := store w; queries := queries w |}.

Definition set_store (l : list store_call) (w : world) : world :=
  {| STATE := STATE w; conv_map := conv_map w;
     current_state := current_state w;
     processes := processes w; targets := targets w;
     last_address := last_address w; last_length := last_length w;
     store := l; queries := queries w |}.

Definition set_queries (l : list target_query) (w : world) : world :=
  {| STATE := STATE w; conv_map := conv_map w;
     current_state := current_state w;
     processes := processes w; targets := targets w;
     last_address := last_address w; last_length := last_length w;
     store := store w; queries := l |}.

(** ** The monad of commands: state that survives an exception *)
Definition M (A : Type) : Type := world -> result A * world.

Definition ret {A} (a : A) : M A := fun w => (ok a, w).

Definition bind {A B} (c : M A) (k : A -> M B) : M B :=
  fun w =>
    match c w with
    | (inl e, w') => (raise e, w')
    | (inr a, w') => k a w'
    end.

Definition throw {A} (e : exn) : M A := fun w => (raise e, w).

Definition lift {A} (r : result A) : M A := fun w => (r, w).

Definition gets {A} (f : world -> A) : M A := fun w => (ok (f w), w).

Definition modify (f : world -> world) : M unit := fun w => (ok tt, f w).

(** [try: c / except Exception: pass]. *)
Definition try_pass (c : M unit) : M unit :=
  fun w =>
    match c w with
    | (inl _, w') => (ok tt, w')
    | (inr _, w') => (ok tt, w')
    end.

Declare Scope cmd_scope.
Delimit Scope cmd_scope with cmd.
Notation "x <- c ;; k" := (bind c (fun x => k))
  (at level 61, c at next level, right associativity) : cmd_scope.
Notation "c ;; k" := (bind c (fun _ => k))
  (at level 61, right associativity) : cmd_scope.
Local Open Scope cmd_scope.

(** A [for] loop that threads the locals it updates. *)
Fixpoint for_each {A S} (body : S -> A -> M S) (acc : S) (l : list A) : M S :=
  match l with
  | [] => ret acc
  | a :: l' => acc' <- body acc a ;; for_each body acc' l'
  end.

Definition when (b : bool) (c : M unit) : M unit :=
  if b then c else ret tt.

(** ** [State] *)
Definition require_client : M Client :=
  fun w =>
    match client (STATE w) with
    | None => (raise (RuntimeError "Not connected"), w)
    | Some c => (ok c, w)
    end.

Definition require_trace : M Trace :=
  fun w =>
    match trace (STATE w) with
    | None => (raise (RuntimeError "No trace active"), w)
    | Some t => (ok t, w)
    end.

Definition require_tx : M Tx :=
  fun w =>
    match tx (STATE w) with
    | None => (raise (RuntimeError "No transaction"), w)
    | Some t => (ok t, w)
    end.

(** [STATE.trace.<attribute>]: reading an attribute of [None] raises. *)
Definition STATE_trace (attribute : string) : M Trace :=
  fun w =>
    match trace (STATE w) with
    | None =>
        (raise (AttributeError ("'NoneType' object has no attribute '"
                                ++ attribute ++ "'")), w)
    | Some t => (ok t, w)
    end.

(** A request to the store through an object that is known to exist. *)
Definition send (c : store_call) : M unit :=
  modify (fun w => set_store (store w ++ [c])%list w).

(** [STATE.trace.create_object(path)]. *)
Definition trace_create_object (path : string) : M unit :=
  _ <- STATE_trace "create_object" ;; send (create_object path).

(** [STATE.trace.proxy_object_path(path).retain_values(keys)]. *)
Definition trace_retain_values (path : string) (keys : list string) : M unit :=
  _ <- STATE_trace "proxy_object_path" ;; send (retain_values path keys).

(** [STATE.trace.create_overlay_space(base, space)]. *)
Definition trace_create_overlay_space (base space : string) : M unit :=
  _ <- STATE_trace "create_overlay_space" ;; send (create_overlay_space base space).

(** [with STATE.client.batch() as b: body].  The client library's
    [batch()] is a generator context manager that starts the batch,
    yields, and ends the batch after the [yield], outside any [try]:
    when the body raises, the batch is not ended. *)
Definition with_batch (body : M unit) : M unit :=
  fun w =>
    match client (STATE w) with
    | None =>
        (raise (AttributeError "'NoneType' object has no attribute 'batch'"), w)
    | Some _ => (send batch_enter ;; body ;; send batch_exit) w
    end.

(** ** [util]: the selection and the scripts *)
Definition current (key : string) : M pyval :=
  gets (fun w => match dict_get String.eqb key (current_state w) with
                 | Some v => v
                 | None => PyNone
                 end).

Definition selected_session : M pyval := current "sid".
Definition selected_process : M pyval := current "pid".
Definition selected_thread : M pyval := current "tid".
Definition selected_frame : M pyval := current "fid".

(** [util.current_state[key] = v]. *)
Definition current_state_set (key : string) (v : pyval) : M unit :=
  modify (fun w => set_current_state
                     (dict_set String.eqb key v (current_state w)) w).

Definition select_thread (id : pyval) : M unit := current_state_set "tid" id.
Definition put_module_address (path : string) (addr : pyval) : M unit :=
  current_state_set path addr.

(** A message delivered to a script's callback: what the script sent,
    decoded ([value] and [data] of the JSON payload), or the engine's
    error report. *)
Inductive message (V D : Type) : Type :=
| msg_send (value : V) (data : D)
| msg_error (description : string).
Arguments msg_send {V D} value data.
Arguments msg_error {V D} description.

(** [targets[pid]]. *)
Definition lookup_target (pid : pyval) : M unit :=
  fun w =>
    match pid with
    | PyInt n =>
        if existsb (Z.eqb n) (targets w) then (ok tt, w)
        else (raise (KeyError (str pid)), w)
    | _ => (raise (KeyError (str pid)), w)
    end.

Definition query (q : target_query) : M unit :=
  modify (fun w => set_queries (queries w ++ [q])%list w).

(** The common part of [run_script] and [run_script_with_data]: no
    selected process, no script; otherwise the script is created and
    loaded, and the callback runs on the message it sends, if any. *)
Definition load_script {V D} (wrapped_text : string)
  (reply : option (message V D))
  (callback : option (message V D) -> M unit) : M unit :=
  pid <- selected_process ;;
  match pid with
  | PyNone => ret tt
  | _ =>
      lookup_target pid ;;
      query (run_script_query wrapped_text) ;;
      match reply with
      | None => ret tt
      | Some m => callback (Some m)
      end
  end.

Definition run_script {V D} (name text : string)
  (reply : option (message V D))
  (callback : option (message V D) -> M unit) : M unit :=
  load_script ("var result = ''; " ++ text
               ++ "var msg = { key: '" ++ name ++ "', value: result};"
               ++ "send(JSON.stringify(msg));") reply callback.

Definition run_script_with_data {V D} (name text data : string)
  (reply : option (message V D))
  (callback : option (message V D) -> M unit) : M unit :=
  load_script ("var data = " ++ data ++ "; " ++ "var result = ''; " ++ text
               ++ "var msg = { key: '" ++ name ++ "', value: result, data: data};"
               ++ "send(JSON.stringify(msg));") reply callback.

(** [get_values_from_callback]: [None] stands for the empty dictionary
    returned when there is nothing to read. *)
Definition get_values_from_callback {V D} (message : option (message V D))
  : option V :=
  match message with
  | None => None
  | Some (msg_error _) => None
  | Some (msg_send value _) => Some value
  end.

Definition get_data_from_callback {V D} (message : option (message V D))
  : option D :=
  match message with
  | None => None
  | Some (msg_error _) => None
  | Some (msg_send _ data) => Some data
  end.

(** Iterating the empty dictionary runs the loop body zero times. *)
Definition records {R} (values : option (list R)) : list R :=
  match values with
  | None => []
  | Some l => l
  end.

(** The callback data as a replacement field: the empty dictionary
    prints as ["{}"]. *)
Definition cbdata_value (cbdata : option string) : pyval :=
  match cbdata with
  | None => PyStr "{}"
  | Some s => PyStr s
  end.

(** ** What the target answers

    The records of the enumerations, with the fields the callbacks
    read.  A field the callbacks test for presence, or compare with
    [None], is an [option]. *)
Record file_info : Type := { f_path : string; f_offset : Z; f_size : Z }.

Record range_details : Type := {
  r_base : string; r_size : Z; r_protection : string;
  r_file : option file_info
}.

Record heap_range : Type := { h_base : string; h_size : Z }.

Record module_details : Type := {
  m_name : string; m_path : string; m_base : string; m_size : Z
}.

Record kmodule_details : Type := {
  km_name : string; km_base : string; km_size : Z
}.

Record import_details : Type := {
  i_name : string; i_address : string; i_type : string;
  i_module : option string; i_slot : option string
}.

Record export_details : Type := {
  x_name : string; x_address : string; x_type : string;
  x_module : option string
}.

Record section_ref : Type := { sec_id : string }.

Record symbol_details : Type := {
  s_name : string; s_address : string; s_type : string; s_size : Z;
  s_isGlobal : bool; s_section : option section_ref
}.

Record dependency_details : Type := { d_name : string; d_type : string }.

Record thread_details : Type := {
  t_id : Z; t_name : option string; t_state : option string;
  t_context : dict string string
}.

Record frame_details : Type := {
  fr_address : string; fr_name : option string;
  fr_moduleName : option string; fr_fileName : option string;
  fr_lineNumber : option Z; fr_column : option Z
}.

Record class_details : Type := {
  c_name : option string; c_path : option string;
  c_methods : option (list string)
}.

Record device : Type := { dev_id : string; dev_name : string; dev_type : string }.

(** The target: for every query the commands send, the answer it
    gives.  A script sends at most one message ([None]: it sends
    nothing); the module scripts are told apart by their arguments. *)
Record target : Type := {
  dbg : util.dbg_t;
  frida_devices : result (list device);
  dbg_processes : result (list process);
  dbg_applications : result (list process);
  session_attributes : option (message (dict string tval) unit);
  ranges : option (message (list range_details) unit);
  kernel_ranges : option (message (list range_details) unit);
  malloc_ranges : option (message (list heap_range) unit);
  modules : option (message (list module_details) unit);
  kernel_modules : option (message (list kmodule_details) unit);
  module_ranges : string -> string -> option (message (list range_details) string);
  module_imports : string -> string -> option (message (list import_details) string);
  module_exports : string -> string -> option (message (list export_details) string);
  module_symbols : string -> string -> option (message (list symbol_details) string);
  module_dependencies : string -> string -> option (message (list dependency_details) string);
  threads : option (message (list thread_details) unit);
  backtrace : option (message (list frame_details) unit);
  objc_classes : option (message (list class_details) unit);
  java_classes : option (message (list class_details) unit);
  java_class_loaders : option (message (list string) unit);
  memory_dump : string -> string -> option (message string Z)
}.

(** ** The synchronisation callbacks *)

Definition fmt (t : template) (kwargs : dict string pyval) : M string :=
  lift (format t kwargs).

(** [trace.memory_mapper.map(pid, offset)] followed by the guard every
    memory path repeats: an overlay space is requested when the base
    the mapper reports differs from the space of the address. *)
Definition overlay_needed (base : string) (addr : arch.Address) : bool :=
  negb (String.eqb base (arch.space addr)).

Definition put_regions_callback
  (message : option (message (list range_details) unit)) : M unit :=
  let values := get_values_from_callback message in
  sid <- selected_session ;;
  pid <- selected_process ;;
  t <- STATE_trace "memory_mapper" ;;
  let mapper := memory_mapper t in
  keys <- for_each (fun keys r =>
    let base := r_base r in
    let size := r_size r in
    let prot := r_protection r in
    rpath <- fmt REGION_PATTERN
               [("sid", sid); ("pid", pid); ("start", PyStr base)] ;;
    trace_create_object rpath ;;
    k <- fmt REGION_KEY_PATTERN [("start", PyStr base)] ;;
    let keys := (keys ++ [k])%list in
    n <- lift (int base 0) ;;
    let (base_base, base_addr) := arch.DefaultMemoryMapper_map mapper pid n in
    when (overlay_needed base_base base_addr)
      (trace_create_overlay_space base_base (arch.space base_addr)) ;;
    send (set_value rpath "_offset" (TAddress base_addr)) ;;
    send (set_value rpath "_range" (TRange base_addr size)) ;;
    send (set_value rpath "Base" (TStr base)) ;;
    send (set_value rpath "Size" (TStr (hex size))) ;;
    current_state_set base (PyInt size) ;;
    send (set_value rpath "Protection" (TStr prot)) ;;
    match r_file r with
    | Some file =>
        send (set_value rpath "File"
                (TStr (f_path file ++ " " ++ format_x (f_offset file)
                       ++ ":" ++ format_x (f_size file))))
    | None => ret tt
    end ;;
    send (set_value rpath "_display"
            (TStr (base ++ ":" ++ format_x size ++ " " ++ prot ++ " "))) ;;
    send (insert rpath) ;;
    ret keys) [] (records values) ;;
  path <- fmt REGIONS_PATTERN [("sid", sid); ("pid", pid)] ;;
  trace_retain_values path keys.

Definition put_kregions_callback
  (message : option (message (list range_details) unit)) : M unit :=
  let values := get_values_from_callback message in
  sid <- selected_session ;;
  pid <- selected_process ;;
  t <- STATE_trace "memory_mapper" ;;
  let mapper := memory_mapper t in
  keys <- for_each (fun keys r =>
    let base := r_base r in
    let size := r_size r in
    let prot := r_protection r in
    rpath <- fmt KREGION_PATTERN
               [("sid", sid); ("pid", pid); ("start", PyStr base)] ;;
    trace_create_object rpath ;;
    k <- fmt KREGION_KEY_PATTERN [("start", PyStr base)] ;;
    let keys := (keys ++ [k])%list in
    n <- lift (int base 0) ;;
    let (base_base, base_addr) := arch.DefaultMemoryMapper_map mapper pid n in
    when (overlay_needed base_base base_addr)
      (trace_create_overlay_space base_base (arch.space base_addr)) ;;
    send (set_value rpath "_offset" (TAddress base_addr)) ;;
    send (set_value rpath "_range" (TRange base_addr size)) ;;
    send (set_value rpath "Base" (TStr base)) ;;
    send (set_value rpath "Size" (TStr (hex size))) ;;
    current_state_set base (PyInt size) ;;
    send (set_value rpath "Protection" (TStr prot)) ;;
    send (set_value rpath "_display"
            (TStr (base ++ ":" ++ format_x size ++ " " ++ prot ++ " "))) ;;
    send (insert rpath) ;;
    ret keys) [] (records values) ;;
  path <- fmt KREGIONS_PATTERN [("sid", sid); ("pid", pid)] ;;
  trace_retain_values path keys.

(** The element path is formatted without [pid], which the template
    names. *)
Definition put_heap_callback
  (message : option (message (list heap_range) unit)) : M unit :=
  let values := get_values_from_callback message in
  pid <- selected_process ;;
  sid <- selected_session ;;
  t <- STATE_trace "memory_mapper" ;;
  let mapper := memory_mapper t in
  keys <- for_each (fun keys r =>
    let base := h_base r in
    let size := h_size r in
    rpath <- fmt HEAP_REGION_PATTERN [("sid", sid); ("start", PyStr base)] ;;
    trace_create_object rpath ;;
    k <- fmt HEAP_REGION_KEY_PATTERN [("start", PyStr base)] ;;
    let keys := (keys ++ [k])%list in
    n <- lift (int base 0) ;;
    let (base_base, base_addr) := arch.DefaultMemoryMapper_map mapper pid n in
    when (overlay_needed base_base base_addr)
      (trace_create_overlay_space base_base (arch.space base_addr)) ;;
    send (set_value rpath "_range" (TRange base_addr size)) ;;
    send (set_value rpath "Base" (TStr base)) ;;
    send (set_value rpath "Size" (TStr (hex size))) ;;
    send (set_value rpath "_display" (TStr (base ++ ":" ++ format_x size))) ;;
    send (insert rpath) ;;
    ret keys) [] (records values) ;;
  path <- fmt HEAP_PATTERN [("sid", sid); ("pid", pid)] ;;
  trace_retain_values path keys.

Definition put_modules_callback
  (message : option (message (list module_details) unit)) : M unit :=
  let values := get_values_from_callback message in
  sid <- selected_session ;;
  pid <- selected_process ;;
  t <- STATE_trace "memory_mapper" ;;
  let mapper := memory_mapper t in
  keys <- for_each (fun keys m =>
    let name := m_name m in
    let path := m_path m in
    let base := m_base m in
    let size := m_size m in
    put_module_address path (PyStr base) ;;
    mpath <- fmt MODULE_PATTERN
               [("sid", sid); ("pid", pid); ("modpath", PyStr path)] ;;
    trace_create_object mpath ;;
    k <- fmt MODULE_KEY_PATTERN [("modpath", PyStr path)] ;;
    let keys := (keys ++ [k])%list in
    n <- lift (int base 0) ;;
    let (base_base, base_addr) := arch.DefaultMemoryMapper_map mapper pid n in
    when (overlay_needed base_base base_addr)
      (trace_create_overlay_space base_base (arch.space base_addr)) ;;
    send (set_value mpath "_range" (TRange base_addr size)) ;;
    send (set_value mpath "_module_name" (TStr name)) ;;
    send (set_value mpath "Name" (TStr name)) ;;
    send (set_value mpath "Path" (TStr path)) ;;
    send (set_value mpath "Base" (TStr base)) ;;
    send (set_value mpath "Size" (TStr (hex size))) ;;
    current_state_set path (PyStr base) ;;
    current_state_set base (PyInt size) ;;
    send (set_value mpath "_display"
            (TStr (base ++ ":" ++ format_x size ++ " " ++ name ++ " "))) ;;
    send (insert mpath) ;;
    trace_create_object (mpath ++ ".Sections") ;;
    send (insert (mpath ++ ".Sections")) ;;
    trace_create_object (mpath ++ ".Exports") ;;
    send (insert (mpath ++ ".Exports")) ;;
    trace_create_object (mpath ++ ".Imports") ;;
    send (insert (mpath ++ ".Imports")) ;;
    trace_create_object (mpath ++ ".Symbols") ;;
    send (insert (mpath ++ ".Symbols")) ;;
    trace_create_object (mpath ++ ".Dependencies") ;;
    send (insert (mpath ++ ".Dependencies")) ;;
    ret keys) [] (records values) ;;
  path <- fmt MODULES_PATTERN [("sid", sid); ("pid", pid)] ;;
  trace_retain_values path keys.

Definition put_kmodules_callback
  (message : option (message (list kmodule_details) unit)) : M unit :=
  let values := get_values_from_callback message in
  sid <- selected_session ;;
  t <- STATE_trace "memory_mapper" ;;
  let mapper := memory_mapper t in
  keys <- for_each (fun keys m =>
    let name := km_name m in
    let base := km_base m in
    let size := km_size m in
    mpath <- fmt KMODULE_PATTERN [("sid", sid); ("modpath", PyStr name)] ;;
    trace_create_object mpath ;;
    k <- fmt KMODULE_KEY_PATTERN [("modpath", PyStr name)] ;;
    let keys := (keys ++ [k])%list in
    n <- lift (int base 0) ;;
    let (base_base, base_addr) :=
      arch.DefaultMemoryMapper_map mapper (PyInt 0) n in
    when (overlay_needed base_base base_addr)
      (trace_create_overlay_space base_base (arch.space base_addr)) ;;
    send (set_value mpath "_range" (TRange base_addr size)) ;;
    send (set_value mpath "Name" (TStr name)) ;;
    send (set_value mpath "Base" (TStr base)) ;;
    send (set_value mpath "Size" (TStr (hex size))) ;;
    current_state_set base (PyInt size) ;;
    send (set_value mpath "_display"
            (TStr (base ++ ":" ++ format_x size ++ " " ++ name ++ " "))) ;;
    send (insert mpath) ;;
    ret keys) [] (records values) ;;
  path <- fmt KMODULES_PATTERN [("sid", sid)] ;;
  trace_retain_values path keys.

Definition put_sections_callback
  (message : option (message (list range_details) string)) : M unit :=
  let values := get_values_from_callback message in
  let cbdata := cbdata_value (get_data_from_callback message) in
  sid <- selected_session ;;
  pid <- selected_process ;;
  t <- STATE_trace "memory_mapper" ;;
  let mapper := memory_mapper t in
  keys <- for_each (fun keys r =>
    let base := r_base r in
    let size := r_size r in
    let prot := r_protection r in
    rpath <- fmt SECTION_PATTERN
               [("sid", sid); ("pid", pid); ("modpath", cbdata);
                ("start", PyStr base)] ;;
    trace_create_object rpath ;;
    k <- fmt SECTION_KEY_PATTERN [("start", PyStr base)] ;;
    let keys := (keys ++ [k])%list in
    n <- lift (int base 0) ;;
    let (base_base, base_addr) := arch.DefaultMemoryMapper_map mapper pid n in
    when (overlay_needed base_base base_addr)
      (trace_create_overlay_space base_base (arch.space base_addr)) ;;
    send (set_value rpath "_range" (TRange base_addr size)) ;;
    send (set_value rpath "Base" (TStr base)) ;;
    send (set_value rpath "Size" (TStr (hex size))) ;;
    current_state_set base (PyInt size) ;;
    send (set_value rpath "Protection" (TStr prot)) ;;
    match r_file r with
    | Some file =>
        send (set_value rpath "File"
                (TStr (f_path file ++ " " ++ format_x (f_offset file)
                       ++ ":" ++ format_x (f_size file))))
    | None => ret tt
    end ;;
    send (set_value rpath "_display"
            (TStr (base ++ ":" ++ format_x size ++ " " ++ prot ++ " "))) ;;
    send (insert rpath) ;;
    ret keys) [] (records values) ;;
  path <- fmt SECTIONS_PATTERN
            [("sid", sid); ("pid", pid); ("modpath", cbdata)] ;;
  trace_retain_values path keys.

Definition set_optional (path key : string) (v : option string) : M unit :=
  match v with
  | Some s => send (set_value path key (TStr s))
  | None => ret tt
  end.

Definition put_imports_callback
  (message : option (message (list import_details) string)) : M unit :=
  let values := get_values_from_callback message in
  let cbdata := cbdata_value (get_data_from_callback message) in
  sid <- selected_session ;;
  pid <- selected_process ;;
  _ <- STATE_trace "memory_mapper" ;;
  keys <- for_each (fun keys i =>
    let name := i_name i in
    let addr := i_address i in
    let type := i_type i in
    ipath <- fmt IMPORT_PATTERN
               [("sid", sid); ("pid", pid); ("modpath", cbdata);
                ("addr", PyStr addr)] ;;
    trace_create_object ipath ;;
    k <- fmt IMPORT_KEY_PATTERN [("addr", PyStr addr)] ;;
    let keys := (keys ++ [k])%list in
    send (set_value ipath "Name" (TStr name)) ;;
    send (set_value ipath "Address" (TStr addr)) ;;
    current_state_set addr (PyStr name) ;;
    send (set_value ipath "Type" (TStr type)) ;;
    set_optional ipath "Module" (i_module i) ;;
    set_optional ipath "Slot" (i_slot i) ;;
    send (set_value ipath "_display" (TStr (addr ++ " " ++ name ++ " "))) ;;
    send (insert ipath) ;;
    ret keys) [] (records values) ;;
  path <- fmt IMPORTS_PATTERN
            [("sid", sid); ("pid", pid); ("modpath", cbdata)] ;;
  trace_retain_values path keys.

Definition put_exports_callback
  (message : option (message (list export_details) string)) : M unit :=
  let values := get_values_from_callback message in
  let cbdata := cbdata_value (get_data_from_callback message) in
  sid <- selected_session ;;
  pid <- selected_process ;;
  _ <- STATE_trace "memory_mapper" ;;
  keys <- for_each (fun keys x =>
    let name := x_name x in
    let addr := x_address x in
    let type := x_type x in
    xpath <- fmt EXPORT_PATTERN
               [("sid", sid); ("pid", pid); ("modpath", cbdata);
                ("addr", PyStr addr)] ;;
    trace_create_object xpath ;;
    k <- fmt EXPORT_KEY_PATTERN [("addr", PyStr addr)] ;;
    let keys := (keys ++ [k])%list in
    send (set_value xpath "Name" (TStr name)) ;;
    send (set_value xpath "Address" (TStr addr)) ;;
    current_state_set addr (PyStr name) ;;
    send (set_value xpath "Type" (TStr type)) ;;
    set_optional xpath "Module" (x_module x) ;;
    send (set_value xpath "_display" (TStr (addr ++ " " ++ name ++ " "))) ;;
    send (insert xpath) ;;
    ret keys) [] (records values) ;;
  path <- fmt EXPORTS_PATTERN
            [("sid", sid); ("pid", pid); ("modpath", cbdata)] ;;
  trace_retain_values path keys.

Definition put_symbols_callback
  (message : option (message (list symbol_details) string)) : M unit :=
  let values := get_values_from_callback message in
  let cbdata := cbdata_value (get_data_from_callback message) in
  sid <- selected_session ;;
  pid <- selected_process ;;
  _ <- STATE_trace "memory_mapper" ;;
  keys <- for_each (fun keys sym =>
    let name := s_name sym in
    let addr := s_address sym in
    let type := s_type sym in
    let size := s_size sym in
    let isglobal := s_isGlobal sym in
    spath <- fmt SYMBOL_PATTERN
               [("sid", sid); ("pid", pid); ("modpath", cbdata);
                ("addr", PyStr addr)] ;;
    trace_create_object spath ;;
    k <- fmt SYMBOL_KEY_PATTERN [("addr", PyStr addr)] ;;
    let keys := (keys ++ [k])%list in
    send (set_value spath "Name" (TStr name)) ;;
    send (set_value spath "Address" (TStr addr)) ;;
    current_state_set addr (PyStr name) ;;
    send (set_value spath "Type" (TStr type)) ;;
    send (set_value spath "Size" (TInt size)) ;;
    send (set_value spath "IsGlobal" (TBool isglobal)) ;;
    set_optional spath "Section" (option_map sec_id (s_section sym)) ;;
    send (set_value spath "_display" (TStr (addr ++ " " ++ name ++ " "))) ;;
    send (insert spath) ;;
    ret keys) [] (records values) ;;
  path <- fmt SYMBOLS_PATTERN
            [("sid", sid); ("pid", pid); ("modpath", cbdata)] ;;
  trace_retain_values path keys.

Definition put_dependencies_callback
  (message : option (message (list dependency_details) string)) : M unit :=
  let values := get_values_from_callback message in
  let cbdata := cbdata_value (get_data_from_callback message) in
  sid <- selected_session ;;
  pid <- selected_process ;;
  _ <- STATE_trace "memory_mapper" ;;
  keys <- for_each (fun keys dep =>
    let name := d_name dep in
    let type := d_type dep in
    dpath <- fmt DEPENDENCY_PATTERN
               [("sid", sid); ("pid", pid); ("modpath", cbdata);
                ("name", PyStr name)] ;;
    trace_create_object dpath ;;
    k <- fmt DEPENDENCY_KEY_PATTERN [("name", PyStr name)] ;;
    let keys := (keys ++ [k])%list in
    send (set_value dpath "Name" (TStr name)) ;;
    send (set_value dpath "Type" (TStr type)) ;;
    send (set_value dpath "_display" (TStr (name ++ " "))) ;;
    send (insert dpath) ;;
    ret keys) [] (records values) ;;
  path <- fmt DEPENDENCIES_PATTERN
            [("sid", sid); ("pid", pid); ("modpath", cbdata)] ;;
  trace_retain_values path keys.

Definition compute_proc_state (pid : pyval) : string := "STOPPED".

Definition opt_suffix (v : option string) : string :=
  match v with
  | Some s => " " ++ s
  | None => ""
  end.

Definition tval_of_option (v : option string) : tval :=
  match v with
  | Some s => TStr s
  | None => TNone
  end.

Definition compute_thread_display (i : Z) (pid : pyval) (tid : Z)
  (t : thread_details) : result string :=
  match format_x_value pid with
  | inl e => raise e
  | inr pidx =>
      ok (str_int i ++ " " ++ pidx ++ ":" ++ format_x tid
          ++ opt_suffix (t_name t) ++ opt_suffix (t_state t))
  end.

(** The register loop shared by [put_threads_callback] and
    [put_reg_callback]; they differ in the order of the conversion and
    the attribute write, and in what follows a failed conversion. *)
Definition convert_register (mapper : arch.RegisterMapper) (pid : pyval)
  (r rval : string) : result arch.RegVal :=
  match int rval 0 with
  | inl e => raise e
  | inr n => arch.map_value mapper pid (Some r) n
  end.

Definition put_threads_callback
  (message : option (message (list thread_details) unit)) : M unit :=
  let values := get_values_from_callback message in
  sid <- selected_session ;;
  pid <- selected_process ;;
  st <- for_each (fun (st : list string * Z) t =>
    let (keys, i) := st in
    let tid := t_id t in
    select_thread (PyInt tid) ;;
    let name := t_name t in
    let context := t_context t in
    tpath <- fmt THREAD_PATTERN
               [("sid", sid); ("pid", pid); ("tid", PyInt tid)] ;;
    trace_create_object tpath ;;
    k <- fmt THREAD_KEY_PATTERN [("tid", PyInt tid)] ;;
    let keys := (keys ++ [k])%list in
    send (set_value tpath "_tid" (TInt tid)) ;;
    send (set_value tpath "Name" (tval_of_option name)) ;;
    pidx <- lift (format_x_value pid) ;;
    send (set_value tpath "_short_display"
            (TStr (format_x i ++ " " ++ pidx ++ ":" ++ format_x tid))) ;;
    display <- lift (compute_thread_display i pid tid t) ;;
    send (set_value tpath "_display" (TStr display)) ;;
    let istate := compute_proc_state (PyInt tid) in
    send (set_value tpath "_state" (TStr istate)) ;;
    send (insert tpath) ;;
    let i := (i + 1)%Z in
    space <- fmt REGS_PATTERN
               [("sid", sid); ("pid", pid); ("tid", PyInt tid)] ;;
    trace_create_overlay_space "register" space ;;
    trace_create_object space ;;
    send (insert space) ;;
    tr <- STATE_trace "register_mapper" ;;
    let mapper := register_mapper tr in
    regvals <- for_each (fun regvals (entry : string * string) =>
      let (r, rval) := entry in
      send (set_value space r (TStr rval)) ;;
      match convert_register mapper pid r rval with
      | inr rv => ret (regvals ++ [rv])%list
      | inl _ => ret regvals
      end) [] context ;;
    _ <- STATE_trace "put_registers" ;;
    send (put_registers space regvals) ;;
    trace_create_object (tpath ++ ".Stack") ;;
    send (insert (tpath ++ ".Stack")) ;;
    ret (keys, i)) ([], 0%Z) (records values) ;;
  path <- fmt THREADS_PATTERN [("sid", sid); ("pid", pid)] ;;
  trace_retain_values path (fst st).

Definition opt_suffix_int (v : option Z) : string :=
  match v with
  | Some n => " " ++ str_int n
  | None => ""
  end.

Definition compute_frame_display (i : Z) (f : frame_details) : string :=
  "#" ++ str_int i ++ " " ++ fr_address f
  ++ opt_suffix (fr_name f) ++ opt_suffix (fr_moduleName f)
  ++ opt_suffix (fr_fileName f)
  ++ opt_suffix_int (fr_lineNumber f) ++ opt_suffix_int (fr_column f).

Definition set_optional_int (path key : string) (v : option Z) : M unit :=
  match v with
  | Some n => send (set_value path key (TInt n))
  | None => ret tt
  end.

Definition put_frames_callback
  (message : option (message (list frame_details) unit)) : M unit :=
  let values := get_values_from_callback message in
  sid <- selected_session ;;
  pid <- selected_process ;;
  tid <- selected_thread ;;
  t <- STATE_trace "memory_mapper" ;;
  let mapper := memory_mapper t in
  st <- for_each (fun (st : list string * Z) f =>
    let (keys, level) := st in
    let addr := fr_address f in
    fpath <- fmt FRAME_PATTERN
               [("sid", sid); ("pid", pid); ("tid", tid);
                ("level", PyInt level)] ;;
    trace_create_object fpath ;;
    k <- fmt FRAME_KEY_PATTERN [("level", PyInt level)] ;;
    let keys := (keys ++ [k])%list in
    n <- lift (int addr 0) ;;
    let (base, pc) := arch.DefaultMemoryMapper_map mapper pid n in
    when (overlay_needed base pc)
      (trace_create_overlay_space base (arch.space pc)) ;;
    send (set_value fpath "_pc" (TAddress pc)) ;;
    set_optional fpath "Name" (fr_name f) ;;
    match fr_moduleName f with
    | Some module =>
        send (set_value fpath "_func" (TStr module)) ;;
        send (set_value fpath "Module" (TStr module))
    | None => ret tt
    end ;;
    set_optional fpath "File" (fr_fileName f) ;;
    set_optional_int fpath "Line #" (fr_lineNumber f) ;;
    set_optional_int fpath "Column #" (fr_column f) ;;
    send (set_value fpath "_display" (TStr (compute_frame_display level f))) ;;
    send (insert fpath) ;;
    ret (keys, (level + 1)%Z)) ([], 0%Z) (records values) ;;
  path <- fmt FRAMES_PATTERN [("sid", sid); ("pid", pid); ("tid", tid)] ;;
  trace_retain_values path (fst st).

Definition pyval_of_option (v : option string) : pyval :=
  match v with
  | Some s => PyStr s
  | None => PyNone
  end.

Definition or_empty (v : option string) : string :=
  match v with
  | Some s => s
  | None => ""
  end.

(** The key of a method is appended to [keys], the list of the class
    container, while [mkeys], the list retained in the Methods
    container, stays empty. *)
Definition put_loaded_classes_callback
  (message : option (message (list class_details) unit)) : M unit :=
  let values := get_values_from_callback message in
  sid <- selected_session ;;
  pid <- selected_process ;;
  _ <- STATE_trace "memory_mapper" ;;
  keys <- for_each (fun keys c =>
    let key := None in
    let name := or_empty (c_name c) in
    let key := match c_name c with Some n => Some n | None => key end in
    let path := or_empty (c_path c) in
    let key := match c_path c with Some p => Some p | None => key end in
    cpath <- fmt CLASS_PATTERN
               [("sid", sid); ("pid", pid); ("path", pyval_of_option key)] ;;
    trace_create_object cpath ;;
    k <- fmt CLASS_KEY_PATTERN [("path", pyval_of_option key)] ;;
    let keys := (keys ++ [k])%list in
    send (set_value cpath "Name" (TStr name)) ;;
    send (set_value cpath "Path" (TStr path)) ;;
    send (set_value cpath "_display" (TStr path)) ;;
    send (insert cpath) ;;
    let mkeys : list string := [] in
    match c_methods c with
    | Some methods =>
        keys <- for_each (fun keys m =>
          mpath <- fmt METHOD_PATTERN
                     [("sid", sid); ("pid", pid);
                      ("path", pyval_of_option key); ("name", PyStr m)] ;;
          trace_create_object mpath ;;
          k <- fmt METHOD_KEY_PATTERN [("name", PyStr m)] ;;
          let keys := (keys ++ [k])%list in
          send (insert mpath) ;;
          ret keys) keys methods ;;
        mspath <- fmt METHODS_PATTERN
                    [("sid", sid); ("pid", pid);
                     ("path", pyval_of_option key)] ;;
        trace_retain_values mspath mkeys ;;
        ret keys
    | None => ret keys
    end) [] (records values) ;;
  path <- fmt CLASSES_PATTERN [("sid", sid); ("pid", pid)] ;;
  trace_retain_values path keys.

(** Reading a name that is bound neither in the function nor in the
    module. *)
Definition unbound_name (name : string) : M pyval :=
  throw (NameError ("name '" ++ name ++ "' is not defined")).

(** The loop body formats the key from [key], a name this function
    never binds (the loop variable is [l]). *)
Definition put_class_loaders_callback
  (message : option (message (list string) unit)) : M unit :=
  let values := get_values_from_callback message in
  sid <- selected_session ;;
  pid <- selected_process ;;
  _ <- STATE_trace "memory_mapper" ;;
  keys <- for_each (fun keys l =>
    lpath <- fmt LOADER_PATTERN
               [("sid", sid); ("pid", pid); ("path", PyStr l)] ;;
    trace_create_object lpath ;;
    key <- unbound_name "key" ;;
    k <- fmt LOADER_KEY_PATTERN [("path", key)] ;;
    let keys := (keys ++ [k])%list in
    send (insert lpath) ;;
    ret keys) [] (records values) ;;
  path <- fmt LOADERS_PATTERN [("sid", sid); ("pid", pid)] ;;
  trace_retain_values path keys.

(** [map_address]. *)
Definition map_address (address : Z) : M (string * arch.Address) :=
  pid <- selected_process ;;
  t <- STATE_trace "memory_mapper" ;;
  let mapper := memory_mapper t in
  let (base, addr) := arch.DefaultMemoryMapper_map mapper pid address in
  when (overlay_needed base addr)
    (trace_create_overlay_space base (arch.space addr)) ;;
  ret (base, addr).

(** ** Memory *)

Definition quantize_pages (start end_ : Z) : Z * Z :=
  ((start / PAGE_SIZE * PAGE_SIZE)%Z,
   ((end_ + PAGE_SIZE - 1) / PAGE_SIZE * PAGE_SIZE)%Z).

Definition eval_address (address : pyval) : result Z :=
  match util.parse_and_eval address with
  | inr n => ok n
  | inl _ =>
      raise (RuntimeError ("Cannot convert '" ++ str address ++ "' to address"))
  end.

Definition eval_range (address length : pyval) : result (Z * Z) :=
  match eval_address address with
  | inl e => raise e
  | inr start =>
      match util.parse_and_eval length with
      | inr n => ok (start, (start + n)%Z)
      | inl _ =>
          raise (RuntimeError ("Cannot convert '" ++ str length ++ "' to length"))
      end
  end.

(** [s.split(sep)] for a one-character separator. *)
Fixpoint split_on (sep : ascii) (s : string) : list string :=
  match s with
  | EmptyString => [EmptyString]
  | String c s' =>
      if Ascii.eqb c sep then EmptyString :: split_on sep s'
      else match split_on sep s' with
           | piece :: pieces => String c piece :: pieces
           | [] => [String c EmptyString]
           end
  end.

(** [bytes(buf)]. *)
Definition bytes_of (buf : list Z) : result (list Z) :=
  if forallb (fun b => (0 <=? b)%Z && (b <? 256)%Z) buf then ok buf
  else raise (ValueError "bytes must be in range(0, 256)").

(** The words [split[2]] to [split[17]] of a dump line, read in base 16. *)
Definition dump_line_bytes (l : string) : result (list Z) :=
  let split := split_on " " l in
  fold_left (fun acc i =>
    match acc with
    | inl e => raise e
    | inr buf =>
        match nth_error split i with
        | None => raise (IndexError "list index out of range")
        | Some word =>
            match int word 16 with
            | inl e => raise e
            | inr b => ok (buf ++ [b])%list
            end
        end
    end) (seq 2 16) (ok []).

Definition dump_bytes (values : string) : result (list Z) :=
  fold_left (fun acc l =>
    match acc with
    | inl e => raise e
    | inr buf =>
        match dump_line_bytes l with
        | inl e => raise e
        | inr line => ok (buf ++ line)%list
        end
    end) (split_on "010" values) (ok []).

Section Commands.
(** The target the commands run against, and the client library's
    check of a memory-state name, taken as given. *)
Variable tgt : target.
Variable validate_state : string -> result unit.

(** [putmem_state]; its overlay branch calls through [trace], a name
    bound neither in the function nor in the module. *)
Definition putmem_state (address length : pyval) (state : string)
  (pages : bool) : M unit :=
  _ <- STATE_trace "validate_state" ;;
  lift (validate_state state) ;;
  range <- lift (eval_range address length) ;;
  let (start, end_) := range in
  let (start, end_) :=
    if pages then quantize_pages start end_ else (start, end_) in
  pid <- selected_process ;;
  t <- STATE_trace "memory_mapper" ;;
  let (base, addr) :=
    arch.DefaultMemoryMapper_map (memory_mapper t) pid start in
  when (overlay_needed base addr && negb (String.eqb state "unknown"))
    (_ <- unbound_name "trace" ;; ret tt) ;;
  _ <- STATE_trace "set_memory_state" ;;
  send (set_memory_state addr (end_ - start) state).

Definition put_mem_callback (message : option (message string Z)) : M unit :=
  trace <- require_trace ;;
  pid <- selected_process ;;
  let values := get_values_from_callback message in
  let start := get_data_from_callback message in
  match values, start with
  | Some values, Some start =>
      buf <- lift (dump_bytes values) ;;
      let (base, addr) :=
        arch.DefaultMemoryMapper_map (memory_mapper trace) pid start in
      when (overlay_needed base addr)
        (send (create_overlay_space base (arch.space addr))) ;;
      data <- lift (bytes_of buf) ;;
      send (put_bytes addr data)
  | _, _ =>
      a <- gets last_address ;;
      n <- gets last_length ;;
      putmem_state (PyInt a) (PyInt (a + n)) "error" true
  end.

Definition putmem (address : pyval) (length : Z) : M unit :=
  match address with
  | PyNone => ret tt
  | _ =>
      let address := str address in
      let length := str_int length in
      a <- lift (int address 0) ;;
      n <- lift (int length 10) ;;
      modify (set_last a n) ;;
      let cmd := "var buf = ptr(" ++ address ++ ").readByteArray("
                 ++ length ++ "); result = hexdump(buf, {header:false});" in
      run_script_with_data "read_memory" cmd address
        (memory_dump tgt address length) put_mem_callback
  end.

Definition ghidra_trace_putmem (address : pyval) (length : Z) : M unit :=
  _ <- require_tx ;;
  let length := if (length <? PAGE_SIZE)%Z then PAGE_SIZE else length in
  putmem address length.

Definition ghidra_trace_putmem_state (address length : pyval)
  (state : string) (pages : bool) : M unit :=
  _ <- require_tx ;;
  putmem_state address length state pages.

(** ** Registers *)

(** The first thread whose id is the selected one. *)
Definition find_context (tid : pyval) (values : list thread_details)
  : option (dict string string) :=
  option_map t_context
    (find (fun t => pyval_eqb (PyInt (t_id t)) tid) values).

Definition put_reg_callback
  (message : option (message (list thread_details) unit)) : M unit :=
  let values := get_values_from_callback message in
  sid <- selected_session ;;
  pid <- selected_process ;;
  tid <- selected_thread ;;
  match find_context tid (records values) with
  | None => ret tt
  | Some context =>
      space <- fmt REGS_PATTERN [("sid", sid); ("pid", pid); ("tid", tid)] ;;
      trace_create_overlay_space "register" space ;;
      trace_create_object space ;;
      send (insert space) ;;
      tr <- STATE_trace "register_mapper" ;;
      let mapper := register_mapper tr in
      regvals <- for_each (fun regvals (entry : string * string) =>
        let (r, rval) := entry in
        match convert_register mapper pid r rval with
        | inr rv =>
            send (set_value space r (TStr rval)) ;;
            ret (regvals ++ [rv])%list
        | inl _ => ret regvals
        end) [] context ;;
      _ <- STATE_trace "put_registers" ;;
      send (put_registers space regvals)
  end.

Definition putreg : M unit :=
  run_script "list_threads" "result = Process.enumerateThreads();"
    (threads tgt) put_reg_callback.

Definition ghidra_trace_putreg : M unit :=
  _ <- require_tx ;;
  putreg.

(** ** Sessions, processes, environment *)

Definition put_sessions : M unit :=
  query enumerate_devices ;;
  result <- lift (frida_devices tgt) ;;
  keys <- for_each (fun keys d =>
    let id := dev_id d in
    let name := dev_name d in
    let type := dev_type d in
    dpath <- fmt SESSION_PATTERN [("sid", PyStr id)] ;;
    trace_create_object dpath ;;
    k <- fmt SESSION_KEY_PATTERN [("sid", PyStr id)] ;;
    let keys := (keys ++ [k])%list in
    send (set_value dpath "Id" (TStr id)) ;;
    send (set_value dpath "Name" (TStr name)) ;;
    send (set_value dpath "Type" (TStr type)) ;;
    send (set_value dpath "_display" (TStr (id ++ ":" ++ name))) ;;
    send (insert dpath) ;;
    apath <- fmt AVAILABLES_PATH [("sid", PyStr id)] ;;
    trace_create_object apath ;;
    send (insert apath) ;;
    ret keys) [] result ;;
  trace_retain_values SESSIONS_PATH keys.

Definition ghidra_trace_put_sessions : M unit :=
  _ <- require_tx ;;
  with_batch put_sessions.

(** The radix is read from [conv_map], whose values are strings, so
    it never equals [16] or [8] and the pid prints in decimal. *)
Definition put_process (keys : list string) (proc : process)
  : M (list string) :=
  let pid := proc_pid proc in
  ppath <- fmt PROCESS_PATTERN [("sid", PyStr "local"); ("pid", PyInt pid)] ;;
  k <- fmt PROCESS_KEY_PATTERN [("pid", PyInt pid)] ;;
  let keys := (keys ++ [k])%list in
  trace_create_object ppath ;;
  let state := compute_proc_state (PyInt pid) in
  send (set_value ppath "_state" (TStr state)) ;;
  let pidstr := str_int pid in
  send (set_value ppath "_pid" (TInt pid)) ;;
  send (set_value ppath "Name" (TStr (proc_name proc))) ;;
  send (set_value ppath "_display" (TStr (pidstr ++ " " ++ proc_name proc))) ;;
  trace_create_object (ppath ++ ".Memory") ;;
  send (insert (ppath ++ ".Memory")) ;;
  trace_create_object (ppath ++ ".Modules") ;;
  send (insert (ppath ++ ".Modules")) ;;
  trace_create_object (ppath ++ ".Threads") ;;
  send (insert (ppath ++ ".Threads")) ;;
  send (insert ppath) ;;
  ret keys.

(** The container path is the template itself, not formatted. *)
Definition put_processes (running : bool) : M unit :=
  if running then ret tt
  else
    procs <- gets processes ;;
    keys <- for_each (fun keys (entry : Z * process) =>
      put_process keys (snd entry)) [] procs ;;
    trace_retain_values (template_text PROCESSES_PATH) keys.

Definition ghidra_trace_put_processes : M unit :=
  _ <- require_tx ;;
  with_batch (put_processes false).

Definition put_available : M unit :=
  query enumerate_processes ;;
  result <- lift (dbg_processes tgt) ;;
  keys <- for_each (fun keys p =>
    let id := proc_pid p in
    let name := proc_name p in
    ppath <- fmt AVAILABLE_PATTERN [("sid", PyStr "local"); ("pid", PyInt id)] ;;
    trace_create_object ppath ;;
    k <- fmt AVAILABLE_KEY_PATTERN [("pid", PyInt id)] ;;
    let keys := (keys ++ [k])%list in
    let pidstr := str_int id in
    send (set_value ppath "_pid" (TInt id)) ;;
    send (set_value ppath "Name" (TStr name)) ;;
    send (set_value ppath "_display" (TStr (pidstr ++ " " ++ name))) ;;
    send (insert ppath) ;;
    ret keys) [] result ;;
  trace_retain_values (template_text AVAILABLES_PATH) keys.

Definition ghidra_trace_put_available : M unit :=
  _ <- require_tx ;;
  with_batch put_available.

Definition put_applications : M unit :=
  query enumerate_applications ;;
  result <- lift (dbg_applications tgt) ;;
  keys <- for_each (fun keys p =>
    let id := proc_pid p in
    let name := proc_name p in
    ppath <- fmt APPLICATION_PATTERN
               [("sid", PyStr "local"); ("pid", PyInt id)] ;;
    trace_create_object ppath ;;
    k <- fmt APPLICATION_KEY_PATTERN [("pid", PyInt id)] ;;
    let keys := (keys ++ [k])%list in
    let pidstr := str_int id in
    send (set_value ppath "_pid" (TInt id)) ;;
    send (set_value ppath "Name" (TStr name)) ;;
    send (set_value ppath "_display" (TStr (pidstr ++ " " ++ name))) ;;
    send (insert ppath) ;;
    ret keys) [] result ;;
  trace_retain_values (template_text APPLICATIONS_PATH) keys.

Definition ghidra_trace_put_applications : M unit :=
  _ <- require_tx ;;
  with_batch put_applications.

Definition put_session_attributes_callback
  (message : option (message (dict string tval) unit)) : M unit :=
  let values := get_values_from_callback message in
  sid <- selected_session ;;
  pid <- selected_process ;;
  _ <- STATE_trace "memory_mapper" ;;
  apath <- fmt ATTRIBUTES_PATH [("sid", sid)] ;;
  trace_create_object apath ;;
  for_each (fun (_ : unit) (entry : string * tval) =>
    send (set_value apath (fst entry) (snd entry))) tt (records values) ;;
  send (insert apath).

Definition session_attributes_script : string :=
  "var d = {};" ++
  "d['version'] = Frida.version;" ++
  "d['heapSize'] = Frida.heapSize;" ++
  "d['id'] = Process.id;" ++
  "d['arch'] = Process.arch;" ++
  "d['os'] = Process.platform;" ++
  "d['pageSize'] = Process.pageSize;" ++
  "d['pointerSize'] = Process.pointerSize;" ++
  "d['codeSigning'] = Process.codeSigningPolicy;" ++
  "d['debugger'] = Process.isDebuggerAttached();" ++
  "d['runtime'] = Script.runtime;" ++
  "d['kernel'] = Kernel.available;" ++
  "if (Kernel.available) {" ++
  "   d['kbase'] = Kernel.base;" ++
  "   d['kPageSize'] = Kernel.pageSize;" ++
  "}" ++
  "result = d;".

Definition put_session_attributes : M unit :=
  run_script "get_session_attributeds" session_attributes_script
    (session_attributes tgt) put_session_attributes_callback.

Definition ghidra_trace_put_session_attributes : M unit :=
  _ <- require_tx ;;
  with_batch put_session_attributes.

(** [arch.get_arch()], [arch.get_osabi()] and [arch.get_endian()] as
    the commands call them: the resolver of [arch], with the device
    query it sends recorded. *)
Definition arch_get_arch : M string :=
  query query_system_parameters ;;
  ret (arch.get_arch (dbg tgt)).

Definition arch_get_osabi : M string :=
  conv <- gets conv_map ;;
  let parm := util.get_convenience_variable conv "osabi" in
  when (String.eqb parm "auto" || String.eqb parm "default")
    (query query_system_parameters) ;;
  lift (arch.get_osabi conv (dbg tgt)).

Definition arch_get_endian : M string :=
  conv <- gets conv_map ;;
  ret (arch.get_endian conv).

(** The entries of the parameters in the order the loop visits them. *)
Definition params_items (params : util.system_parameters)
  : dict string util.sp_value :=
  ("arch", util.SPStr (util.sp_arch params))
  :: ("platform", util.SPStr (util.sp_platform params))
  :: util.sp_other params.

Definition put_environment : M unit :=
  sid <- selected_session ;;
  epath <- fmt ENV_PATTERN [("sid", sid)] ;;
  trace_create_object epath ;;
  send (set_value epath "_debugger" (TStr "frida")) ;;
  a <- arch_get_arch ;;
  send (set_value epath "_arch" (TStr a)) ;;
  os <- arch_get_osabi ;;
  send (set_value epath "_os" (TStr os)) ;;
  e <- arch_get_endian ;;
  send (set_value epath "_endian" (TStr e)) ;;
  query query_system_parameters ;;
  params <- lift (dbg tgt) ;;
  for_each (fun (_ : unit) (entry : string * util.sp_value) =>
    let (k, v) := entry in
    match v with
    | util.SPDict d =>
        for_each (fun (_ : unit) (sub : string * string) =>
          send (set_value epath (k ++ ":" ++ fst sub) (TStr (snd sub))))
          tt d
    | util.SPStr s => send (set_value epath k (TStr s))
    end) tt (params_items params) ;;
  send (insert epath).

Definition ghidra_trace_put_environment : M unit :=
  _ <- require_tx ;;
  with_batch put_environment.

(** ** The synchronisation operations and their commands *)

Definition put_regions (running : bool) : M unit :=
  if running then ret tt
  else run_script "list_ranges" "result = Process.enumerateRanges('---');"
         (ranges tgt) put_regions_callback.

Definition ghidra_trace_put_regions : M unit :=
  _ <- require_tx ;;
  with_batch (put_regions false).

Definition put_kregions (running : bool) : M unit :=
  if running then ret tt
  else run_script "list_ranges" "result = Kernel.enumerateRanges('---');"
         (kernel_ranges tgt) put_kregions_callback.

Definition ghidra_trace_put_kregions : M unit :=
  _ <- require_tx ;;
  with_batch (put_kregions false).

Definition put_heap (running : bool) : M unit :=
  if running then ret tt
  else run_script "list_heap_ranges"
         "result = Process.enumerateMallocRanges('---');"
         (malloc_ranges tgt) put_heap_callback.

Definition ghidra_trace_put_heap : M unit :=
  _ <- require_tx ;;
  with_batch (put_heap false).

Definition put_modules (running : bool) : M unit :=
  if running then ret tt
  else run_script "list_modules" "result = Process.enumerateModules();"
         (modules tgt) put_modules_callback.

Definition ghidra_trace_put_modules : M unit :=
  _ <- require_tx ;;
  with_batch (put_modules false).

Definition put_kmodules (running : bool) : M unit :=
  if running then ret tt
  else run_script "list_kmodules" "result = Kernel.enumerateModules();"
         (kernel_modules tgt) put_kmodules_callback.

Definition ghidra_trace_put_kmodules : M unit :=
  _ <- require_tx ;;
  with_batch (put_kmodules false).

Definition put_sections (modpath addr : string) (running : bool) : M unit :=
  if running then ret tt
  else
    _ <- selected_session ;;
    _ <- selected_process ;;
    let cmd := "result = Process.findModuleByAddress('" ++ addr
               ++ "').enumerateRanges('---');" in
    run_script_with_data "list_sections" cmd modpath
      (module_ranges tgt modpath addr) put_sections_callback.

Definition ghidra_trace_put_sections (modpath addr : string) : M unit :=
  _ <- require_tx ;;
  with_batch (put_sections modpath addr false).

Definition put_imports (modpath addr : string) (running : bool) : M unit :=
  if running then ret tt
  else
    let cmd := "result = Process.findModuleByAddress('" ++ addr
               ++ "').enumerateImports();" in
    run_script_with_data "list_imports" cmd modpath
      (module_imports tgt modpath addr) put_imports_callback.

Definition ghidra_trace_put_imports (modpath addr : string) : M unit :=
  _ <- require_tx ;;
  with_batch (put_imports modpath addr false).

Definition put_exports (modpath addr : string) (running : bool) : M unit :=
  if running then ret tt
  else
    let cmd := "result = Process.findModuleByAddress('" ++ addr
               ++ "').enumerateExports();" in
    run_script_with_data "list_imports" cmd modpath
      (module_exports tgt modpath addr) put_exports_callback.

Definition ghidra_trace_put_exports (modpath addr : string) : M unit :=
  _ <- require_tx ;;
  with_batch (put_exports modpath addr false).

Definition put_symbols (modpath addr : string) (running : bool) : M unit :=
  if running then ret tt
  else
    let cmd := "result = Process.findModuleByAddress('" ++ addr
               ++ "').enumerateSymbols();" in
    run_script_with_data "list_symbols" cmd modpath
      (module_symbols tgt modpath addr) put_symbols_callback.

Definition ghidra_trace_put_symbols (modpath addr : string) : M unit :=
  _ <- require_tx ;;
  with_batch (put_symbols modpath addr false).

Definition put_dependencies (modpath addr : string) (running : bool)
  : M unit :=
  if running then ret tt
  else
    let cmd := "result = Process.findModuleByAddress('" ++ addr
               ++ "').enumerateDependencies();" in
    run_script_with_data "list_dependencies" cmd modpath
      (module_dependencies tgt modpath addr) put_dependencies_callback.

Definition ghidra_trace_put_dependencies (modpath addr : string) : M unit :=
  _ <- require_tx ;;
  with_batch (put_dependencies modpath addr false).

Definition put_threads (running : bool) : M unit :=
  if running then ret tt
  else run_script "list_threads" "result = Process.enumerateThreads();"
         (threads tgt) put_threads_callback.

Definition ghidra_trace_put_threads : M unit :=
  _ <- require_tx ;;
  with_batch (put_threads false).

Definition put_frames : M unit :=
  run_script "list_frames"
    "result = Thread.backtrace(this.context, Backtracer.ACCURATE).map(DebugSymbol.fromAddress);"
    (backtrace tgt) put_frames_callback.

Definition ghidra_trace_put_frames : M unit :=
  _ <- require_tx ;;
  with_batch put_frames.

Definition put_loaded_classes_objc (running : bool) : M unit :=
  if running then ret tt
  else run_script "list_loaded_classes"
         "result = ObjC.enumerateLoadedClassesSync();"
         (objc_classes tgt) put_loaded_classes_callback.

Definition ghidra_trace_put_loaded_classes_objc : M unit :=
  _ <- require_tx ;;
  with_batch (put_loaded_classes_objc false).

Definition put_loaded_classes_java (running : bool) : M unit :=
  if running then ret tt
  else run_script "list_loaded_classes"
         "result = Java.enumerateLoadedClassesSync();"
         (java_classes tgt) put_loaded_classes_callback.

Definition ghidra_trace_put_loaded_classes_java : M unit :=
  _ <- require_tx ;;
  with_batch (put_loaded_classes_java false).

Definition put_class_loaders_java (running : bool) : M unit :=
  if running then ret tt
  else run_script "list_loaded_classes"
         "result = Java.enumerateClassLoadersSync();"
         (java_class_loaders tgt) put_class_loaders_callback.

Definition ghidra_trace_put_class_loaders_java : M unit :=
  _ <- require_tx ;;
  with_batch (put_class_loaders_java false).

Definition ghidra_trace_put_all : M unit :=
  _ <- require_tx ;;
  with_batch (
    put_sessions ;;
    put_session_attributes ;;
    put_environment ;;
    put_available ;;
    put_applications ;;
    put_processes false ;;
    put_regions false ;;
    put_modules false ;;
    put_threads false ;;
    put_frames).

(** The [ghidra_trace_put...] commands, with their arguments. *)
Inductive put_command : Type :=
| cmd_putmem (address : pyval) (length : Z)
| cmd_putmem_state (address length : pyval) (state : string) (pages : bool)
| cmd_putreg
| cmd_put_sessions
| cmd_put_processes
| cmd_put_available
| cmd_put_applications
| cmd_put_session_attributes
| cmd_put_environment
| cmd_put_regions
| cmd_put_kregions
| cmd_put_heap
| cmd_put_modules
| cmd_put_kmodules
| cmd_put_sections (modpath addr : string)
| cmd_put_imports (modpath addr : string)
| cmd_put_exports (modpath addr : string)
| cmd_put_symbols (modpath addr : string)
| cmd_put_dependencies (modpath addr : string)
| cmd_put_threads
| cmd_put_frames
| cmd_put_loaded_classes_objc
| cmd_put_loaded_classes_java
| cmd_put_class_loaders_java
| cmd_put_all.

Definition run_put_command (c : put_command) : M unit :=
  match c with
  | cmd_putmem address length => ghidra_trace_putmem address length
  | cmd_putmem_state address length state pages =>
      ghidra_trace_putmem_state address length state pages
  | cmd_putreg => ghidra_trace_putreg
  | cmd_put_sessions => ghidra_trace_put_sessions
  | cmd_put_processes => ghidra_trace_put_processes
  | cmd_put_available => ghidra_trace_put_available
  | cmd_put_applications => ghidra_trace_put_applications
  | cmd_put_session_attributes => ghidra_trace_put_session_attributes
  | cmd_put_environment => ghidra_trace_put_environment
  | cmd_put_regions => ghidra_trace_put_regions
  | cmd_put_kregions => ghidra_trace_put_kregions
  | cmd_put_heap => ghidra_trace_put_heap
  | cmd_put_modules => ghidra_trace_put_modules
  | cmd_put_kmodules => ghidra_trace_put_kmodules
  | cmd_put_sections modpath addr => ghidra_trace_put_sections modpath addr
  | cmd_put_imports modpath addr => ghidra_trace_put_imports modpath addr
  | cmd_put_exports modpath addr => ghidra_trace_put_exports modpath addr
  | cmd_put_symbols modpath addr => ghidra_trace_put_symbols modpath addr
  | cmd_put_dependencies modpath addr =>
      ghidra_trace_put_dependencies modpath addr
  | cmd_put_threads => ghidra_trace_put_threads
  | cmd_put_frames => ghidra_trace_put_frames
  | cmd_put_loaded_classes_objc => ghidra_trace_put_loaded_classes_objc
  | cmd_put_loaded_classes_java => ghidra_trace_put_loaded_classes_java
  | cmd_put_class_loaders_java => ghidra_trace_put_class_loaders_java
  | cmd_put_all => ghidra_trace_put_all
  end.
End Commands.

(** ** Further functions of [util] and [commands] *)

Definition select_session (id : pyval) : M unit := current_state_set "sid" id.
Definition select_process (id : pyval) : M unit := current_state_set "pid" id.
Definition select_frame (id : pyval) : M unit := current_state_set "fid" id.

(** [util.get_module_address(path)]: a plain subscript. *)
Definition get_module_address (path : string) : M pyval :=
  fun w =>
    match dict_get String.eqb path (current_state w) with
    | Some v => (ok v, w)
    | None => (raise (KeyError path), w)
    end.

(** [re.split(r'/|\\', progname)]: the pieces between the slashes and
    backslashes. *)
Definition is_path_separator (c : ascii) : bool :=
  Ascii.eqb c "/" || Ascii.eqb c "\".

Fixpoint split_path (s : string) : list string :=
  match s with
  | EmptyString => [EmptyString]
  | String c s' =>
      if is_path_separator c then EmptyString :: split_path s'
      else match split_path s' with
           | piece :: pieces => String c piece :: pieces
           | [] => [String c EmptyString]
           end
  end.

Definition compute_name (progname : option string) : string :=
  match progname with
  | None => "frida/noname"
  | Some p => "frida/" ++ last (split_path p) ""
  end.

(** [put_state]: both paths are formatted without [sid]. *)
Definition put_state (event_process : pyval) : M unit :=
  ipath <- fmt PROCESS_PATTERN [("pid", event_process)] ;;
  trace_create_object ipath ;;
  let state := compute_proc_state event_process in
  send (set_value ipath "_state" (TStr state)) ;;
  send (insert ipath) ;;
  tid <- selected_thread ;;
  match tid with
  | PyNone => ret tt
  | _ =>
      ipath <- fmt THREAD_PATTERN [("pid", event_process); ("tid", tid)] ;;
      trace_create_object ipath ;;
      send (set_value ipath "_state" (TStr state)) ;;
      send (insert ipath)
  end.

End commands.

(* ===================================================================== *)
(** * Definitions used to state and check the properties                 *)
(* ===================================================================== *)

Module checks.
Import Py.

(** The language picked among [langs] for an endianness tag, as
    [compute_ghidra_language] picks it once the table entry is found;
    [None] is the fall-back to the data-only language. *)
Definition is_default (l : string) : bool := endswith ":default" l.

Definition matching (lebe : string) (langs : list string) : list string :=
  sorted arch.language_key (filter (contains lebe) langs).

(** The ranking of a table entry, decided by evaluation: the pick is a
    candidate of the entry, carries the tag, has the least sort key
    among the matching candidates, is a default variant of least length
    whenever a matching default variant exists, and has the least
    length among all matching candidates otherwise. *)
Definition ranked_first (lebe : string) (langs : list string) (r : string)
  : bool :=
  existsb (String.eqb r) langs
  && contains lebe r
  && forallb (fun c =>
       implb (contains lebe c)
         ((arch.language_key r <=? arch.language_key c)%nat
          && implb (is_default c)
               (is_default r && (String.length r <=? String.length c)%nat)))
       langs
  && (existsb (fun c => contains lebe c && is_default c) langs
      || forallb (fun c =>
           implb (contains lebe c)
             (String.length r <=? String.length c)%nat) langs).

Definition entry_ranked (lebe : string) (langs : list string) : bool :=
  match matching lebe langs with
  | [] => true
  | r :: _ => ranked_first lebe langs r
  end.

(** No identifier of the table carries both endianness tags. *)
Definition single_tag (l : string) : bool :=
  negb (contains ":BE:" l && contains ":LE:" l).

(** A world with a trace, a selected process and nothing sent yet. *)
Definition sample_trace : commands.Trace :=
  {| commands.memory_mapper := arch.compute_memory_mapper "x86:LE:64:default";
     commands.register_mapper := arch.Intel_x86_64_RegisterMapper |}.

Definition sample_world (tx : option commands.Tx) : commands.world :=
  {| commands.STATE :=
       {| commands.client := Some (commands.MkClient "Ghidra");
          commands.trace := Some sample_trace;
          commands.tx := tx |};
     commands.conv_map := [];
     commands.current_state :=
       [("sid", PyStr "local"); ("pid", PyInt 1234);
        ("tid", PyNone); ("fid", PyNone)];
     commands.processes := [];
     commands.targets := [1234%Z];
     commands.last_address := 0;
     commands.last_length := 4096;
     commands.store := [];
     commands.queries := [] |}.

Definition x64_device (platform : string) : util.dbg_t :=
  inr {| util.sp_arch := "x64"; util.sp_platform := platform;
         util.sp_other := [] |}.

(** ** Statements about the requests of a command *)
Import commands.

(** [emits c w a evs]: from [w] the command returns [a], leaves [STATE]
    as it is and appends the requests [evs] to the store. *)
Definition emits {A} (c : M A) (w : world) (a : A) (evs : list store_call)
  : Prop :=
  exists w', c w = (inr a, w') /\ STATE w' = STATE w /\
             store w' = (store w ++ evs)%list.

(** The value selected under [key] in [util.current_state]. *)
Definition selection (key : string) (w : world) : pyval :=
  match dict_get String.eqb key (current_state w) with
  | Some v => v
  | None => PyNone
  end.

(** The requests written for one element at [path]: the object is
    created and inserted, nothing is retained, every object created
    lies at or below [path], and an overlay space is requested for the
    register space only. *)
Definition element_writes (path : string) (evs : list store_call) : Prop :=
  In (create_object path) evs /\ In (insert path) evs /\
  (forall p ks, ~ In (retain_values p ks) evs) /\
  (forall p, In (create_object p) evs -> startswith path p = true) /\
  (forall b s, In (create_overlay_space b s) evs -> b = "register").

(** The writes of a loop, one list of requests per record, with the
    loop's locals threaded by [next]. *)
Fixpoint loop_writes {S R} (next : S -> R -> S)
  (P : S -> R -> list store_call -> Prop)
  (acc : S) (rs : list R) (evss : list (list store_call)) : Prop :=
  match rs, evss with
  | [], [] => True
  | r :: rs', evs :: evss' =>
      P acc r evs /\ loop_writes next P (next acc r) rs' evss'
  | _, _ => False
  end.

Fixpoint loop_keys {S R} (next : S -> R -> S) (key : S -> R -> string)
  (acc : S) (rs : list R) : list string :=
  match rs with
  | [] => []
  | r :: rs' => key acc r :: loop_keys next key (next acc r) rs'
  end.

Definition is_retain (c : store_call) : bool :=
  match c with
  | retain_values _ _ => true
  | _ => false
  end.

(** What a synchronisation operation owes its container: the requests
    [delta] end with the one [retain_values] on [container], with
    [keys]; every key is that of an object created and inserted under
    the container in [delta]; every object created lies at or below one
    of them; and no overlay space is requested but for registers. *)
Definition retains_written (container : string) (keys : list string)
  (delta : list store_call) : Prop :=
  (exists events,
     delta = (events ++ [retain_values container keys])%list /\
     filter is_retain events = []) /\
  (forall k, In k keys ->
     In (create_object (container ++ k)) delta /\
     In (insert (container ++ k)) delta) /\
  (forall p, In (create_object p) delta ->
     exists k, In k keys /\ startswith (container ++ k) p = true) /\
  (forall b s, In (create_overlay_space b s) delta -> b = "register").

(** [int(s, 0)] succeeds. *)
Definition parses (s : string) : Prop := exists n, int s 0 = ok n.

(** The element keys of the operations. *)
Definition region_key (r : range_details) : string := "[" ++ r_base r ++ "]".
Definition module_key (m : module_details) : string := "[" ++ m_path m ++ "]".
Definition kmodule_key (m : kmodule_details) : string :=
  "[" ++ km_name m ++ "]".
Definition import_key (i : import_details) : string :=
  "[" ++ i_address i ++ "]".
Definition export_key (x : export_details) : string :=
  "[" ++ x_address x ++ "]".
Definition symbol_key (s : symbol_details) : string :=
  "[" ++ s_address s ++ "]".
Definition dependency_key (d : dependency_details) : string :=
  "[" ++ d_name d ++ "]".
Definition thread_key (t : thread_details) : string :=
  "[" ++ str_int (t_id t) ++ "]".
Definition frame_key (level : Z) : string := "[" ++ str_int level ++ "]".

(** The number a sequence of bytes denotes, most significant first. *)
Definition be_value (bs : list Byte.byte) : N :=
  fold_left (fun acc b => (acc * 256 + Byte.to_N b)%N) bs 0%N.

(** The commands that run one script on the selected process inside a
    batch. *)
Definition script_command (c : put_command) : bool :=
  match c with
  | cmd_put_session_attributes
  | cmd_put_regions | cmd_put_kregions | cmd_put_heap
  | cmd_put_modules | cmd_put_kmodules
  | cmd_put_sections _ _ | cmd_put_imports _ _ | cmd_put_exports _ _
  | cmd_put_symbols _ _ | cmd_put_dependencies _ _
  | cmd_put_threads | cmd_put_frames
  | cmd_put_loaded_classes_objc | cmd_put_loaded_classes_java
  | cmd_put_class_loaders_java => true
  | _ => false
  end.

Definition session_key (d : device) : string := "[" ++ dev_id d ++ "]".

(** The value a class is filed under: its path, else its name, else
    [None]; and the keys its record adds to the list of the class
    container. *)
Definition class_id (c : class_details) : pyval :=
  match c_path c, c_name c with
  | Some p, _ => PyStr p
  | None, Some n => PyStr n
  | None, None => PyNone
  end.

Definition method_key (m : string) : string := "[" ++ m ++ "]".

Definition class_keys (c : class_details) : list string :=
  ("[" ++ str (class_id c) ++ "]")
  :: List.map method_key
       (match c_methods c with Some ms => ms | None => [] end).

(** [raises c w e evs]: from [w] the command raises [e], having left
    [STATE] as it is and appended the requests [evs] to the store. *)
Definition raises {A} (c : M A) (w : world) (e : exn)
  (evs : list store_call) : Prop :=
  exists w', c w = (inl e, w') /\ STATE w' = STATE w /\
             store w' = (store w ++ evs)%list.

(** Sample records, a target that answers with them, and a world with
    no process selected. *)
Definition sample_region : range_details :=
  {| r_base := "0x1000"; r_size := 4096; r_protection := "rw-";
     r_file := None |}.

Definition unreadable_region : range_details :=
  {| r_base := "zz"; r_size := 1; r_protection := "r--"; r_file := None |}.

Definition sample_module : module_details :=
  {| m_name := "a.out"; m_path := "/bin/a.out"; m_base := "0x1000";
     m_size := 4096 |}.

Definition sample_kmodule : kmodule_details :=
  {| km_name := "kernel"; km_base := "0x1000"; km_size := 4096 |}.

Definition sample_import : import_details :=
  {| i_name := "puts"; i_address := "0x2000"; i_type := "function";
     i_module := Some "libc.so"; i_slot := None |}.

Definition sample_export : export_details :=
  {| x_name := "main"; x_address := "0x3000"; x_type := "function";
     x_module := None |}.

Definition sample_symbol : symbol_details :=
  {| s_name := "main"; s_address := "0x3000"; s_type := "function";
     s_size := 16; s_isGlobal := true; s_section := None |}.

Definition sample_dependency : dependency_details :=
  {| d_name := "libc.so"; d_type := "regular" |}.

Definition sample_device : device :=
  {| dev_id := "local"; dev_name := "Local System"; dev_type := "local" |}.

Definition sample_thread : thread_details :=
  {| t_id := 7; t_name := Some "main"; t_state := Some "waiting";
     t_context := [("pc", "0x401000"); ("sp", "bad")] |}.

Definition sample_frame : frame_details :=
  {| fr_address := "0x401000"; fr_name := Some "main";
     fr_moduleName := Some "a.out"; fr_fileName := None;
     fr_lineNumber := None; fr_column := None |}.

Definition sample_class : class_details :=
  {| c_name := Some "A"; c_path := None; c_methods := Some ["m"] |}.

Definition sample_target : target :=
  {| dbg := x64_device "linux";
     frida_devices :=
       ok [sample_device];
     dbg_processes := ok [{| proc_pid := 1234; proc_name := "target" |}];
     dbg_applications := ok [{| proc_pid := 77; proc_name := "app" |}];
     session_attributes := None;
     ranges := Some (msg_send [sample_region] tt);
     kernel_ranges := None;
     malloc_ranges :=
       Some (msg_send [{| h_base := "0x2000"; h_size := 64 |}] tt);
     modules := None;
     kernel_modules := None;
     module_ranges := fun _ _ => None;
     module_imports := fun _ _ => None;
     module_exports := fun _ _ => None;
     module_symbols := fun _ _ => None;
     module_dependencies := fun _ _ => None;
     threads := Some (msg_send [sample_thread] tt);
     backtrace := None;
     objc_classes := None;
     java_classes := None;
     java_class_loaders := Some (msg_send ["loader"] tt);
     memory_dump := fun _ _ => None |}.

Definition unselected_world (tx : option Tx) : world :=
  set_current_state initial_current_state (sample_world tx).

End checks.

(* ===================================================================== *)
(** * Properties                                                          *)
(* ===================================================================== *)

Import Py.

(** ** Strings, dictionaries, sorting *)

Lemma dict_get_In {V} (k : string) (d : dict string V) (v : V) :
  dict_get String.eqb k d = Some v -> In (k, v) d.
Proof.
  induction d as [| [k' v'] d IH]; simpl; [discriminate |].
  destruct (String.eqb_spec k k') as [-> | _].
  - intros [= ->]. now left.
  - intros H. right. now apply IH.
Qed.

Lemma insert_by_key_not_nil {A} (key : A -> nat) (x : A) (l : list A) :
  insert_by_key key x l <> [].
Proof.
  destruct l as [| y l]; simpl; [discriminate |].
  destruct (key x <=? key y)%nat; discriminate.
Qed.

Lemma sorted_nil_inv {A} (key : A -> nat) (l : list A) :
  sorted key l = [] -> l = [].
Proof.
  destruct l as [| x l]; [reflexivity |].
  unfold sorted. simpl. intros H.
  now apply insert_by_key_not_nil in H.
Qed.

Lemma insert_by_key_In {A} (key : A -> nat) (x y : A) (l : list A) :
  In y (insert_by_key key x l) <-> y = x \/ In y l.
Proof.
  induction l as [| z l IH]; simpl.
  - intuition congruence.
  - destruct (key x <=? key z)%nat; simpl; [intuition congruence |].
    rewrite IH. intuition congruence.
Qed.

Lemma sorted_In {A} (key : A -> nat) (y : A) (l : list A) :
  In y (sorted key l) <-> In y l.
Proof.
  induction l as [| x l IH]; simpl; [tauto |].
  unfold sorted in *. simpl. rewrite insert_by_key_In, IH.
  intuition congruence.
Qed.

(** The head of [sorted] has the least key. *)
Lemma insert_by_key_head {A} (key : A -> nat) (x : A) (l : list A) :
  (forall h t, l = h :: t -> forall y, In y l -> key h <= key y) ->
  forall h t, insert_by_key key x l = h :: t ->
  forall y, In y (x :: l) -> key h <= key y.
Proof.
  intros Hl h t. destruct l as [| z l]; simpl.
  - intros [= <- <-] y [<- | []]. lia.
  - destruct (Nat.leb_spec (key x) (key z)) as [Hle | Hgt].
    + intros [= <- <-] y [<- | Hy]; [lia |].
      specialize (Hl z l eq_refl y Hy). lia.
    + intros [= <- <-] y [<- | Hy]; [lia |].
      exact (Hl z l eq_refl y Hy).
Qed.

Lemma sorted_head_least {A} (key : A -> nat) (l : list A) :
  forall h t, sorted key l = h :: t ->
  forall y, In y l -> key h <= key y.
Proof.
  induction l as [| x l IH]; [discriminate |].
  unfold sorted in *. simpl. intros h t H y Hy.
  apply (insert_by_key_head key x (fold_right (insert_by_key key) [] l))
    with (t := t); [| exact H |].
  - intros h' t' E y' Hy'. apply (IH h' t' E).
    now apply (sorted_In key y' l).
  - destruct Hy as [<- | Hy]; [now left | right].
    now apply (sorted_In key y l).
Qed.

(** ** C2: the flat-space address mapper *)

Lemma map_back_map (self : arch.DefaultMemoryMapper) (pid : pyval) (x : Z) :
  arch.DefaultMemoryMapper_map_back self pid
    (snd (arch.DefaultMemoryMapper_map self pid x)) = ok x.
Proof.
  unfold arch.DefaultMemoryMapper_map_back, arch.DefaultMemoryMapper_map.
  simpl. now rewrite String.eqb_refl.
Qed.

Lemma map_back_other_space (self : arch.DefaultMemoryMapper) (pid : pyval)
  (a : arch.Address) :
  arch.space a <> arch.defaultSpace self ->
  exists msg,
    arch.DefaultMemoryMapper_map_back self pid a = raise (ValueError msg).
Proof.
  intros H. unfold arch.DefaultMemoryMapper_map_back.
  destruct (String.eqb_spec (arch.space a) (arch.defaultSpace self));
    [contradiction | eauto].
Qed.

(** C2.  For the default mapper, whose space is ["ram"]: mapping an
    offset and mapping the address back returns the offset, for every
    process id and offset; and [map_back] of an address of any other
    space raises [ValueError], it returns no offset. *)
Theorem default_mapper_round_trip :
  arch.defaultSpace arch.DEFAULT_MEMORY_MAPPER = "ram" /\
  (forall (pid : pyval) (x : Z),
     arch.DefaultMemoryMapper_map_back arch.DEFAULT_MEMORY_MAPPER pid
       (snd (arch.DefaultMemoryMapper_map arch.DEFAULT_MEMORY_MAPPER pid x))
     = ok x) /\
  (forall (pid : pyval) (a : arch.Address),
     arch.space a <> "ram" ->
     exists msg,
       arch.DefaultMemoryMapper_map_back arch.DEFAULT_MEMORY_MAPPER pid a
       = raise (ValueError msg)).
Proof.
  split; [reflexivity |]. split.
  - intros pid x. apply map_back_map.
  - intros pid a H. now apply map_back_other_space.
Qed.

Lemma default_mapper_round_trip_witness :
  arch.DefaultMemoryMapper_map_back arch.DEFAULT_MEMORY_MAPPER (PyInt 1234)
    (snd (arch.DefaultMemoryMapper_map arch.DEFAULT_MEMORY_MAPPER
            (PyInt 1234) 4096)) = ok 4096%Z /\
  exists msg,
    arch.DefaultMemoryMapper_map_back arch.DEFAULT_MEMORY_MAPPER (PyInt 1234)
      {| arch.space := "register"; arch.offset := 16 |}
    = raise (ValueError msg).
Proof.
  split.
  - apply (proj1 (proj2 default_mapper_round_trip)).
  - apply (proj2 (proj2 default_mapper_round_trip)). simpl. discriminate.
Defined.

(** ** C3, C4, C5: the language and compiler resolver *)

Lemma lebe_of_big (endian : string) :
  endian = "big" -> arch.lebe_of endian = ":BE:".
Proof. now intros ->. Qed.

Lemma lebe_of_little (endian : string) :
  endian = "little" -> arch.lebe_of endian = ":LE:".
Proof. now intros ->. Qed.

(** Without an override the resolver is the table look-up followed by
    the pick among the matching candidates. *)
Lemma compute_ghidra_language_auto (conv : util.conv_map_t) (dbg : util.dbg_t) :
  util.get_convenience_variable conv "ghidra-language" = "auto" ->
  arch.compute_ghidra_language conv dbg =
  match dict_get String.eqb (arch.get_arch dbg) arch.language_map with
  | None => "DATA" ++ arch.lebe_of (arch.get_endian conv) ++ "64:default"
  | Some langs =>
      match checks.matching (arch.lebe_of (arch.get_endian conv)) langs with
      | l :: _ => l
      | [] => "DATA" ++ arch.lebe_of (arch.get_endian conv) ++ "64:default"
      end
  end.
Proof.
  intros H. unfold arch.compute_ghidra_language. rewrite H.
  reflexivity.
Qed.

Lemma matching_head (lebe : string) (langs : list string) (r : string)
  (t : list string) :
  checks.matching lebe langs = r :: t ->
  In r langs /\ contains lebe r = true.
Proof.
  intros H.
  assert (Hin : In r (checks.matching lebe langs)) by (rewrite H; now left).
  unfold checks.matching in Hin.
  apply sorted_In in Hin. now apply filter_In in Hin.
Qed.

Lemma matching_not_nil (lebe : string) (langs : list string) (c : string) :
  In c langs -> contains lebe c = true -> checks.matching lebe langs <> [].
Proof.
  intros Hin Hc H. unfold checks.matching in H.
  apply sorted_nil_inv in H.
  assert (Hf : In c (filter (contains lebe) langs))
    by (apply filter_In; now split).
  rewrite H in Hf. exact Hf.
Qed.

Lemma matching_nil (lebe : string) (langs : list string) :
  (forall c, In c langs -> contains lebe c = false) ->
  checks.matching lebe langs = [].
Proof.
  intros H. destruct (checks.matching lebe langs) as [| r t] eqn:E;
    [reflexivity |].
  destruct (matching_head _ _ _ _ E) as [Hin Hc].
  rewrite (H r Hin) in Hc. discriminate.
Qed.

Lemma ranked_first_spec (lebe : string) (langs : list string) (r : string) :
  checks.ranked_first lebe langs r = true ->
  In r langs /\ contains lebe r = true /\
  (forall c, In c langs -> contains lebe c = true ->
     arch.language_key r <= arch.language_key c) /\
  (forall c, In c langs -> contains lebe c = true ->
     checks.is_default c = true ->
     checks.is_default r = true /\ String.length r <= String.length c) /\
  ((forall c, In c langs -> contains lebe c = true ->
      checks.is_default c = false) ->
   forall c, In c langs -> contains lebe c = true ->
     String.length r <= String.length c).
Proof.
  unfold checks.ranked_first. intros H.
  apply andb_prop in H. destruct H as [H Hlen].
  apply andb_prop in H. destruct H as [H Hall].
  apply andb_prop in H. destruct H as [Hin Htag].
  rewrite forallb_forall in Hall.
  split; [| split; [exact Htag |]].
  - apply existsb_exists in Hin. destruct Hin as [x [Hx E]].
    apply String.eqb_eq in E. now subst.
  - split; [| split].
    + intros c Hc Hm. specialize (Hall c Hc). rewrite Hm in Hall.
      simpl in Hall. apply andb_prop in Hall. destruct Hall as [Hk _].
      now apply Nat.leb_le.
    + intros c Hc Hm Hd. specialize (Hall c Hc). rewrite Hm, Hd in Hall.
      simpl in Hall. apply andb_prop in Hall. destruct Hall as [_ Hr].
      apply andb_prop in Hr. destruct Hr as [Hr1 Hr2].
      split; [exact Hr1 | now apply Nat.leb_le].
    + intros Hnone c Hc Hm.
      apply orb_prop in Hlen. destruct Hlen as [Hex | Hfa].
      * apply existsb_exists in Hex. destruct Hex as [x [Hx E]].
        apply andb_prop in E. destruct E as [E1 E2].
        rewrite (Hnone x Hx E1) in E2. discriminate.
      * rewrite forallb_forall in Hfa. specialize (Hfa c Hc).
        rewrite Hm in Hfa. simpl in Hfa. now apply Nat.leb_le.
Qed.

(** Every entry of the static table passes the ranking check, for both
    tags. *)
Lemma language_map_ranked :
  forallb (fun e => checks.entry_ranked ":BE:" (snd e)
                    && checks.entry_ranked ":LE:" (snd e))
    arch.language_map = true.
Proof. vm_compute. reflexivity. Qed.

Lemma language_map_single_tag :
  forallb (fun e => forallb checks.single_tag (snd e)) arch.language_map = true.
Proof. vm_compute. reflexivity. Qed.

Lemma language_map_keys_distinct :
  NoDup (dict_keys arch.language_map).
Proof.
  unfold dict_keys. simpl.
  repeat (constructor; [simpl; intuition discriminate |]).
  constructor.
Qed.

(** C3, counterexample.  Raw architecture ["x64"] is a key of the
    table, no language override is set and the resolved endianness is
    ["big"]; the resolver returns the data-only language, which is not
    a candidate of the key's list. *)
Lemma x64_big_is_not_a_candidate :
  let conv : util.conv_map_t := [("endian", Some "big")] in
  let dbg := checks.x64_device "linux" in
  util.get_convenience_variable conv "ghidra-language" = "auto" /\
  arch.get_endian conv = "big" /\
  dict_get String.eqb (arch.get_arch dbg) arch.language_map
    = Some ["x86:LE:64:default"] /\
  arch.compute_ghidra_language conv dbg = "DATA:BE:64:default" /\
  ~ In (arch.compute_ghidra_language conv dbg) ["x86:LE:64:default"].
Proof.
  repeat split; try reflexivity.
  vm_compute. intros [H | []]. discriminate.
Qed.

(** C3, amended.  For a raw architecture that is a key of the table,
    with no language override, a resolved endianness of ["big"] or
    ["little"] and at least one candidate of the key's list carrying
    the tag of that endianness: the resolver returns a candidate of
    that list which carries the tag ([":BE:"] for big, [":LE:"] for
    little); it has the least sort key among the matching candidates
    (a [":default"] variant before any other, then shorter
    identifiers); when some matching candidate is a [":default"]
    variant the result is one, and no matching [":default"] variant is
    shorter; when none is, no matching candidate is shorter. *)
Theorem compute_ghidra_language_ranked
  (conv : util.conv_map_t) (dbg : util.dbg_t) (langs : list string) :
  util.get_convenience_variable conv "ghidra-language" = "auto" ->
  arch.get_endian conv = "big" \/ arch.get_endian conv = "little" ->
  dict_get String.eqb (arch.get_arch dbg) arch.language_map = Some langs ->
  (exists c, In c langs /\
             contains (arch.lebe_of (arch.get_endian conv)) c = true) ->
  let lebe := arch.lebe_of (arch.get_endian conv) in
  let r := arch.compute_ghidra_language conv dbg in
  (arch.get_endian conv = "big" -> lebe = ":BE:") /\
  (arch.get_endian conv = "little" -> lebe = ":LE:") /\
  In r langs /\ contains lebe r = true /\
  (forall c, In c langs -> contains lebe c = true ->
     arch.language_key r <= arch.language_key c) /\
  (forall c, In c langs -> contains lebe c = true ->
     checks.is_default c = true ->
     checks.is_default r = true /\ String.length r <= String.length c) /\
  ((forall c, In c langs -> contains lebe c = true ->
      checks.is_default c = false) ->
   forall c, In c langs -> contains lebe c = true ->
     String.length r <= String.length c).
Proof.
  intros Hauto Hend Hget [c [Hc Hm]] lebe r.
  split; [apply lebe_of_big |]. split; [apply lebe_of_little |].
  subst r. rewrite (compute_ghidra_language_auto conv dbg Hauto), Hget.
  fold lebe in Hm |- *.
  destruct (checks.matching lebe langs) as [| r t] eqn:E.
  - exfalso. exact (matching_not_nil lebe langs c Hc Hm E).
  - apply ranked_first_spec.
    pose proof language_map_ranked as Htab.
    rewrite forallb_forall in Htab.
    specialize (Htab _ (dict_get_In _ _ _ Hget)). simpl in Htab.
    apply andb_prop in Htab. destruct Htab as [Hbe Hle].
    unfold checks.entry_ranked in Hbe, Hle.
    assert (Hl : lebe = ":BE:" \/ lebe = ":LE:").
    { destruct Hend as [Hb | Hl];
        [left; now apply lebe_of_big | right; now apply lebe_of_little]. }
    destruct Hl as [Hl | Hl]; rewrite Hl in E |- *.
    + now rewrite E in Hbe.
    + now rewrite E in Hle.
Qed.

Lemma compute_ghidra_language_ranked_witness :
  let conv : util.conv_map_t := [("endian", Some "big")] in
  let dbg : util.dbg_t :=
    inr {| util.sp_arch := "m9s12x"; util.sp_platform := "linux";
           util.sp_other := [] |} in
  arch.compute_ghidra_language conv dbg = "HCS-12:BE:24:default" /\
  In (arch.compute_ghidra_language conv dbg)
     ["HCS-12:BE:24:default"; "HCS-12X:BE:24:default"] /\
  contains ":BE:" (arch.compute_ghidra_language conv dbg) = true.
Proof.
  intros conv dbg.
  destruct (compute_ghidra_language_ranked conv dbg
              ["HCS-12:BE:24:default"; "HCS-12X:BE:24:default"])
    as (_ & _ & Hin & Htag & _).
  - reflexivity.
  - left. reflexivity.
  - reflexivity.
  - exists "HCS-12:BE:24:default". split; [now left | reflexivity].
  - split; [reflexivity |]. split; [exact Hin | exact Htag].
Defined.

(** Whatever the table holds for the architecture, the language
    resolved without an override carries the tag of the resolved
    endianness. *)
Lemma compute_ghidra_language_tag (conv : util.conv_map_t) (dbg : util.dbg_t) :
  util.get_convenience_variable conv "ghidra-language" = "auto" ->
  contains (arch.lebe_of (arch.get_endian conv))
    (arch.compute_ghidra_language conv dbg) = true.
Proof.
  intros Hauto. rewrite (compute_ghidra_language_auto conv dbg Hauto).
  assert (Hdata : contains (arch.lebe_of (arch.get_endian conv))
            ("DATA" ++ arch.lebe_of (arch.get_endian conv) ++ "64:default")
          = true).
  { unfold arch.lebe_of.
    destruct (String.eqb (arch.get_endian conv) "big"); reflexivity. }
  destruct (dict_get String.eqb (arch.get_arch dbg) arch.language_map)
    as [langs |]; [| exact Hdata].
  destruct (checks.matching (arch.lebe_of (arch.get_endian conv)) langs)
    as [| r t] eqn:E; [exact Hdata |].
  now destruct (matching_head _ _ _ _ E).
Qed.

(** A resolved language never carries both tags. *)
Lemma compute_ghidra_language_single_tag
  (conv : util.conv_map_t) (dbg : util.dbg_t) :
  util.get_convenience_variable conv "ghidra-language" = "auto" ->
  checks.single_tag (arch.compute_ghidra_language conv dbg) = true.
Proof.
  intros Hauto. rewrite (compute_ghidra_language_auto conv dbg Hauto).
  assert (Hdata : checks.single_tag
            ("DATA" ++ arch.lebe_of (arch.get_endian conv) ++ "64:default")
          = true).
  { unfold arch.lebe_of.
    destruct (String.eqb (arch.get_endian conv) "big"); reflexivity. }
  destruct (dict_get String.eqb (arch.get_arch dbg) arch.language_map)
    as [langs |] eqn:Hget; [| exact Hdata].
  destruct (checks.matching (arch.lebe_of (arch.get_endian conv)) langs)
    as [| r t] eqn:E; [exact Hdata |].
  destruct (matching_head _ _ _ _ E) as [Hin _].
  pose proof language_map_single_tag as Htab.
  rewrite forallb_forall in Htab.
  specialize (Htab _ (dict_get_In _ _ _ Hget)). simpl in Htab.
  rewrite forallb_forall in Htab. now apply Htab.
Qed.

(** C4.  When no language override is set: for a raw
    architecture absent from the table, and for one whose candidates
    all lack the tag of the resolved endianness, the resolver returns
    the data-only 64-bit language of that endianness
    (["DATA:BE:64:default"] for big, ["DATA:LE:64:default"] for
    little); and in every case the language it returns carries the tag
    of the resolved endianness and not the other one. *)
Theorem compute_ghidra_language_fallback
  (conv : util.conv_map_t) (dbg : util.dbg_t) :
  util.get_convenience_variable conv "ghidra-language" = "auto" ->
  let lebe := arch.lebe_of (arch.get_endian conv) in
  let r := arch.compute_ghidra_language conv dbg in
  (dict_get String.eqb (arch.get_arch dbg) arch.language_map = None ->
   r = "DATA" ++ lebe ++ "64:default") /\
  (forall langs,
     dict_get String.eqb (arch.get_arch dbg) arch.language_map = Some langs ->
     (forall c, In c langs -> contains lebe c = false) ->
     r = "DATA" ++ lebe ++ "64:default") /\
  (arch.get_endian conv = "big" ->
   "DATA" ++ lebe ++ "64:default" = "DATA:BE:64:default" /\
   contains ":BE:" r = true /\ contains ":LE:" r = false) /\
  (arch.get_endian conv = "little" ->
   "DATA" ++ lebe ++ "64:default" = "DATA:LE:64:default" /\
   contains ":LE:" r = true /\ contains ":BE:" r = false).
Proof.
  intros Hauto lebe r.
  pose proof (compute_ghidra_language_tag conv dbg Hauto) as Htag.
  pose proof (compute_ghidra_language_single_tag conv dbg Hauto) as Hone.
  fold lebe r in Htag. fold r in Hone. unfold checks.single_tag in Hone.
  repeat split.
  - intros Hnone. subst r.
    now rewrite (compute_ghidra_language_auto conv dbg Hauto), Hnone.
  - intros langs Hget Hno. subst r.
    rewrite (compute_ghidra_language_auto conv dbg Hauto), Hget.
    fold lebe. now rewrite (matching_nil lebe langs Hno).
  - subst lebe. now rewrite (lebe_of_big _ H).
  - subst lebe. now rewrite (lebe_of_big _ H) in Htag.
  - subst lebe. rewrite (lebe_of_big _ H) in Htag.
    rewrite Htag in Hone. simpl in Hone.
    now destruct (contains ":LE:" r).
  - subst lebe. now rewrite (lebe_of_little _ H).
  - subst lebe. now rewrite (lebe_of_little _ H) in Htag.
  - subst lebe. rewrite (lebe_of_little _ H) in Htag.
    rewrite Htag in Hone. rewrite andb_true_r in Hone.
    now destruct (contains ":BE:" r).
Qed.

Lemma compute_ghidra_language_fallback_witness :
  let conv : util.conv_map_t := [("endian", Some "big")] in
  let vax : util.dbg_t :=
    inr {| util.sp_arch := "vax"; util.sp_platform := "linux";
           util.sp_other := [] |} in
  let x64 := checks.x64_device "linux" in
  arch.compute_ghidra_language conv vax = "DATA:BE:64:default" /\
  arch.compute_ghidra_language conv x64 = "DATA:BE:64:default" /\
  contains ":LE:" (arch.compute_ghidra_language conv x64) = false /\
  arch.compute_ghidra_language [("endian", Some "little")] vax
    = "DATA:LE:64:default".
Proof.
  intros conv vax x64.
  destruct (compute_ghidra_language_fallback conv vax eq_refl)
    as (Habsent & _ & Hbig & _).
  destruct (compute_ghidra_language_fallback conv x64 eq_refl)
    as (_ & Hnomatch & Hbig' & _).
  destruct (compute_ghidra_language_fallback
              [("endian", Some "little")] vax eq_refl)
    as (Habsent' & _ & _ & Hlittle).
  split; [| split; [| split]].
  - rewrite (Habsent eq_refl). exact (proj1 (Hbig eq_refl)).
  - rewrite (Hnomatch ["x86:LE:64:default"] eq_refl).
    + exact (proj1 (Hbig' eq_refl)).
    + intros c [<- | []]. reflexivity.
  - exact (proj2 (proj2 (Hbig' eq_refl))).
  - rewrite (Habsent' eq_refl). exact (proj1 (Hlittle eq_refl)).
Defined.

(** C5.  With no language and no compiler override, raw architecture
    ["x64"] and endianness ["little"] resolve to language
    ["x86:LE:64:default"]; for that language the compiler is
    ["windows"] when the OS/ABI is ["windows"] and ["gcc"] when it is
    ["linux"]. *)
Theorem x64_little_resolution (conv : util.conv_map_t) (dbg : util.dbg_t) :
  util.get_convenience_variable conv "ghidra-language" = "auto" ->
  util.get_convenience_variable conv "ghidra-compiler" = "auto" ->
  arch.get_arch dbg = "x64" ->
  arch.get_endian conv = "little" ->
  arch.compute_ghidra_language conv dbg = "x86:LE:64:default" /\
  (arch.get_osabi conv dbg = ok "windows" ->
   arch.compute_ghidra_compiler conv dbg "x86:LE:64:default" = ok "windows" /\
   arch.compute_ghidra_lcsp conv dbg = ok ("x86:LE:64:default", "windows")) /\
  (arch.get_osabi conv dbg = ok "linux" ->
   arch.compute_ghidra_compiler conv dbg "x86:LE:64:default" = ok "gcc" /\
   arch.compute_ghidra_lcsp conv dbg = ok ("x86:LE:64:default", "gcc")).
Proof.
  intros Hlang Hcomp Harch Hend.
  assert (L : arch.compute_ghidra_language conv dbg = "x86:LE:64:default").
  { rewrite (compute_ghidra_language_auto conv dbg Hlang), Harch, Hend.
    reflexivity. }
  split; [exact L |].
  split; intros Hos.
  - assert (C : arch.compute_ghidra_compiler conv dbg "x86:LE:64:default"
                = ok "windows").
    { unfold arch.compute_ghidra_compiler. rewrite Hcomp, Hos. reflexivity. }
    split; [exact C |].
    unfold arch.compute_ghidra_lcsp. rewrite L, C. reflexivity.
  - assert (C : arch.compute_ghidra_compiler conv dbg "x86:LE:64:default"
                = ok "gcc").
    { unfold arch.compute_ghidra_compiler. rewrite Hcomp, Hos. reflexivity. }
    split; [exact C |].
    unfold arch.compute_ghidra_lcsp. rewrite L, C. reflexivity.
Qed.

Lemma x64_little_resolution_witness :
  arch.compute_ghidra_lcsp [] (checks.x64_device "windows")
    = ok ("x86:LE:64:default", "windows") /\
  arch.compute_ghidra_lcsp [] (checks.x64_device "linux")
    = ok ("x86:LE:64:default", "gcc").
Proof.
  split.
  - apply (x64_little_resolution [] (checks.x64_device "windows")
             eq_refl eq_refl eq_refl eq_refl).
    reflexivity.
  - apply (x64_little_resolution [] (checks.x64_device "linux")
             eq_refl eq_refl eq_refl eq_refl).
    reflexivity.
Defined.

(** ** C6, C9: the x86-64 register mapper *)

Lemma map_name_efl (proc : pyval) :
  arch.map_name arch.Intel_x86_64_RegisterMapper proc (Some "efl")
  = Some "rflags".
Proof. reflexivity. Qed.

(** A [zmm] name becomes the [ymm] name with the same suffix. *)
Lemma map_name_zmm (proc : pyval) (suffix : string) :
  arch.map_name arch.Intel_x86_64_RegisterMapper proc (Some ("zmm" ++ suffix))
  = Some ("ymm" ++ suffix).
Proof.
  simpl. unfold slice_from. simpl.
  rewrite Nat.sub_0_r.
  assert (E : forall s, String.substring 0 (String.length s) s = s).
  { induction s as [| c s IH]; simpl; [reflexivity | now rewrite IH]. }
  now rewrite E.
Qed.

Lemma be_bytes_length (length : nat) (n : N) (acc : list Byte.byte) :
  List.length (be_bytes length n acc) = length + List.length acc.
Proof.
  revert n acc. induction length as [| k IH]; intros n acc; simpl;
    [reflexivity |].
  destruct (Byte.of_N (n mod 256)) as [b |] eqn:E.
  - rewrite IH. simpl. lia.
  - exfalso.
    assert (Hlt : (n mod 256 < 256)%N) by (apply N.mod_lt; discriminate).
    pose proof (Byte.of_N_None_iff (n mod 256)%N) as Hnone.
    apply Hnone in E. lia.
Qed.

(** Every value the base class converts is eight bytes long. *)
Lemma to_bytes_big_8_length (v : Z) (av : list Byte.byte) :
  to_bytes_big 8 v = Some av -> List.length av = 8.
Proof.
  unfold to_bytes_big.
  destruct ((0 <=? v)%Z && (v <? 256 ^ Z.of_nat 8)%Z); [| discriminate].
  intros H.
  assert (E : av = be_bytes 8 (Z.to_N v) []) by congruence.
  rewrite E. apply be_bytes_length.
Qed.

(** A value of more than eight bytes is not converted. *)
Lemma to_bytes_big_8_overflow (v : Z) :
  (2 ^ 64 <= v)%Z -> to_bytes_big 8 v = None.
Proof.
  intros H. unfold to_bytes_big.
  replace (256 ^ Z.of_nat 8)%Z with (2 ^ 64)%Z by reflexivity.
  destruct (Z.ltb_spec v (2 ^ 64)%Z); [lia |].
  now rewrite andb_false_r.
Qed.

(** The x86-64 mapper never truncates: what it returns is the eight
    bytes of the base class. *)
Lemma map_value_eight_bytes (self : arch.RegisterMapper) (proc : pyval)
  (raw : option string) (v : Z) (rv : arch.RegVal) :
  arch.map_value self proc raw v = ok rv ->
  List.length (arch.value rv) = 8.
Proof.
  destruct self as [order |]; simpl;
    unfold arch.Intel_x86_64_RegisterMapper_map_value,
           arch.DefaultRegisterMapper_map_value;
    destruct (to_bytes_big 8 v) as [av |] eqn:E; try discriminate;
    pose proof (to_bytes_big_8_length v av E) as Hlen.
  - intros [= <-]. exact Hlen.
  - simpl.
    destruct (arch.Intel_x86_64_RegisterMapper_map_name proc raw)
      as [rvname |]; [| discriminate].
    rewrite Hlen. simpl. rewrite andb_false_r.
    intros [= <-]. exact Hlen.
Qed.

(** A [zmm] value wider than eight bytes, wider than 32 bytes in
    particular, raises [ValueError]. *)
Lemma map_value_wide_raises (proc : pyval) (raw : option string) (v : Z) :
  (2 ^ 64 <= v)%Z ->
  exists msg,
    arch.map_value arch.Intel_x86_64_RegisterMapper proc raw v
    = raise (ValueError msg).
Proof.
  intros H. simpl.
  unfold arch.Intel_x86_64_RegisterMapper_map_value,
         arch.DefaultRegisterMapper_map_value.
  rewrite (to_bytes_big_8_overflow v H). eexists. reflexivity.
Qed.

(** C6, at the failing input.  On the x86-64 mapper ["efl"] maps to
    ["rflags"] and ["zmm3"] to ["ymm3"]; but the value [2 ^ 256] of
    register ["zmm3"], which is 33 bytes wide, is not truncated to its
    low 32 bytes: [map_value] raises [ValueError]; and a value that is
    converted keeps the eight bytes of the base class. *)
Theorem zmm_wide_value_is_not_truncated :
  arch.map_name arch.Intel_x86_64_RegisterMapper (PyInt 1234) (Some "efl")
    = Some "rflags" /\
  arch.map_name arch.Intel_x86_64_RegisterMapper (PyInt 1234) (Some "zmm3")
    = Some "ymm3" /\
  (exists msg,
     arch.map_value arch.Intel_x86_64_RegisterMapper (PyInt 1234)
       (Some "zmm3") (2 ^ 256) = raise (ValueError msg)) /\
  arch.map_value arch.Intel_x86_64_RegisterMapper (PyInt 1234)
    (Some "zmm3") 258
  = ok {| arch.name := Some "ymm3";
          arch.value := [Byte.x00; Byte.x00; Byte.x00; Byte.x00;
                         Byte.x00; Byte.x00; Byte.x01; Byte.x02] |}.
Proof.
  split; [reflexivity |]. split; [reflexivity |]. split.
  - apply map_value_wide_raises. vm_compute. discriminate.
  - reflexivity.
Qed.

(** C9, at the failing inputs.  Forward, ["efl"] is renamed to
    ["rflags"] and ["rax"] is left unchanged; backward, ["rflags"]
    gives ["eflags"], which is not the raw name, and ["rax"] gives
    [None], while the default mapper returns the name it is given. *)
Theorem map_name_back_does_not_invert :
  arch.map_name arch.Intel_x86_64_RegisterMapper (PyInt 1234) (Some "efl")
    = Some "rflags" /\
  arch.map_name_back arch.Intel_x86_64_RegisterMapper (PyInt 1234)
    (Some "rflags") = Some "eflags" /\
  arch.map_name_back arch.Intel_x86_64_RegisterMapper (PyInt 1234)
    (Some "rflags") <> Some "efl" /\
  arch.map_name arch.Intel_x86_64_RegisterMapper (PyInt 1234) (Some "rax")
    = Some "rax" /\
  arch.map_name_back arch.Intel_x86_64_RegisterMapper (PyInt 1234)
    (Some "rax") = None /\
  arch.map_name_back arch.DEFAULT_LE_REGISTER_MAPPER (PyInt 1234)
    (Some "rax") = Some "rax".
Proof.
  repeat split; try reflexivity. discriminate.
Qed.

(** Backward, the x86-64 mapper returns a name for ["rflags"] only. *)
Lemma map_name_back_none (proc : pyval) (name : option string) :
  name <> Some "rflags" ->
  arch.map_name_back arch.Intel_x86_64_RegisterMapper proc name = None.
Proof.
  intros H. simpl. unfold arch.Intel_x86_64_RegisterMapper_map_name_back.
  destruct name as [n |]; simpl; [| reflexivity].
  destruct (String.eqb_spec n "rflags"); [congruence | reflexivity].
Qed.

(** ** C7: the selection of the register mapper *)

(** C7.  For every language id: when it is a key of the table of
    register mappers the registered instance is returned; otherwise the
    big-endian default mapper when the id contains [":BE:"], and the
    little-endian default mapper when it contains [":LE:"] (and not
    [":BE:"], which is tested first); so for an id absent from the
    table that carries an endianness tag the call returns a mapper. *)
Theorem compute_register_mapper_selection (lang : string) :
  (forall m,
     dict_get String.eqb lang arch.register_mappers = Some m ->
     arch.compute_register_mapper lang = ok m) /\
  (dict_get String.eqb lang arch.register_mappers = None ->
   contains ":BE:" lang = true ->
   arch.compute_register_mapper lang = ok arch.DEFAULT_BE_REGISTER_MAPPER) /\
  (dict_get String.eqb lang arch.register_mappers = None ->
   contains ":BE:" lang = false ->
   contains ":LE:" lang = true ->
   arch.compute_register_mapper lang = ok arch.DEFAULT_LE_REGISTER_MAPPER) /\
  (dict_get String.eqb lang arch.register_mappers = None ->
   contains ":BE:" lang = true \/ contains ":LE:" lang = true ->
   exists m, arch.compute_register_mapper lang = ok m).
Proof.
  unfold arch.compute_register_mapper. repeat split.
  - intros m ->. reflexivity.
  - intros -> ->. reflexivity.
  - intros -> -> ->. reflexivity.
  - intros -> [-> | H]; [eauto |].
    destruct (contains ":BE:" lang); rewrite ?H; eauto.
Qed.

Lemma compute_register_mapper_selection_witness :
  arch.compute_register_mapper "x86:LE:64:default"
    = ok arch.Intel_x86_64_RegisterMapper /\
  arch.compute_register_mapper "MIPS:BE:32:default"
    = ok arch.DEFAULT_BE_REGISTER_MAPPER /\
  arch.compute_register_mapper "ARM:LE:32:v8"
    = ok arch.DEFAULT_LE_REGISTER_MAPPER /\
  exists m, arch.compute_register_mapper "DATA:LE:64:default" = ok m.
Proof.
  split; [| split; [| split]].
  - apply (proj1 (compute_register_mapper_selection "x86:LE:64:default")).
    reflexivity.
  - apply (proj1 (proj2 (compute_register_mapper_selection
                           "MIPS:BE:32:default"))); reflexivity.
  - apply (proj1 (proj2 (proj2 (compute_register_mapper_selection
                                  "ARM:LE:32:v8")))); reflexivity.
  - apply (proj2 (proj2 (proj2 (compute_register_mapper_selection
                                  "DATA:LE:64:default")))).
    + reflexivity.
    + right. reflexivity.
Defined.

(** The only table key is the x86-64 language. *)
Lemma register_mappers_key (lang : string) (m : arch.RegisterMapper) :
  dict_get String.eqb lang arch.register_mappers = Some m ->
  lang = "x86:LE:64:default" /\ m = arch.Intel_x86_64_RegisterMapper.
Proof.
  simpl. destruct (String.eqb_spec lang "x86:LE:64:default");
    [intros [= <-]; now split | discriminate].
Qed.

(** An id with neither tag that is not a key reaches the final
    subscript of the table. *)
Lemma compute_register_mapper_untagged (lang : string) :
  dict_get String.eqb lang arch.register_mappers = None ->
  contains ":BE:" lang = false ->
  contains ":LE:" lang = false ->
  arch.compute_register_mapper lang = raise (KeyError lang).
Proof.
  unfold arch.compute_register_mapper. now intros -> -> ->.
Qed.

(** ** C10: the memory mapper and the overlay guard *)

(** Whatever the mapper's space, [map] reports it as the base and as
    the space of the address, so the guard is false. *)
Lemma overlay_never_needed (self : arch.DefaultMemoryMapper) (pid : pyval)
  (offset : Z) :
  commands.overlay_needed
    (fst (arch.DefaultMemoryMapper_map self pid offset))
    (snd (arch.DefaultMemoryMapper_map self pid offset)) = false.
Proof.
  unfold commands.overlay_needed, arch.DefaultMemoryMapper_map. simpl.
  now rewrite String.eqb_refl.
Qed.

(** C10.  For every language id [compute_memory_mapper] returns the
    default mapper, whose space is ["ram"] (the registry is empty); so
    every [map] returns ["ram"] both as the base and as the space of
    the address, the guard [base != addr.space] is false, and
    [map_address] on a trace that carries this mapper returns the pair
    without sending a request to the store. *)
Theorem memory_overlay_branch_never_taken :
  arch.memory_mappers = [] /\
  (forall lang,
     arch.compute_memory_mapper lang = arch.DEFAULT_MEMORY_MAPPER /\
     arch.defaultSpace (arch.compute_memory_mapper lang) = "ram") /\
  (forall lang pid offset,
     arch.DefaultMemoryMapper_map (arch.compute_memory_mapper lang) pid offset
     = ("ram", {| arch.space := "ram"; arch.offset := offset |}) /\
     commands.overlay_needed
       (fst (arch.DefaultMemoryMapper_map
               (arch.compute_memory_mapper lang) pid offset))
       (snd (arch.DefaultMemoryMapper_map
               (arch.compute_memory_mapper lang) pid offset)) = false) /\
  (forall lang (w : commands.world) (t : commands.Trace) (address : Z),
     commands.trace (commands.STATE w) = Some t ->
     commands.memory_mapper t = arch.compute_memory_mapper lang ->
     commands.map_address address w
     = (ok ("ram", {| arch.space := "ram"; arch.offset := address |}), w)).
Proof.
  split; [reflexivity |]. split; [now intros lang |].
  split; [now intros lang pid offset |].
  intros lang w t address Ht Hm.
  unfold commands.map_address, commands.bind, commands.selected_process,
    commands.current, commands.gets, commands.STATE_trace, ok.
  rewrite Ht. cbv beta iota zeta. rewrite Hm. reflexivity.
Qed.

Lemma memory_overlay_branch_never_taken_witness :
  commands.map_address 4096 (checks.sample_world None)
  = (ok ("ram", {| arch.space := "ram"; arch.offset := 4096 |}),
     checks.sample_world None).
Proof.
  apply (proj2 (proj2 (proj2 memory_overlay_branch_never_taken))
           "x86:LE:64:default" (checks.sample_world None)
           checks.sample_trace 4096%Z); reflexivity.
Defined.

(** ** C8: the transaction precondition *)

Lemma require_tx_none {A} (k : commands.Tx -> commands.M A)
  (w : commands.world) :
  commands.tx (commands.STATE w) = None ->
  commands.bind commands.require_tx k w
  = (raise (RuntimeError "No transaction"), w).
Proof.
  intros H. unfold commands.bind, commands.require_tx. now rewrite H.
Qed.

(** C8.  Every [ghidra_trace_put...] command, run without an open
    transaction, raises [RuntimeError "No transaction"] and leaves the
    world as it was: no query reaches the target, no request reaches
    the store, and no global changes. *)
Theorem put_command_requires_tx
  (tgt : commands.target) (validate_state : string -> result unit)
  (c : commands.put_command) (w : commands.world) :
  commands.tx (commands.STATE w) = None ->
  commands.run_put_command tgt validate_state c w
  = (raise (RuntimeError "No transaction"), w).
Proof.
  intros H. destruct c; simpl; now apply require_tx_none.
Qed.

(** With a transaction open the same command does query the target and
    write to the store. *)
Lemma put_regions_with_tx
  (tgt : commands.target) (validate_state : string -> result unit) :
  commands.ranges tgt
  = Some (commands.msg_send
            [{| commands.r_base := "0x1000"; commands.r_size := 4096;
                commands.r_protection := "rw-"; commands.r_file := None |}]
            tt) ->
  let w := checks.sample_world (Some (commands.MkTx "tx")) in
  let r := commands.run_put_command tgt validate_state
             commands.cmd_put_regions w in
  fst r = ok tt /\
  List.length (commands.queries (snd r)) = 1 /\
  In (commands.retain_values "Sessions[local].Processes[1234].Memory"
        ["[0x1000]"]) (commands.store (snd r)).
Proof.
  intros H w r. subst r w. simpl.
  unfold commands.ghidra_trace_put_regions, commands.put_regions,
    commands.run_script, commands.load_script.
  rewrite H. vm_compute. intuition.
Qed.

(** ** C1: the keys retained by the synchronisation operations *)

(** C1, at the failing input.  One loaded class ["A"] with one method
    ["m"]: the class container is asked to retain ["[A]"] and
    ["[m]"], although the only element written under it is ["[A]"]
    and no object [Classes[m]] is created; the Methods container,
    where ["[m]"] was written, is asked to retain no key. *)
Theorem loaded_classes_retain_wrong_keys :
  let message :=
    Some (commands.msg_send
            [{| commands.c_name := Some "A"; commands.c_path := None;
                commands.c_methods := Some ["m"] |}] tt) in
  let w := checks.sample_world (Some (commands.MkTx "tx")) in
  let classes := "Sessions[local].Processes[1234].Classes" in
  let r := commands.put_loaded_classes_callback message w in
  fst r = ok tt /\
  commands.store (snd r) =
    [commands.create_object (classes ++ "[A]");
     commands.set_value (classes ++ "[A]") "Name" (commands.TStr "A");
     commands.set_value (classes ++ "[A]") "Path" (commands.TStr "");
     commands.set_value (classes ++ "[A]") "_display" (commands.TStr "");
     commands.insert (classes ++ "[A]");
     commands.create_object (classes ++ "[A].Methods[m]");
     commands.insert (classes ++ "[A].Methods[m]");
     commands.retain_values (classes ++ "[A].Methods") [];
     commands.retain_values classes ["[A]"; "[m]"]] /\
  ~ In (commands.create_object (classes ++ "[m]")) (commands.store (snd r)).
Proof.
  intros message w classes r. split; [reflexivity |].
  split; [reflexivity |].
  vm_compute. intuition discriminate.
Qed.

(** The class-loader callback stops at its first record: the object is
    created, then the key is formatted from an unbound name, and no
    [retain_values] is sent. *)
Lemma class_loaders_raise_name_error :
  let message := Some (commands.msg_send ["loader"] tt) in
  let w := checks.sample_world (Some (commands.MkTx "tx")) in
  let r := commands.put_class_loaders_callback message w in
  fst r = raise (NameError "name 'key' is not defined") /\
  commands.store (snd r) =
    [commands.create_object
       "Sessions[local].Processes[1234].ClassLoaders[loader]"].
Proof. split; reflexivity. Qed.

(** The heap callback stops at its first record: the element path is
    formatted without the [pid] its template names, nothing is written
    and no [retain_values] is sent. *)
Lemma heap_raises_key_error :
  let message :=
    Some (commands.msg_send
            [{| commands.h_base := "0x2000"; commands.h_size := 64 |}] tt) in
  let w := checks.sample_world (Some (commands.MkTx "tx")) in
  let r := commands.put_heap_callback message w in
  fst r = raise (KeyError "pid") /\ commands.store (snd r) = [].
Proof. split; reflexivity. Qed.

Lemma put_command_requires_tx_witness :
  commands.run_put_command
    {| commands.dbg := raise (RuntimeError "no device");
       commands.frida_devices := ok [];
       commands.dbg_processes := ok [];
       commands.dbg_applications := ok [];
       commands.session_attributes := None;
       commands.ranges := None;
       commands.kernel_ranges := None;
       commands.malloc_ranges := None;
       commands.modules := None;
       commands.kernel_modules := None;
       commands.module_ranges := fun _ _ => None;
       commands.module_imports := fun _ _ => None;
       commands.module_exports := fun _ _ => None;
       commands.module_symbols := fun _ _ => None;
       commands.module_dependencies := fun _ _ => None;
       commands.threads := None;
       commands.backtrace := None;
       commands.objc_classes := None;
       commands.java_classes := None;
       commands.java_class_loaders := None;
       commands.memory_dump := fun _ _ => None |}
    (fun _ => ok tt) commands.cmd_put_regions (checks.sample_world None)
  = (raise (RuntimeError "No transaction"), checks.sample_world None).
Proof.
  apply put_command_requires_tx. reflexivity.
Defined.

(* ===================================================================== *)
(** * Further properties of the commands                                  *)
(* ===================================================================== *)

Import commands.
Import checks.

(** ** The requests of the monad's operations *)

Lemma emits_ret {A} (a : A) (w : world) : emits (ret a) w a [].
Proof. exists w. now rewrite app_nil_r. Qed.

Lemma emits_bind {A B} (c : M A) (k : A -> M B) (w : world) (a : A)
  (e1 : list store_call) (b : B) (e2 : list store_call) :
  emits c w a e1 ->
  (forall w1, STATE w1 = STATE w -> emits (k a) w1 b e2) ->
  emits (bind c k) w b (e1 ++ e2)%list.
Proof.
  intros (w1 & E1 & S1 & L1) Hk.
  destruct (Hk w1 S1) as (w2 & E2 & S2 & L2).
  exists w2. unfold bind. rewrite E1. split; [exact E2 |].
  split; [congruence |]. now rewrite L2, L1, app_assoc.
Qed.

Lemma emits_lift {A} (r : result A) (a : A) (w : world) :
  r = ok a -> emits (lift r) w a [].
Proof. intros ->. exists w. now rewrite app_nil_r. Qed.

Lemma emits_fmt (t : template) (kwargs : dict string pyval) (s : string)
  (w : world) :
  format t kwargs = ok s -> emits (fmt t kwargs) w s [].
Proof. intros H. unfold fmt. now apply emits_lift. Qed.

Lemma emits_send (c : store_call) (w : world) : emits (send c) w tt [c].
Proof. exists (set_store (store w ++ [c])%list w). now split. Qed.

Lemma emits_current_state_set (key : string) (v : pyval) (w : world) :
  emits (current_state_set key v) w tt [].
Proof.
  eexists. split; [reflexivity |]. simpl. now rewrite app_nil_r.
Qed.

Lemma emits_gets {A} (f : world -> A) (w : world) : emits (gets f) w (f w) [].
Proof. exists w. now rewrite app_nil_r. Qed.

Lemma emits_STATE_trace (attr : string) (w : world) (t : Trace) :
  trace (STATE w) = Some t -> emits (STATE_trace attr) w t [].
Proof.
  intros H. exists w. unfold STATE_trace. rewrite H. now rewrite app_nil_r.
Qed.

Lemma emits_query (q : target_query) (w : world) : emits (query q) w tt [].
Proof.
  exists (set_queries (queries w ++ [q])%list w).
  split; [reflexivity |]. split; [reflexivity |]. simpl.
  now rewrite app_nil_r.
Qed.

Lemma emits_when_false (c : M unit) (w : world) : emits (when false c) w tt [].
Proof. apply emits_ret. Qed.

Lemma emits_trace_create_object (path : string) (w : world) (t : Trace) :
  trace (STATE w) = Some t ->
  emits (trace_create_object path) w tt [create_object path].
Proof.
  intros H. apply (emits_bind _ _ w t [] tt [create_object path]).
  - now apply emits_STATE_trace.
  - intros w1 _. apply emits_send.
Qed.

Lemma emits_trace_retain_values (path : string) (keys : list string)
  (w : world) (t : Trace) :
  trace (STATE w) = Some t ->
  emits (trace_retain_values path keys) w tt [retain_values path keys].
Proof.
  intros H. apply (emits_bind _ _ w t [] tt [retain_values path keys]).
  - now apply emits_STATE_trace.
  - intros w1 _. apply emits_send.
Qed.

Lemma emits_trace_create_overlay_space (base space : string) (w : world)
  (t : Trace) :
  trace (STATE w) = Some t ->
  emits (trace_create_overlay_space base space) w tt
    [create_overlay_space base space].
Proof.
  intros H.
  apply (emits_bind _ _ w t [] tt [create_overlay_space base space]).
  - now apply emits_STATE_trace.
  - intros w1 _. apply emits_send.
Qed.

(** A command followed by a continuation whose requests may depend on
    the world it runs in. *)
Lemma emits_ex_bind {A B} (c : M A) (k : A -> M B) (w : world) (a : A)
  (e1 : list store_call) (b : B) (Q : list store_call -> Prop) :
  emits c w a e1 ->
  (forall w1, STATE w1 = STATE w ->
     exists e2, emits (k a) w1 b e2 /\ Q (e1 ++ e2)%list) ->
  exists e, emits (bind c k) w b e /\ Q e.
Proof.
  intros (w1 & E1 & S1 & L1) Hk.
  destruct (Hk w1 S1) as (e2 & (w2 & E2 & S2 & L2) & HQ).
  exists (e1 ++ e2)%list. split; [| exact HQ].
  exists w2. unfold bind. rewrite E1. split; [exact E2 |].
  split; [congruence |]. now rewrite L2, L1, app_assoc.
Qed.

Lemma emits_after_gets {A B} (f : world -> A) (k : A -> M B) (w : world)
  (b : B) (Q : list store_call -> Prop) :
  (exists e, emits (k (f w)) w b e /\ Q e) ->
  exists e, emits (bind (gets f) k) w b e /\ Q e.
Proof. exact (fun H => H). Qed.

Lemma emits_after_trace {B} (attr : string) (k : Trace -> M B) (w : world)
  (t : Trace) (b : B) (Q : list store_call -> Prop) :
  trace (STATE w) = Some t ->
  (exists e, emits (k t) w b e /\ Q e) ->
  exists e, emits (bind (STATE_trace attr) k) w b e /\ Q e.
Proof.
  intros Ht (e & (w1 & E & S1 & L) & HQ). exists e. split; [| exact HQ].
  exists w1. unfold bind, STATE_trace. rewrite Ht. now split.
Qed.

(** ** Loops *)

Section LoopSpec.
Context {S R : Type} (body : S -> R -> M S) (next : S -> R -> S).
Context (good : R -> Prop) (t : Trace).
Context (P : S -> R -> list store_call -> Prop).
Hypothesis body_spec : forall acc r w, trace (STATE w) = Some t -> good r ->
  exists evs, emits (body acc r) w (next acc r) evs /\ P acc r evs.

Lemma for_each_spec : forall rs acc w, trace (STATE w) = Some t ->
  Forall good rs ->
  exists evss, emits (for_each body acc rs) w (fold_left next rs acc)
                 (concat evss) /\
               loop_writes next P acc rs evss.
Proof.
  induction rs as [| r rs IH]; intros acc w Ht Hg.
  - exists []. split; [apply emits_ret | exact Logic.I].
  - inversion Hg as [| ? ? Hr Hrs]; subst.
    destruct (body_spec acc r w Ht Hr) as (evs & (w1 & E1 & S1 & L1) & P1).
    assert (Ht1 : trace (STATE w1) = Some t) by (now rewrite S1).
    destruct (IH (next acc r) w1 Ht1 Hrs) as (evss & (w2 & E2 & S2 & L2) & P2).
    exists (evs :: evss). split; [| now split].
    exists w2. simpl. unfold bind. rewrite E1. split; [exact E2 |].
    split; [congruence |]. now rewrite L2, L1, app_assoc.
Qed.
End LoopSpec.

(** A loop whose body always succeeds and whose requests depend on the
    record only. *)
Lemma for_each_emits {S R} (body : S -> R -> M S) (next : S -> R -> S)
  (ev : R -> list store_call) :
  (forall acc r w, emits (body acc r) w (next acc r) (ev r)) ->
  forall rs acc w,
    emits (for_each body acc rs) w (fold_left next rs acc) (flat_map ev rs).
Proof.
  intros Hb. induction rs as [| r rs IH]; intros acc w; simpl.
  - apply emits_ret.
  - apply emits_bind with (a := next acc r); [apply Hb |].
    intros w1 _. apply IH.
Qed.

Lemma Forall_always {R} (P : R -> Prop) (rs : list R) :
  (forall r, P r) -> Forall P rs.
Proof. intros H. induction rs; constructor; auto. Qed.

Lemma startswith_refl (s : string) : startswith s s = true.
Proof. induction s; simpl; auto. rewrite Ascii.eqb_refl. auto. Qed.

Lemma startswith_app (s t : string) : startswith s (s ++ t) = true.
Proof. induction s; simpl; auto. rewrite Ascii.eqb_refl. auto. Qed.

Lemma append_assoc (a b c : string) : (a ++ b) ++ c = a ++ (b ++ c).
Proof. induction a as [| x a IH]; simpl; [reflexivity | now rewrite IH]. Qed.

Lemma filter_is_retain_nil (evs : list store_call) :
  (forall p ks, ~ In (retain_values p ks) evs) -> filter is_retain evs = [].
Proof.
  induction evs as [| e evs IH]; intros H; [reflexivity |].
  simpl. destruct e; simpl;
    try (apply IH; intros p ks Hin; apply (H p ks); now right).
  exfalso. apply (H path keys). now left.
Qed.

Lemma loop_writes_elements {S R} (next : S -> R -> S) (key : S -> R -> string)
  (container : string) :
  forall (rs : list R) (acc : S) (evss : list (list store_call)),
  loop_writes next
    (fun acc r evs => element_writes (container ++ key acc r) evs)
    acc rs evss ->
  filter is_retain (concat evss) = [] /\
  (forall k, In k (loop_keys next key acc rs) ->
     In (create_object (container ++ k)) (concat evss) /\
     In (insert (container ++ k)) (concat evss)) /\
  (forall p, In (create_object p) (concat evss) ->
     exists k, In k (loop_keys next key acc rs) /\
               startswith (container ++ k) p = true) /\
  (forall b s, In (create_overlay_space b s) (concat evss) -> b = "register").
Proof.
  induction rs as [| r rs IH]; intros acc [| evs evss]; simpl;
    try contradiction.
  - intros _. repeat split; intros; contradiction.
  - intros [(Hc & Hi & Hr & Hp & Ho) Hrest].
    destruct (IH _ _ Hrest) as (F & E & C & O).
    split; [| split; [| split]].
    + rewrite filter_app, F, (filter_is_retain_nil evs Hr). reflexivity.
    + intros k [<- | Hk]; split; apply in_or_app;
        solve [now left | right; now apply E].
    + intros p Hin. apply in_app_or in Hin. destruct Hin as [Hin | Hin].
      * exists (key acc r). split; [now left | now apply Hp].
      * destruct (C p Hin) as (k & Hk & Hs).
        exists k. split; [now right | exact Hs].
    + intros b s Hin. apply in_app_or in Hin.
      destruct Hin as [Hin | Hin]; [now apply (Ho b s) | now apply (O b s)].
Qed.

(** From the writes of the loop and the final request to the claim's
    shape. *)
Lemma retains_written_intro {S R} (next : S -> R -> S) (key : S -> R -> string)
  (container : string) (rs : list R) (acc : S)
  (evss : list (list store_call)) :
  loop_writes next
    (fun acc r evs => element_writes (container ++ key acc r) evs)
    acc rs evss ->
  retains_written container (loop_keys next key acc rs)
    (concat evss ++ [retain_values container (loop_keys next key acc rs)])%list.
Proof.
  intros H. destruct (loop_writes_elements _ _ _ _ _ _ H) as (F & E & C & O).
  split; [exists (concat evss); now split |]. split; [| split].
  - intros k Hk. destruct (E k Hk). split; apply in_or_app; now left.
  - intros p Hin. apply in_app_or in Hin. destruct Hin as [Hin | [Hin | []]];
      [now apply C | discriminate].
  - intros b s Hin. apply in_app_or in Hin. destruct Hin as [Hin | [Hin | []]];
      [now apply (O b s) | discriminate].
Qed.

Lemma fold_left_keys {R} (key : R -> string) (rs : list R) (keys : list string) :
  fold_left (fun ks r => (ks ++ [key r])%list) rs keys
  = (keys ++ List.map key rs)%list.
Proof.
  revert keys. induction rs as [| r rs IH]; intros keys; simpl.
  - now rewrite app_nil_r.
  - rewrite IH. rewrite <- app_assoc. reflexivity.
Qed.

Lemma fold_left_keys_counted {R} (key : Z -> R -> string) (rs : list R)
  (keys : list string) (i : Z) :
  fst (fold_left (fun (st : list string * Z) r =>
                    ((fst st ++ [key (snd st) r])%list, (snd st + 1)%Z))
         rs (keys, i))
  = (keys ++ loop_keys
               (fun (st : list string * Z) r =>
                  ((fst st ++ [key (snd st) r])%list, (snd st + 1)%Z))
               (fun st r => key (snd st) r) (keys, i) rs)%list.
Proof.
  revert keys i. induction rs as [| r rs IH]; intros keys i; simpl.
  - now rewrite app_nil_r.
  - rewrite IH. rewrite <- app_assoc. reflexivity.
Qed.

Lemma loop_keys_map {S R} (next : S -> R -> S) (key : R -> string) (rs : list R) (acc : S) :
  loop_keys next (fun _ => key) acc rs = List.map key rs.
Proof.
  revert acc. induction rs as [| r rs IH]; intros acc; simpl; [reflexivity |].
  now rewrite IH.
Qed.

(** The register loop of [put_threads_callback]: one attribute per
    register, whether or not its value converts. *)
Lemma emits_register_loop (mapper : arch.RegisterMapper) (pid : pyval)
  (space : string) (context : list (string * string))
  (acc : list arch.RegVal) (w : world) :
  emits
    (for_each (fun regvals (entry : string * string) =>
       let (r, rval) := entry in
       bind (send (set_value space r (TStr rval)))
         (fun _ =>
            match convert_register mapper pid r rval with
            | inr rv => ret (regvals ++ [rv])%list
            | inl _ => ret regvals
            end)) acc context)
    w
    (fold_left (fun regvals (entry : string * string) =>
       match convert_register mapper pid (fst entry) (snd entry) with
       | inr rv => (regvals ++ [rv])%list
       | inl _ => regvals
       end) context acc)
    (List.map (fun entry : string * string =>
                 set_value space (fst entry) (TStr (snd entry))) context).
Proof.
  revert acc w. induction context as [| [r rval] context IH]; intros acc w.
  - apply emits_ret.
  - cbn [for_each fold_left List.map fst snd].
    change (?x :: List.map ?f ?l) with ([x] ++ List.map f l)%list.
    eapply emits_bind
      with (a := match convert_register mapper pid r rval with
                 | inr rv => (acc ++ [rv])%list
                 | inl _ => acc
                 end).
    + change [?x] with ([x] ++ [])%list.
      eapply emits_bind; [apply emits_send |].
      intros w1 _. destruct (convert_register mapper pid r rval);
        apply emits_ret.
    + intros w1 _. apply IH.
Qed.

Lemma fold_left_keys_counter {R} (key : R -> string) (rs : list R)
  (keys : list string) (i : Z) :
  fst (fold_left (fun (st : list string * Z) r =>
                    ((fst st ++ [key r])%list, (snd st + 1)%Z))
         rs (keys, i))
  = (keys ++ List.map key rs)%list.
Proof.
  revert keys i. induction rs as [| r rs IH]; intros keys i; simpl.
  - now rewrite app_nil_r.
  - rewrite IH. rewrite <- app_assoc. reflexivity.
Qed.

Lemma fold_left_keys_levels {R} (key : Z -> string) (rs : list R)
  (keys : list string) (i : Z) :
  fst (fold_left (fun (st : list string * Z) (_ : R) =>
                    ((fst st ++ [key (snd st)])%list, (snd st + 1)%Z))
         rs (keys, i))
  = (keys ++ List.map (fun n => key (i + Z.of_nat n)%Z)
               (seq 0 (length rs)))%list.
Proof.
  revert keys i. induction rs as [| r rs IH]; intros keys i.
  - simpl. now rewrite app_nil_r.
  - cbn [fold_left length seq List.map fst snd]. rewrite IH.
    rewrite <- app_assoc. cbn [app]. rewrite Z.add_0_r. do 2 f_equal.
    rewrite <- seq_shift, map_map. apply map_ext. intros n. f_equal. lia.
Qed.

Lemma loop_keys_levels {R} (key : Z -> string) (rs : list R)
  (keys : list string) (i : Z) :
  loop_keys (fun (st : list string * Z) (_ : R) =>
               ((fst st ++ [key (snd st)])%list, (snd st + 1)%Z))
            (fun st _ => key (snd st)) (keys, i) rs
  = List.map (fun n => key (i + Z.of_nat n)%Z) (seq 0 (length rs)).
Proof.
  revert keys i. induction rs as [| r rs IH]; intros keys i.
  - reflexivity.
  - cbn [loop_keys length seq List.map fst snd]. rewrite IH.
    rewrite Z.add_0_r. f_equal.
    rewrite <- seq_shift, map_map. apply map_ext. intros n. f_equal. lia.
Qed.

(** ** Tactics for the bodies of the loops *)

(** One statement of a body: the requests it sends, whatever the world
    it starts from, as long as the trace is there. *)
Ltac emit_atom Ht :=
  first
    [ apply emits_ret
    | eapply emits_fmt; reflexivity
    | apply emits_send
    | apply emits_current_state_set
    | apply emits_query
    | eapply emits_trace_create_object; exact Ht
    | eapply emits_trace_retain_values; exact Ht
    | eapply emits_trace_create_overlay_space; exact Ht
    | eapply emits_STATE_trace; exact Ht
    | eapply emits_lift; eassumption
    | eapply emits_lift; reflexivity
    | apply emits_when_false
    | apply emits_register_loop ].

Ltac emit Ht :=
  first
    [ emit_atom Ht
    | eapply emits_bind;
      [ emit Ht
      | let w1 := fresh "w" in let S1 := fresh "S" in
        intros w1 S1; cbv beta;
        let Ht1 := fresh "Ht" in
        assert (Ht1 : trace (STATE w1) = Some _) by (rewrite S1; exact Ht);
        emit Ht1 ] ].

Ltac in_list :=
  cbn [app In]; repeat first [ left; reflexivity | right ].

(** Case analysis of a membership in the writes of a record: the
    literal requests one by one, and the register attributes, which are
    all [set_value] requests. *)
Ltac cases_in H tac :=
  cbn [app In] in H;
  repeat first
    [ destruct H as [H | H]; [ tac H |]
    | apply in_app_or in H; destruct H as [H | H];
      [ apply in_map_iff in H; destruct H as (? & H & _); discriminate H
      | cbn [app In] in H ] ];
  try contradiction.

Ltac no_retain :=
  let p := fresh "p" in let ks := fresh "ks" in let H := fresh "H" in
  intros p ks H; cases_in H ltac:(fun H => discriminate H).

Ltac below :=
  match goal with
  | |- startswith ?P ?Q = true =>
      first
        [ apply startswith_refl
        | apply startswith_app
        | replace Q with (P ++ ".Registers")
            by (rewrite ?append_assoc; reflexivity);
          apply startswith_app
        | replace Q with (P ++ ".Available")
            by (rewrite ?append_assoc; reflexivity);
          apply startswith_app ]
  end.

Ltac created_below :=
  let p := fresh "p" in let H := fresh "H" in
  intros p H;
  cases_in H ltac:(fun H => first [ discriminate H | injection H as <-; below ]).

Ltac only_register :=
  let b := fresh "b" in let s := fresh "s" in let H := fresh "H" in
  intros b s H;
  cases_in H ltac:(fun H => first [ discriminate H
                                  | injection H as <- <-; reflexivity ]).

Ltac same_path :=
  cbn [app];
  match goal with
  | |- element_writes ?path (create_object ?P :: _) =>
      replace path with P by (rewrite ?append_assoc; reflexivity)
  end.

Ltac element_written :=
  same_path;
  split; [ in_list
         | split; [ in_list
                  | split; [ no_retain
                           | split; [ created_below | only_register ] ] ] ].

Ltac memory_guard :=
  unfold put_module_address, select_thread,
    arch.DefaultMemoryMapper_map, overlay_needed;
  cbn [arch.space set_optional set_optional_int option_map];
  rewrite ?String.eqb_refl; cbn [negb].

Ltac body Ht := eexists; split; [ memory_guard; emit Ht | element_written ].

(** One step of a callback outside its loop. *)
Ltac step Ht tac :=
  match goal with
  | |- exists e, emits (bind ?c ?k) ?w ?b e /\ @?Q e =>
      eapply (emits_ex_bind c k w _ _ b Q);
      [ tac
      | let w1 := fresh "w" in let S1 := fresh "S" in
        intros w1 S1; cbv beta;
        let Ht1 := fresh "Ht" in
        assert (Ht1 : trace (STATE w1) = Some _) by (rewrite S1; exact Ht);
        clear S1 ]
  end.

(** The reads that open a callback: the selection and the trace. *)
Ltac prologue Ht :=
  unfold selected_session, selected_process, selected_thread, current;
  repeat match goal with
    | |- exists e, emits (bind (gets ?f) ?k) ?w ?b e /\ @?Q e =>
        apply (emits_after_gets f k w b Q); cbv beta
    | |- exists e, emits (bind (STATE_trace ?a) ?k) ?w ?b e /\ @?Q e =>
        apply (emits_after_trace a k w _ b Q Ht); cbv beta
    end.

Ltac start Ht :=
  match goal with
  | |- exists _, emits (?c _) _ _ _ /\ _ => unfold c
  end;
  unfold selection; cbv zeta;
  cbn [get_values_from_callback get_data_from_callback records cbdata_value];
  prologue Ht.

Ltac loop_spec Hloop Hbody next good t P :=
  match goal with
  | |- context [for_each ?b _ _] =>
      pose proof (for_each_spec b next good t P) as Hloop
  end;
  match type of Hloop with
  | ?prem -> _ => assert (Hbody : prem)
  end.

(** After the loop: the container path is formatted and the keys are
    retained. *)
Ltac epilogue Ht Hrun :=
  step Ht ltac:(exact Hrun);
  match goal with
  | Ht1 : trace (STATE _) = Some _ |- _ =>
      step Ht1 ltac:(eapply emits_fmt; reflexivity)
  end;
  match goal with
  | Ht1 : trace (STATE ?w) = Some _
    |- exists e, emits (trace_retain_values _ _) ?w _ e /\ _ =>
      eexists; split; [eapply emits_trace_retain_values; exact Ht1 |]
  end;
  cbn [app].

Ltac finish_simple key Hw :=
  rewrite fold_left_keys; cbn [app];
  apply (retains_written_intro _ (fun _ => key)) in Hw;
  rewrite (loop_keys_map _ key) in Hw; exact Hw.

(** ** The operations that retain what they wrote *)

(** X1.  On a reply of the memory regions of the process, each with a
    base that [int(base, 0)] reads, [put_regions_callback] succeeds and
    the requests it sends end with the one [retain_values] on the Memory
    container of the selected process, with the keys [[base]] of the
    records in order: each key is that of an object created and inserted
    under the container in this run, every object created lies at or
    below one of them, and no overlay space is requested except over
    [register]. *)
Theorem put_regions_callback_retains (rs : list range_details) (w : world)
  (t : Trace) :
  trace (STATE w) = Some t ->
  Forall (fun r => parses (r_base r)) rs ->
  exists delta,
    emits (put_regions_callback (Some (msg_send rs tt))) w tt delta /\
    retains_written
      ("Sessions[" ++ str (selection "sid" w) ++ "].Processes["
       ++ str (selection "pid" w) ++ "].Memory")
      (List.map region_key rs) delta.
Proof.
  intros Ht Hrs. start Ht.
  loop_spec Hloop Hbody (fun ks r => (ks ++ [region_key r])%list)
            (fun r => parses (r_base r)) t
            (fun (_ : list string) r evs =>
               element_writes
                 (("Sessions[" ++ str (selection "sid" w) ++ "].Processes["
                   ++ str (selection "pid" w) ++ "].Memory") ++ region_key r)
                 evs).
  { intros keys r w9 Ht9 [n Hn]. cbv beta zeta.
    destruct (r_file r) as [file |]; body Ht9. }
  destruct (Hloop Hbody rs [] _ Ht Hrs) as (evss & Hrun & Hw).
  clear Hloop Hbody. epilogue Ht Hrun. finish_simple region_key Hw.
Qed.

Lemma put_regions_callback_retains_witness :
  exists delta,
    emits (put_regions_callback (Some (msg_send [sample_region] tt)))
      (sample_world None) tt delta /\
    retains_written
      ("Sessions[" ++ str (selection "sid" (sample_world None)) ++ "].Processes["
       ++ str (selection "pid" (sample_world None)) ++ "].Memory")
      (List.map region_key [sample_region]) delta.
Proof.
  apply (put_regions_callback_retains
           [sample_region] (sample_world None) sample_trace).
  - reflexivity.
  - repeat constructor. exists 4096%Z. reflexivity.
Defined.

(** X2.  On a reply of the kernel's memory regions, each with a base
    that [int(base, 0)] reads, [put_kregions_callback] succeeds and ends
    with the one [retain_values] on the Memory container of the selected
    session, with the keys [[base]] of the records; each key is that of
    an object created and inserted under the container in this run,
    every object created lies at or below one of them, and no overlay
    space is requested except over [register]. *)
Theorem put_kregions_callback_retains (rs : list range_details) (w : world)
  (t : Trace) :
  trace (STATE w) = Some t ->
  Forall (fun r => parses (r_base r)) rs ->
  exists delta,
    emits (put_kregions_callback (Some (msg_send rs tt))) w tt delta /\
    retains_written
      ("Sessions[" ++ str (selection "sid" w) ++ "].Memory")
      (List.map region_key rs) delta.
Proof.
  intros Ht Hrs. start Ht.
  loop_spec Hloop Hbody (fun ks r => (ks ++ [region_key r])%list)
            (fun r => parses (r_base r)) t
            (fun (_ : list string) r evs =>
               element_writes
                 (("Sessions[" ++ str (selection "sid" w) ++ "].Memory")
                  ++ region_key r) evs).
  { intros keys r w9 Ht9 [n Hn]. cbv beta zeta. body Ht9. }
  destruct (Hloop Hbody rs [] _ Ht Hrs) as (evss & Hrun & Hw).
  clear Hloop Hbody. epilogue Ht Hrun. finish_simple region_key Hw.
Qed.

Lemma put_kregions_callback_retains_witness :
  exists delta,
    emits (put_kregions_callback (Some (msg_send [sample_region] tt)))
      (sample_world None) tt delta /\
    retains_written
      ("Sessions[" ++ str (selection "sid" (sample_world None)) ++ "].Memory")
      (List.map region_key [sample_region]) delta.
Proof.
  apply (put_kregions_callback_retains
           [sample_region] (sample_world None) sample_trace).
  - reflexivity.
  - repeat constructor. exists 4096%Z. reflexivity.
Defined.

(** X3.  On a reply of the modules of the process, each with a base that
    [int(base, 0)] reads, [put_modules_callback] succeeds and ends with
    the one [retain_values] on the Modules container of the selected
    process, with the keys [[path]] of the records; each key is that of
    an object created and inserted under the container in this run,
    every object created (the module and its Sections, Exports, Imports,
    Symbols and Dependencies containers) lies at or below one of them,
    and no overlay space is requested except over [register]. *)
Theorem put_modules_callback_retains (rs : list module_details) (w : world)
  (t : Trace) :
  trace (STATE w) = Some t ->
  Forall (fun m => parses (m_base m)) rs ->
  exists delta,
    emits (put_modules_callback (Some (msg_send rs tt))) w tt delta /\
    retains_written
      ("Sessions[" ++ str (selection "sid" w) ++ "].Processes["
       ++ str (selection "pid" w) ++ "].Modules")
      (List.map module_key rs) delta.
Proof.
  intros Ht Hrs. start Ht.
  loop_spec Hloop Hbody (fun ks r => (ks ++ [module_key r])%list)
            (fun m => parses (m_base m)) t
            (fun (_ : list string) r evs =>
               element_writes
                 (("Sessions[" ++ str (selection "sid" w) ++ "].Processes["
                   ++ str (selection "pid" w) ++ "].Modules") ++ module_key r)
                 evs).
  { intros keys r w9 Ht9 [n Hn]. cbv beta zeta. body Ht9. }
  destruct (Hloop Hbody rs [] _ Ht Hrs) as (evss & Hrun & Hw).
  clear Hloop Hbody. epilogue Ht Hrun. finish_simple module_key Hw.
Qed.

Lemma put_modules_callback_retains_witness :
  exists delta,
    emits (put_modules_callback (Some (msg_send [sample_module] tt)))
      (sample_world None) tt delta /\
    retains_written
      ("Sessions[" ++ str (selection "sid" (sample_world None)) ++ "].Processes["
       ++ str (selection "pid" (sample_world None)) ++ "].Modules")
      (List.map module_key [sample_module]) delta.
Proof.
  apply (put_modules_callback_retains
           [sample_module] (sample_world None) sample_trace).
  - reflexivity.
  - repeat constructor. exists 4096%Z. reflexivity.
Defined.

(** X4.  On a reply of the kernel's modules, each with a base that
    [int(base, 0)] reads, [put_kmodules_callback] succeeds and ends with
    the one [retain_values] on the Modules container of the selected
    session, with the keys [[name]] of the records; each key is that of
    an object created and inserted under the container in this run,
    every object created lies at or below one of them, and no overlay
    space is requested except over [register]. *)
Theorem put_kmodules_callback_retains (rs : list kmodule_details) (w : world)
  (t : Trace) :
  trace (STATE w) = Some t ->
  Forall (fun m => parses (km_base m)) rs ->
  exists delta,
    emits (put_kmodules_callback (Some (msg_send rs tt))) w tt delta /\
    retains_written
      ("Sessions[" ++ str (selection "sid" w) ++ "].Modules")
      (List.map kmodule_key rs) delta.
Proof.
  intros Ht Hrs. start Ht.
  loop_spec Hloop Hbody (fun ks r => (ks ++ [kmodule_key r])%list)
            (fun m => parses (km_base m)) t
            (fun (_ : list string) r evs =>
               element_writes
                 (("Sessions[" ++ str (selection "sid" w) ++ "].Modules")
                  ++ kmodule_key r) evs).
  { intros keys r w9 Ht9 [n Hn]. cbv beta zeta. body Ht9. }
  destruct (Hloop Hbody rs [] _ Ht Hrs) as (evss & Hrun & Hw).
  clear Hloop Hbody. epilogue Ht Hrun. finish_simple kmodule_key Hw.
Qed.

Lemma put_kmodules_callback_retains_witness :
  exists delta,
    emits (put_kmodules_callback (Some (msg_send [sample_kmodule] tt)))
      (sample_world None) tt delta /\
    retains_written
      ("Sessions[" ++ str (selection "sid" (sample_world None)) ++ "].Modules")
      (List.map kmodule_key [sample_kmodule]) delta.
Proof.
  apply (put_kmodules_callback_retains
           [sample_kmodule] (sample_world None) sample_trace).
  - reflexivity.
  - repeat constructor. exists 4096%Z. reflexivity.
Defined.

(** X5.  On a reply of the sections of the module [modpath], each with a
    base that [int(base, 0)] reads, [put_sections_callback] succeeds and
    ends with the one [retain_values] on the Sections container of that
    module, with the keys [[base]] of the records; each key is that of
    an object created and inserted under the container in this run,
    every object created lies at or below one of them, and no overlay
    space is requested except over [register]. *)
Theorem put_sections_callback_retains (rs : list range_details)
  (modpath : string) (w : world) (t : Trace) :
  trace (STATE w) = Some t ->
  Forall (fun r => parses (r_base r)) rs ->
  exists delta,
    emits (put_sections_callback (Some (msg_send rs modpath))) w tt delta /\
    retains_written
      ("Sessions[" ++ str (selection "sid" w) ++ "].Processes["
       ++ str (selection "pid" w) ++ "].Modules[" ++ modpath ++ "].Sections")
      (List.map region_key rs) delta.
Proof.
  intros Ht Hrs. start Ht.
  loop_spec Hloop Hbody (fun ks r => (ks ++ [region_key r])%list)
            (fun r => parses (r_base r)) t
            (fun (_ : list string) r evs =>
               element_writes
                 (("Sessions[" ++ str (selection "sid" w) ++ "].Processes["
                   ++ str (selection "pid" w) ++ "].Modules[" ++ modpath
                   ++ "].Sections") ++ region_key r) evs).
  { intros keys r w9 Ht9 [n Hn]. cbv beta zeta.
    destruct (r_file r) as [file |]; body Ht9. }
  destruct (Hloop Hbody rs [] _ Ht Hrs) as (evss & Hrun & Hw).
  clear Hloop Hbody. epilogue Ht Hrun. finish_simple region_key Hw.
Qed.

Lemma put_sections_callback_retains_witness :
  exists delta,
    emits (put_sections_callback (Some (msg_send [sample_region] "a.out")))
      (sample_world None) tt delta /\
    retains_written
      ("Sessions[" ++ str (selection "sid" (sample_world None)) ++ "].Processes["
       ++ str (selection "pid" (sample_world None)) ++ "].Modules[" ++ "a.out" ++ "].Sections")
      (List.map region_key [sample_region]) delta.
Proof.
  apply (put_sections_callback_retains
           [sample_region] "a.out" (sample_world None) sample_trace).
  - reflexivity.
  - repeat constructor. exists 4096%Z. reflexivity.
Defined.

(** X6.  On a reply of any imports of the module [modpath],
    [put_imports_callback] succeeds and ends with the one
    [retain_values] on the Imports container of that module, with the
    keys [[address]] of the records; each key is that of an object
    created and inserted under the container in this run, every object
    created lies at or below one of them, and no overlay space is
    requested except over [register]. *)
Theorem put_imports_callback_retains (rs : list import_details)
  (modpath : string) (w : world) (t : Trace) :
  trace (STATE w) = Some t ->
  exists delta,
    emits (put_imports_callback (Some (msg_send rs modpath))) w tt delta /\
    retains_written
      ("Sessions[" ++ str (selection "sid" w) ++ "].Processes["
       ++ str (selection "pid" w) ++ "].Modules[" ++ modpath ++ "].Imports")
      (List.map import_key rs) delta.
Proof.
  intros Ht. start Ht.
  loop_spec Hloop Hbody (fun ks r => (ks ++ [import_key r])%list)
            (fun _ : import_details => True) t
            (fun (_ : list string) r evs =>
               element_writes
                 (("Sessions[" ++ str (selection "sid" w) ++ "].Processes["
                   ++ str (selection "pid" w) ++ "].Modules[" ++ modpath
                   ++ "].Imports") ++ import_key r) evs).
  { intros keys r w9 Ht9 _. cbv beta zeta.
    destruct (i_module r), (i_slot r); body Ht9. }
  destruct (Hloop Hbody rs [] _ Ht (Forall_always _ rs (fun _ => Logic.I))) as (evss & Hrun & Hw).
  clear Hloop Hbody. epilogue Ht Hrun. finish_simple import_key Hw.
Qed.

Lemma put_imports_callback_retains_witness :
  exists delta,
    emits (put_imports_callback (Some (msg_send [sample_import] "a.out")))
      (sample_world None) tt delta /\
    retains_written
      ("Sessions[" ++ str (selection "sid" (sample_world None)) ++ "].Processes["
       ++ str (selection "pid" (sample_world None)) ++ "].Modules[" ++ "a.out" ++ "].Imports")
      (List.map import_key [sample_import]) delta.
Proof.
  apply (put_imports_callback_retains
           [sample_import] "a.out" (sample_world None) sample_trace).
  reflexivity.
Defined.

(** X7.  On a reply of any exports of the module [modpath],
    [put_exports_callback] succeeds and ends with the one
    [retain_values] on the Exports container of that module, with the
    keys [[address]] of the records; each key is that of an object
    created and inserted under the container in this run, every object
    created lies at or below one of them, and no overlay space is
    requested except over [register]. *)
Theorem put_exports_callback_retains (rs : list export_details)
  (modpath : string) (w : world) (t : Trace) :
  trace (STATE w) = Some t ->
  exists delta,
    emits (put_exports_callback (Some (msg_send rs modpath))) w tt delta /\
    retains_written
      ("Sessions[" ++ str (selection "sid" w) ++ "].Processes["
       ++ str (selection "pid" w) ++ "].Modules[" ++ modpath ++ "].Exports")
      (List.map export_key rs) delta.
Proof.
  intros Ht. start Ht.
  loop_spec Hloop Hbody (fun ks r => (ks ++ [export_key r])%list)
            (fun _ : export_details => True) t
            (fun (_ : list string) r evs =>
               element_writes
                 (("Sessions[" ++ str (selection "sid" w) ++ "].Processes["
                   ++ str (selection "pid" w) ++ "].Modules[" ++ modpath
                   ++ "].Exports") ++ export_key r) evs).
  { intros keys r w9 Ht9 _. cbv beta zeta.
    destruct (x_module r); body Ht9. }
  destruct (Hloop Hbody rs [] _ Ht (Forall_always _ rs (fun _ => Logic.I))) as (evss & Hrun & Hw).
  clear Hloop Hbody. epilogue Ht Hrun. finish_simple export_key Hw.
Qed.

Lemma put_exports_callback_retains_witness :
  exists delta,
    emits (put_exports_callback (Some (msg_send [sample_export] "a.out")))
      (sample_world None) tt delta /\
    retains_written
      ("Sessions[" ++ str (selection "sid" (sample_world None)) ++ "].Processes["
       ++ str (selection "pid" (sample_world None)) ++ "].Modules[" ++ "a.out" ++ "].Exports")
      (List.map export_key [sample_export]) delta.
Proof.
  apply (put_exports_callback_retains
           [sample_export] "a.out" (sample_world None) sample_trace).
  reflexivity.
Defined.

(** X8.  On a reply of any symbols of the module [modpath],
    [put_symbols_callback] succeeds and ends with the one
    [retain_values] on the Symbols container of that module, with the
    keys [[address]] of the records; each key is that of an object
    created and inserted under the container in this run, every object
    created lies at or below one of them, and no overlay space is
    requested except over [register]. *)
Theorem put_symbols_callback_retains (rs : list symbol_details)
  (modpath : string) (w : world) (t : Trace) :
  trace (STATE w) = Some t ->
  exists delta,
    emits (put_symbols_callback (Some (msg_send rs modpath))) w tt delta /\
    retains_written
      ("Sessions[" ++ str (selection "sid" w) ++ "].Processes["
       ++ str (selection "pid" w) ++ "].Modules[" ++ modpath ++ "].Symbols")
      (List.map symbol_key rs) delta.
Proof.
  intros Ht. start Ht.
  loop_spec Hloop Hbody (fun ks r => (ks ++ [symbol_key r])%list)
            (fun _ : symbol_details => True) t
            (fun (_ : list string) r evs =>
               element_writes
                 (("Sessions[" ++ str (selection "sid" w) ++ "].Processes["
                   ++ str (selection "pid" w) ++ "].Modules[" ++ modpath
                   ++ "].Symbols") ++ symbol_key r) evs).
  { intros keys r w9 Ht9 _. cbv beta zeta.
    destruct (s_section r); body Ht9. }
  destruct (Hloop Hbody rs [] _ Ht (Forall_always _ rs (fun _ => Logic.I))) as (evss & Hrun & Hw).
  clear Hloop Hbody. epilogue Ht Hrun. finish_simple symbol_key Hw.
Qed.

Lemma put_symbols_callback_retains_witness :
  exists delta,
    emits (put_symbols_callback (Some (msg_send [sample_symbol] "a.out")))
      (sample_world None) tt delta /\
    retains_written
      ("Sessions[" ++ str (selection "sid" (sample_world None)) ++ "].Processes["
       ++ str (selection "pid" (sample_world None)) ++ "].Modules[" ++ "a.out" ++ "].Symbols")
      (List.map symbol_key [sample_symbol]) delta.
Proof.
  apply (put_symbols_callback_retains
           [sample_symbol] "a.out" (sample_world None) sample_trace).
  reflexivity.
Defined.

(** X9.  On a reply of any dependencies of the module [modpath],
    [put_dependencies_callback] succeeds and ends with the one
    [retain_values] on the Dependencies container of that module, with
    the keys [[name]] of the records; each key is that of an object
    created and inserted under the container in this run, every object
    created lies at or below one of them, and no overlay space is
    requested except over [register]. *)
Theorem put_dependencies_callback_retains (rs : list dependency_details)
  (modpath : string) (w : world) (t : Trace) :
  trace (STATE w) = Some t ->
  exists delta,
    emits (put_dependencies_callback (Some (msg_send rs modpath))) w tt delta /\
    retains_written
      ("Sessions[" ++ str (selection "sid" w) ++ "].Processes["
       ++ str (selection "pid" w) ++ "].Modules[" ++ modpath
       ++ "].Dependencies")
      (List.map dependency_key rs) delta.
Proof.
  intros Ht. start Ht.
  loop_spec Hloop Hbody (fun ks r => (ks ++ [dependency_key r])%list)
            (fun _ : dependency_details => True) t
            (fun (_ : list string) r evs =>
               element_writes
                 (("Sessions[" ++ str (selection "sid" w) ++ "].Processes["
                   ++ str (selection "pid" w) ++ "].Modules[" ++ modpath
                   ++ "].Dependencies") ++ dependency_key r) evs).
  { intros keys r w9 Ht9 _. cbv beta zeta. body Ht9. }
  destruct (Hloop Hbody rs [] _ Ht (Forall_always _ rs (fun _ => Logic.I))) as (evss & Hrun & Hw).
  clear Hloop Hbody. epilogue Ht Hrun. finish_simple dependency_key Hw.
Qed.

Lemma put_dependencies_callback_retains_witness :
  exists delta,
    emits (put_dependencies_callback (Some (msg_send [sample_dependency] "a.out")))
      (sample_world None) tt delta /\
    retains_written
      ("Sessions[" ++ str (selection "sid" (sample_world None)) ++ "].Processes["
       ++ str (selection "pid" (sample_world None)) ++ "].Modules[" ++ "a.out" ++ "].Dependencies")
      (List.map dependency_key [sample_dependency]) delta.
Proof.
  apply (put_dependencies_callback_retains
           [sample_dependency] "a.out" (sample_world None) sample_trace).
  reflexivity.
Defined.

(** X10.  On a reply of a backtrace whose addresses [int(address, 0)]
    reads, [put_frames_callback] succeeds and ends with the one
    [retain_values] on the Stack container of the selected thread, with
    the keys [[0]], [[1]], ... of the levels, one per frame of the
    reply; each key is that of an object created and inserted under the
    container in this run, every object created lies at or below one of
    them, and no overlay space is requested except over [register]. *)
Theorem put_frames_callback_retains (fs : list frame_details) (w : world)
  (t : Trace) :
  trace (STATE w) = Some t ->
  Forall (fun f => parses (fr_address f)) fs ->
  exists delta,
    emits (put_frames_callback (Some (msg_send fs tt))) w tt delta /\
    retains_written
      ("Sessions[" ++ str (selection "sid" w) ++ "].Processes["
       ++ str (selection "pid" w) ++ "].Threads["
       ++ str (selection "tid" w) ++ "].Stack")
      (List.map (fun n => frame_key (Z.of_nat n)) (seq 0 (length fs))) delta.
Proof.
  intros Ht Hfs. start Ht.
  loop_spec Hloop Hbody
            (fun (st : list string * Z) (_ : frame_details) =>
               ((fst st ++ [frame_key (snd st)])%list, (snd st + 1)%Z))
            (fun f => parses (fr_address f)) t
            (fun (st : list string * Z) (_ : frame_details) evs =>
               element_writes
                 (("Sessions[" ++ str (selection "sid" w) ++ "].Processes["
                   ++ str (selection "pid" w) ++ "].Threads["
                   ++ str (selection "tid" w) ++ "].Stack")
                  ++ frame_key (snd st)) evs).
  { intros [keys level] f w9 Ht9 [n Hn]. cbv beta zeta iota.
    cbn [fst snd].
    destruct (fr_name f), (fr_moduleName f), (fr_fileName f),
      (fr_lineNumber f), (fr_column f); body Ht9. }
  destruct (Hloop Hbody fs ([], 0%Z) _ Ht Hfs) as (evss & Hrun & Hw).
  clear Hloop Hbody. epilogue Ht Hrun.
  rewrite (fold_left_keys_levels frame_key). cbn [app].
  apply (retains_written_intro _ (fun st _ => frame_key (snd st))) in Hw.
  rewrite (loop_keys_levels frame_key) in Hw. exact Hw.
Qed.

Lemma put_frames_callback_retains_witness :
  exists delta,
    emits (put_frames_callback (Some (msg_send [sample_frame] tt)))
      (sample_world None) tt delta /\
    retains_written
      ("Sessions[" ++ str (selection "sid" (sample_world None)) ++ "].Processes["
       ++ str (selection "pid" (sample_world None)) ++ "].Threads["
       ++ str (selection "tid" (sample_world None)) ++ "].Stack")
      (List.map (fun n => frame_key (Z.of_nat n))
         (seq 0 (List.length [sample_frame]))) delta.
Proof.
  apply (put_frames_callback_retains
           [sample_frame] (sample_world None) sample_trace).
  - reflexivity.
  - repeat constructor. exists 4198400%Z. reflexivity.
Defined.

(** X11.  On a reply of any threads, when the selected process is an
    [int], [put_threads_callback] succeeds and ends with the one
    [retain_values] on the Threads container of the process, with the
    keys [[tid]] of the records; each key is that of an object created
    and inserted under the container in this run, every object created
    (the thread, its Registers and its Stack) lies at or below one of
    them, and no overlay space is requested except over [register].
    This holds whatever the register values of the reply are: one that
    does not convert does not stop the operation. *)
Theorem put_threads_callback_retains (ts : list thread_details) (w : world)
  (t : Trace) (p : Z) :
  trace (STATE w) = Some t ->
  selection "pid" w = PyInt p ->
  exists delta,
    emits (put_threads_callback (Some (msg_send ts tt))) w tt delta /\
    retains_written
      ("Sessions[" ++ str (selection "sid" w) ++ "].Processes["
       ++ str_int p ++ "].Threads")
      (List.map thread_key ts) delta.
Proof.
  intros Ht Hp. start Ht. unfold selection in Hp. rewrite Hp.
  loop_spec Hloop Hbody
            (fun (st : list string * Z) (th : thread_details) =>
               ((fst st ++ [thread_key th])%list, (snd st + 1)%Z))
            (fun _ : thread_details => True) t
            (fun (st : list string * Z) (th : thread_details) evs =>
               element_writes
                 (("Sessions[" ++ str (selection "sid" w) ++ "].Processes["
                   ++ str_int p ++ "].Threads") ++ thread_key th) evs).
  { intros [keys i] th w9 Ht9 _. cbv beta zeta iota. cbn [fst snd].
    body Ht9. }
  destruct (Hloop Hbody ts ([], 0%Z) _ Ht (Forall_always _ ts (fun _ => Logic.I)))
    as (evss & Hrun & Hw).
  clear Hloop Hbody. epilogue Ht Hrun.
  rewrite (fold_left_keys_counter thread_key). cbn [app].
  apply (retains_written_intro _ (fun _ => thread_key)) in Hw.
  rewrite (loop_keys_map _ thread_key) in Hw. exact Hw.
Qed.

Lemma put_threads_callback_retains_witness :
  exists delta,
    emits (put_threads_callback (Some (msg_send [sample_thread] tt)))
      (sample_world None) tt delta /\
    retains_written
      ("Sessions[" ++ str (selection "sid" (sample_world None))
       ++ "].Processes[" ++ str_int 1234 ++ "].Threads")
      (List.map thread_key [sample_thread]) delta.
Proof.
  apply (put_threads_callback_retains [sample_thread] (sample_world None)
           sample_trace 1234); reflexivity.
Defined.

(** ** Pages *)

(** X12.  [quantize_pages(start, end)] returns two multiples of the page
    size, the first at most [start] and less than a page below it, the
    second at least [end] and less than a page above it. *)
Theorem quantize_pages_covers (start end_ : Z) :
  let (s, e) := quantize_pages start end_ in
  (s <= start < s + PAGE_SIZE)%Z /\ (end_ <= e < end_ + PAGE_SIZE)%Z /\
  (s mod PAGE_SIZE = 0)%Z /\ (e mod PAGE_SIZE = 0)%Z.
Proof.
  unfold quantize_pages, PAGE_SIZE.
  pose proof (Z.div_mod start 4096 ltac:(lia)) as H1.
  pose proof (Z.mod_pos_bound start 4096 ltac:(lia)) as H2.
  pose proof (Z.div_mod (end_ + 4096 - 1) 4096 ltac:(lia)) as H3.
  pose proof (Z.mod_pos_bound (end_ + 4096 - 1) 4096 ltac:(lia)) as H4.
  rewrite !Z.mod_mul by lia. lia.
Qed.

(** ** Convenience variables *)

Lemma dict_get_set_same {V} (k : string) (v : V) (d : dict string V) :
  dict_get String.eqb k (dict_set String.eqb k v d) = Some v.
Proof.
  induction d as [| [k' v'] d IH]; simpl.
  - now rewrite String.eqb_refl.
  - destruct (String.eqb k k') eqn:E; simpl; rewrite ?E, ?String.eqb_refl;
      [reflexivity | exact IH].
Qed.

Lemma dict_get_set_other {V} (k k' : string) (v : V) (d : dict string V) :
  String.eqb k' k = false ->
  dict_get String.eqb k' (dict_set String.eqb k v d) = dict_get String.eqb k' d.
Proof.
  intros H. induction d as [| [k0 v0] d IH]; simpl.
  - now rewrite H.
  - destruct (String.eqb k k0) eqn:E; simpl.
    + apply String.eqb_eq in E. subst k0. now rewrite H.
    + destruct (String.eqb k' k0); [reflexivity | exact IH].
Qed.

(** X13.  After [set_convenience_variable(id, val)],
    [get_convenience_variable(id)] is [val]; after setting [None] it is
    ['auto']; and the value read for any other name is what it was. *)
Theorem convenience_variable_set_get (conv : util.conv_map_t)
  (id id' val : string) :
  String.eqb id' id = false ->
  util.get_convenience_variable
    (util.set_convenience_variable conv id (Some val)) id = val /\
  util.get_convenience_variable
    (util.set_convenience_variable conv id None) id = "auto" /\
  (forall value,
     util.get_convenience_variable
       (util.set_convenience_variable conv id value) id'
     = util.get_convenience_variable conv id').
Proof.
  intros H. unfold util.get_convenience_variable, util.set_convenience_variable.
  rewrite !dict_get_set_same. repeat split.
  intros value. now rewrite dict_get_set_other.
Qed.

Lemma convenience_variable_set_get_witness :
  util.get_convenience_variable
    (util.set_convenience_variable [("osabi", Some "linux")] "endian"
       (Some "big")) "endian" = "big" /\
  util.get_convenience_variable
    (util.set_convenience_variable [("osabi", Some "linux")] "endian" None)
    "endian" = "auto" /\
  (forall value,
     util.get_convenience_variable
       (util.set_convenience_variable [("osabi", Some "linux")] "endian" value)
       "osabi"
     = util.get_convenience_variable [("osabi", Some "linux")] "osabi").
Proof.
  apply (convenience_variable_set_get [("osabi", Some "linux")]
           "endian" "osabi" "big").
  reflexivity.
Defined.

(** ** The selection *)

(** X14.  The selection is one dictionary: after [current_state[key] =
    v] (which is what [select_session], [select_process],
    [select_thread], [select_frame] and [put_module_address] do) the
    [selected_...] read of [key] and [get_module_address(key)] return
    [v], the read of any other key is unchanged, and neither the store
    nor the target is contacted. *)
Theorem selection_set_get (key key' : string) (v : pyval) (w : world) :
  String.eqb key' key = false ->
  fst (bind (current_state_set key v) (fun _ => current key) w) = ok v /\
  fst (bind (current_state_set key v) (fun _ => get_module_address key) w)
  = ok v /\
  fst (bind (current_state_set key v) (fun _ => current key') w)
  = fst (current key' w) /\
  store (snd (current_state_set key v w)) = store w /\
  queries (snd (current_state_set key v w)) = queries w.
Proof.
  intros H.
  unfold bind, current_state_set, current, get_module_address, modify, gets,
    set_current_state.
  cbn [fst snd current_state store queries].
  rewrite dict_get_set_same, (dict_get_set_other key key' v _ H).
  repeat split.
Qed.

Lemma selection_set_get_witness :
  let w := sample_world None in
  fst (bind (current_state_set "tid" (PyInt 7)) (fun _ => current "tid") w)
  = ok (PyInt 7) /\
  fst (bind (current_state_set "tid" (PyInt 7))
         (fun _ => get_module_address "tid") w) = ok (PyInt 7) /\
  fst (bind (current_state_set "tid" (PyInt 7)) (fun _ => current "pid") w)
  = fst (current "pid" w) /\
  store (snd (current_state_set "tid" (PyInt 7) w)) = store w /\
  queries (snd (current_state_set "tid" (PyInt 7) w)) = queries w.
Proof.
  apply (selection_set_get "tid" "pid" (PyInt 7) (sample_world None)).
  reflexivity.
Defined.

(** ** The compiler and the register mapper of a resolved language *)

(** X15.  With no compiler override and a device that answers,
    [compute_ghidra_compiler] never raises and returns one of
    ['default'], ['pointer64'], ['gcc'], ['windows'], ['Visual Studio']:
    ['default'] for every language outside [compiler_map], ['pointer64']
    for the data-only languages of the map whatever the OS/ABI is. *)
Theorem compute_ghidra_compiler_answers (conv : util.conv_map_t)
  (params : util.system_parameters) (lang : string) :
  util.get_convenience_variable conv "ghidra-compiler" = "auto" ->
  exists comp,
    arch.compute_ghidra_compiler conv (inr params) lang = ok comp /\
    In comp ["default"; "pointer64"; "gcc"; "windows"; "Visual Studio"] /\
    (dict_mem String.eqb lang arch.compiler_map = false -> comp = "default") /\
    (startswith "DATA:" lang = true ->
     dict_mem String.eqb lang arch.compiler_map = true -> comp = "pointer64").
Proof.
  intros Hc. unfold arch.compute_ghidra_compiler. rewrite Hc.
  cbn [String.eqb Ascii.eqb Bool.eqb negb].
  unfold dict_mem, arch.compiler_map.
  cbn [dict_get].
  destruct (String.eqb lang "DATA:BE:64:default") eqn:E1;
    [| destruct (String.eqb lang "DATA:LE:64:default") eqn:E2;
       [| destruct (String.eqb lang "x86:LE:32:default") eqn:E3;
          [| destruct (String.eqb lang "x86:LE:64:default") eqn:E4]]].
  1, 2: destruct (arch.get_osabi conv (inr params)) as [e | osabi] eqn:Eo;
    [ unfold arch.get_osabi in Eo;
      destruct (negb _) in Eo; discriminate Eo
    | eexists; split; [reflexivity |]; cbn; intuition discriminate ].
  3: eexists; split; [reflexivity |]; cbn; intuition discriminate.
  all: destruct (arch.get_osabi conv (inr params)) as [e | osabi] eqn:Eo;
    [ unfold arch.get_osabi in Eo; destruct (negb _) in Eo; discriminate Eo |].
  all: unfold arch.x86_compiler_map; cbn [dict_get option_eqb].
  all: apply String.eqb_eq in E3 || apply String.eqb_eq in E4; subst lang.
  all: destruct (String.eqb osabi "linux");
    [| destruct (String.eqb osabi "windows");
       [| destruct (String.eqb osabi "Cygwin")]];
    eexists; (split; [reflexivity |]); cbn; intuition discriminate.
Qed.

Lemma compute_ghidra_compiler_answers_witness :
  exists comp,
    arch.compute_ghidra_compiler []
      (inr {| util.sp_arch := "x64"; util.sp_platform := "linux";
              util.sp_other := [] |}) "x86:LE:64:default" = ok comp /\
    In comp ["default"; "pointer64"; "gcc"; "windows"; "Visual Studio"] /\
    (dict_mem String.eqb "x86:LE:64:default" arch.compiler_map = false ->
     comp = "default") /\
    (startswith "DATA:" "x86:LE:64:default" = true ->
     dict_mem String.eqb "x86:LE:64:default" arch.compiler_map = true ->
     comp = "pointer64").
Proof.
  apply (compute_ghidra_compiler_answers []
           {| util.sp_arch := "x64"; util.sp_platform := "linux";
              util.sp_other := [] |} "x86:LE:64:default").
  reflexivity.
Defined.

(** X16.  When the device query raises and neither the language, the
    compiler nor the OS/ABI is overridden, [compute_ghidra_language]
    falls back to the data-only language of the resolved endianness,
    which is a key of [compiler_map]; so [get_osabi] is called, reads
    the local [params] that was never bound, and [compute_ghidra_lcsp]
    raises [UnboundLocalError] instead of returning a pair. *)
Theorem compute_ghidra_lcsp_without_device (conv : util.conv_map_t)
  (e : exn) :
  util.get_convenience_variable conv "ghidra-language" = "auto" ->
  util.get_convenience_variable conv "ghidra-compiler" = "auto" ->
  util.get_convenience_variable conv "osabi" = "auto" ->
  arch.compute_ghidra_language conv (inl e)
  = "DATA" ++ arch.lebe_of (arch.get_endian conv) ++ "64:default" /\
  arch.compute_ghidra_lcsp conv (inl e) = raise (UnboundLocalError "params").
Proof.
  intros Hl Hc Ho.
  assert (L : arch.compute_ghidra_language conv (inl e)
              = "DATA" ++ arch.lebe_of (arch.get_endian conv) ++ "64:default").
  { unfold arch.compute_ghidra_language. rewrite Hl. reflexivity. }
  split; [exact L |].
  unfold arch.compute_ghidra_lcsp. rewrite L.
  unfold arch.compute_ghidra_compiler, arch.get_osabi. rewrite Hc, Ho.
  unfold arch.lebe_of.
  destruct (String.eqb (arch.get_endian conv) "big"); reflexivity.
Qed.

Lemma compute_ghidra_lcsp_without_device_witness :
  arch.compute_ghidra_language [] (inl (RuntimeError "no device"))
  = "DATA" ++ arch.lebe_of (arch.get_endian []) ++ "64:default" /\
  arch.compute_ghidra_lcsp [] (inl (RuntimeError "no device"))
  = raise (UnboundLocalError "params").
Proof.
  apply (compute_ghidra_lcsp_without_device [] (RuntimeError "no device"));
    reflexivity.
Defined.

(** X17.  For every language that [compute_ghidra_language] resolves
    without an override, [compute_register_mapper] returns a mapper and
    never reaches the failing lookup: the x86-64 mapper for
    ['x86:LE:64:default'], and otherwise the default mapper of the
    resolved endianness. *)
Theorem resolved_language_has_register_mapper (conv : util.conv_map_t)
  (dbg : util.dbg_t) :
  util.get_convenience_variable conv "ghidra-language" = "auto" ->
  let lang := arch.compute_ghidra_language conv dbg in
  exists m,
    arch.compute_register_mapper lang = ok m /\
    (m = arch.Intel_x86_64_RegisterMapper /\ lang = "x86:LE:64:default" \/
     m = arch.DefaultRegisterMapper
           (if String.eqb (arch.get_endian conv) "big"
            then "big" else "little")).
Proof.
  intros Hauto lang.
  pose proof (compute_ghidra_language_tag conv dbg Hauto) as Htag.
  pose proof (compute_ghidra_language_single_tag conv dbg Hauto) as Hone.
  fold lang in Htag, Hone.
  unfold arch.compute_register_mapper, arch.register_mappers.
  cbn [dict_get].
  destruct (String.eqb lang "x86:LE:64:default") eqn:E.
  - apply String.eqb_eq in E. eexists. split; [reflexivity |]. now left.
  - unfold checks.single_tag in Hone. unfold arch.lebe_of in Htag.
    destruct (String.eqb (arch.get_endian conv) "big").
    + rewrite Htag. eexists. split; [reflexivity |]. now right.
    + rewrite Htag in Hone. rewrite andb_true_r in Hone.
      apply negb_true_iff in Hone. rewrite Hone, Htag.
      eexists. split; [reflexivity |]. now right.
Qed.

Lemma resolved_language_has_register_mapper_witness :
  let lang := arch.compute_ghidra_language [("endian", Some "big")]
                (x64_device "linux") in
  exists m,
    arch.compute_register_mapper lang = ok m /\
    (m = arch.Intel_x86_64_RegisterMapper /\ lang = "x86:LE:64:default" \/
     m = arch.DefaultRegisterMapper
           (if String.eqb (arch.get_endian [("endian", Some "big")]) "big"
            then "big" else "little")).
Proof.
  apply (resolved_language_has_register_mapper [("endian", Some "big")]
           (x64_device "linux")).
  reflexivity.
Defined.

(** ** Register values *)

Lemma be_value_from (bs : list Byte.byte) (init : N) :
  fold_left (fun acc b => (acc * 256 + Byte.to_N b)%N) bs init
  = (init * 256 ^ N.of_nat (List.length bs) + be_value bs)%N.
Proof.
  unfold be_value. revert init.
  induction bs as [| b bs IH]; intros init.
  - simpl. lia.
  - cbn [fold_left List.length]. rewrite IH, (IH (0 * 256 + Byte.to_N b)%N).
    rewrite Nat2N.inj_succ, N.pow_succ_r'. lia.
Qed.

Lemma be_value_cons (b : Byte.byte) (bs : list Byte.byte) :
  be_value (b :: bs)
  = (Byte.to_N b * 256 ^ N.of_nat (List.length bs) + be_value bs)%N.
Proof.
  unfold be_value at 1. cbn [fold_left]. rewrite be_value_from. lia.
Qed.

Lemma be_value_be_bytes (length : nat) (n : N) (acc : list Byte.byte) :
  be_value (be_bytes length n acc)
  = ((n mod 256 ^ N.of_nat length) * 256 ^ N.of_nat (List.length acc)
     + be_value acc)%N.
Proof.
  revert n acc. induction length as [| k IH]; intros n acc.
  - simpl. rewrite N.mod_1_r. lia.
  - cbn [be_bytes].
    destruct (Byte.of_N (n mod 256)) as [b |] eqn:E.
    + rewrite IH. cbn [List.length].
      assert (Hb : Byte.to_N b = (n mod 256)%N).
      { apply Byte.to_of_N in E. exact E. }
      rewrite be_value_cons, Hb.
      rewrite !Nat2N.inj_succ, !N.pow_succ_r'.
      rewrite (N.Div0.mod_mul_r n 256 (256 ^ N.of_nat k)). lia.
    + exfalso.
      assert (Hlt : (n mod 256 < 256)%N) by (apply N.mod_lt; discriminate).
      pose proof (Byte.of_N_None_iff (n mod 256)%N) as Hnone.
      apply Hnone in E. lia.
Qed.

(** X18.  [map_value] of either mapper succeeds exactly on the values [0
    <= v < 2 ** 64]; what it returns carries the name given by
    [map_name] and eight bytes that denote [v] most significant byte
    first, whatever [byte_order] the mapper was built with. *)
Theorem map_value_is_big_endian (self : arch.RegisterMapper) (proc : pyval)
  (name : string) (v : Z) :
  is_ok (arch.map_value self proc (Some name) v)
  = ((0 <=? v) && (v <? 2 ^ 64))%Z /\
  (forall rv, arch.map_value self proc (Some name) v = ok rv ->
     arch.name rv = arch.map_name self proc (Some name) /\
     List.length (arch.value rv) = 8%nat /\
     be_value (arch.value rv) = Z.to_N v).
Proof.
  assert (D : forall rv,
            arch.DefaultRegisterMapper_map_value self proc (Some name) v
            = ok rv ->
            arch.name rv = arch.map_name self proc (Some name) /\
            List.length (arch.value rv) = 8%nat /\
            be_value (arch.value rv) = Z.to_N v).
  { intros rv. unfold arch.DefaultRegisterMapper_map_value, to_bytes_big.
    destruct ((0 <=? v)%Z && (v <? 256 ^ Z.of_nat 8)%Z) eqn:R;
      [| discriminate].
    intros H. assert (E : rv = {| arch.name := arch.map_name self proc (Some name);
                                  arch.value := be_bytes 8 (Z.to_N v) [] |})
      by (unfold ok in H; congruence).
    subst rv. cbn [arch.name arch.value].
    split; [reflexivity |]. split; [apply be_bytes_length |].
    rewrite be_value_be_bytes. cbn [List.length be_value fold_left].
    apply andb_true_iff in R. destruct R as [R1 R2].
    apply Z.leb_le in R1. apply Z.ltb_lt in R2.
    rewrite N.mod_small; [lia |].
    change (256 ^ N.of_nat 8)%N with (Z.to_N (256 ^ Z.of_nat 8)). lia. }
  assert (O : is_ok (arch.DefaultRegisterMapper_map_value self proc
                       (Some name) v)
              = ((0 <=? v) && (v <? 2 ^ 64))%Z).
  { unfold arch.DefaultRegisterMapper_map_value, to_bytes_big.
    change (256 ^ Z.of_nat 8)%Z with (2 ^ 64)%Z.
    destruct ((0 <=? v)%Z && (v <? 2 ^ 64)%Z); reflexivity. }
  destruct self as [order |].
  - split; [exact O | exact D].
  - cbn [arch.map_value]. unfold arch.Intel_x86_64_RegisterMapper_map_value.
    destruct (arch.DefaultRegisterMapper_map_value
                arch.Intel_x86_64_RegisterMapper proc (Some name) v)
      as [e | rv0] eqn:E.
    + split; [exact O | discriminate].
    + destruct (D rv0 eq_refl) as (Hn & Hl & Hv).
      rewrite Hn. cbn [arch.map_name].
      assert (S : exists n, arch.Intel_x86_64_RegisterMapper_map_name proc
                              (Some name) = Some n).
      { unfold arch.Intel_x86_64_RegisterMapper_map_name,
          arch.DefaultRegisterMapper_map_name.
        destruct (String.eqb name "efl"); [eauto |].
        destruct (startswith "zmm" name); eauto. }
      destruct S as (n & Sn). rewrite Sn, Hl.
      cbn [Nat.ltb Nat.leb]. rewrite andb_false_r.
      split; [exact O |].
      intros rv H. assert (rv = rv0) by (unfold ok in H; congruence).
      subst rv. rewrite Hn. cbn [arch.map_name]. rewrite Sn. auto.
Qed.

Lemma map_value_is_big_endian_witness :
  is_ok (arch.map_value arch.DEFAULT_LE_REGISTER_MAPPER (PyInt 1) (Some "rax")
           258)
  = ((0 <=? 258) && (258 <? 2 ^ 64))%Z /\
  arch.name {| arch.name := Some "rax";
               arch.value := be_bytes 8 258 [] |}
  = arch.map_name arch.DEFAULT_LE_REGISTER_MAPPER (PyInt 1) (Some "rax") /\
  List.length (be_bytes 8 258 []) = 8%nat /\
  be_value (be_bytes 8 258 []) = Z.to_N 258.
Proof.
  destruct (map_value_is_big_endian arch.DEFAULT_LE_REGISTER_MAPPER (PyInt 1)
              "rax" 258) as [H1 H2].
  split; [exact H1 |].
  exact (H2 {| arch.name := Some "rax"; arch.value := be_bytes 8 258 [] |}
            eq_refl).
Defined.

(** ** The name of a trace *)

Lemma split_path_no_separator (s piece : string) (c : ascii) :
  In piece (split_path s) -> In c (list_ascii_of_string piece) ->
  is_path_separator c = false.
Proof.
  revert piece. induction s as [| a s IH]; intros piece Hp Hc.
  - destruct Hp as [<- | []]. destruct Hc.
  - cbn [split_path] in Hp. destruct (is_path_separator a) eqn:Ea.
    + destruct Hp as [<- | Hp]; [destruct Hc | now apply (IH piece)].
    + destruct (split_path s) as [| first rest] eqn:Es.
      * destruct Hp as [<- | []]. destruct Hc as [<- | []]. exact Ea.
      * destruct Hp as [<- | Hp].
        -- destruct Hc as [<- | Hc]; [exact Ea |].
           apply (IH first); [now left | exact Hc].
        -- apply (IH piece); [now right | exact Hc].
Qed.

Lemma split_path_last (s : string) :
  (split_path s = [s]) \/
  (exists first rest q c,
     split_path s = first :: rest /\ rest <> [] /\
     s = (q ++ String c "") ++ last rest "" /\ is_path_separator c = true).
Proof.
  induction s as [| a s IH].
  - now left.
  - cbn [split_path]. destruct (is_path_separator a) eqn:Ea.
    + right. destruct IH as [E | (first & rest & q & c & E & Hr & Hs & Hc)].
      * exists "", [s], "", a. rewrite E. repeat split; [discriminate | exact Ea].
      * exists "", (first :: rest), (String a q), c. rewrite E.
        split; [reflexivity |]. split; [discriminate |].
        split; [| exact Hc].
        cbn [last]. destruct rest as [| r rest]; [contradiction |].
        cbn [append]. now rewrite Hs at 1.
    + destruct IH as [E | (first & rest & q & c & E & Hr & Hs & Hc)].
      * left. now rewrite E.
      * right. exists (String a first), rest, (String a q), c. rewrite E.
        split; [reflexivity |]. split; [exact Hr |].
        split; [| exact Hc]. cbn [append]. now rewrite Hs at 1.
Qed.

(** X19.  [compute_name(progname)] is ['frida/'] followed by the last
    component of [progname]: a suffix of [progname] that holds no slash
    and no backslash, and is either all of [progname] or what follows
    its last separator. *)
Theorem compute_name_last_component (progname : string) :
  exists prefix base,
    progname = prefix ++ base /\
    compute_name (Some progname) = "frida/" ++ base /\
    (forall c, In c (list_ascii_of_string base) ->
       is_path_separator c = false) /\
    (prefix = "" \/
     exists q c, prefix = q ++ String c "" /\ is_path_separator c = true).
Proof.
  unfold compute_name.
  destruct (split_path_last progname)
    as [E | (first & rest & q & c & E & Hr & Hs & Hc)].
  - exists "", progname. rewrite E. cbn [last].
    split; [reflexivity |]. split; [reflexivity |].
    split; [| now left].
    intros c Hin. apply (split_path_no_separator progname progname c);
      [rewrite E; now left | exact Hin].
  - exists (q ++ String c ""), (last rest ""). rewrite E.
    assert (L : last (first :: rest) "" = last rest "").
    { destruct rest; [contradiction | reflexivity]. }
    rewrite L. split; [exact Hs |]. split; [reflexivity |].
    split; [| right; eauto].
    intros c0 Hin.
    apply (split_path_no_separator progname (last rest "") c0);
      [| exact Hin].
    rewrite E. right. destruct rest as [| r rest]; [contradiction |].
    clear. revert r. induction rest as [| r' rest IH]; intros r.
    + now left.
    + right. apply IH.
Qed.

(** ** Sessions and processes *)

(** X20.  On a reply of any list of devices, [put_sessions] succeeds and
    ends with the one [retain_values] on [Sessions], with the keys
    [[id]] of the devices; each key is that of an object created and
    inserted under the container in this run, every object created (the
    session and its Available container) lies at or below one of them,
    and no overlay space is requested except over [register]. *)
Theorem put_sessions_retains (tgt : target) (ds : list device) (w : world)
  (t : Trace) :
  trace (STATE w) = Some t ->
  frida_devices tgt = ok ds ->
  exists delta,
    emits (put_sessions tgt) w tt delta /\
    retains_written "Sessions" (List.map session_key ds) delta.
Proof.
  intros Ht Hds. unfold put_sessions.
  step Ht ltac:(apply emits_query).
  step Ht0 ltac:(eapply emits_lift; exact Hds).
  loop_spec Hloop Hbody (fun ks d => (ks ++ [session_key d])%list)
            (fun _ : device => True) t
            (fun (_ : list string) d evs =>
               element_writes ("Sessions" ++ session_key d) evs).
  { intros keys d w9 Ht9 _. cbv beta zeta. body Ht9. }
  destruct (Hloop Hbody ds [] _ Ht1 (Forall_always _ ds (fun _ => Logic.I)))
    as (evss & Hrun & Hw).
  clear Hloop Hbody.
  step Ht1 ltac:(exact Hrun).
  eexists; split; [eapply emits_trace_retain_values; exact Ht2 |].
  cbn [app]. finish_simple session_key Hw.
Qed.

Lemma put_sessions_retains_witness :
  exists delta,
    emits (put_sessions sample_target) (sample_world None) tt delta /\
    retains_written "Sessions"
      (List.map session_key
         [sample_device]) delta.
Proof.
  apply (put_sessions_retains sample_target
           [sample_device] (sample_world None) sample_trace);
    reflexivity.
Defined.




Lemma loop_writes_all {S R} (next : S -> R -> S)
  (P : S -> R -> list store_call -> Prop) (Q : list store_call -> Prop) :
  (forall acc r evs, P acc r evs -> Q evs) ->
  forall rs acc evss, loop_writes next P acc rs evss -> Forall Q evss.
Proof.
  intros H. induction rs as [| r rs IH]; intros acc [| evs evss]; simpl;
    try contradiction.
  - constructor.
  - intros [Hp Hrest]. constructor; [now apply (H acc r) | now apply (IH _ _ Hrest)].
Qed.








(** ** Loaded classes *)

Lemma fold_left_flat_keys {R} (f : R -> list string) (rs : list R)
  (keys : list string) :
  fold_left (fun ks r => (ks ++ f r)%list) rs keys
  = (keys ++ flat_map f rs)%list.
Proof.
  revert keys. induction rs as [| r rs IH]; intros keys; simpl.
  - now rewrite app_nil_r.
  - rewrite IH. now rewrite <- app_assoc.
Qed.

Lemma retained_in_concat (X : list string -> Prop)
  (evss : list (list store_call)) :
  Forall (fun evs => forall p ks, In (retain_values p ks) evs -> X ks) evss ->
  forall p ks, In (retain_values p ks) (concat evss) -> X ks.
Proof.
  intros H p ks Hin. apply in_concat in Hin. destruct Hin as (evs & He & Hp).
  rewrite Forall_forall in H. exact (H evs He p ks Hp).
Qed.

Ltac retained_nothing Hinner :=
  let p := fresh "p" in let ks := fresh "ks" in let H := fresh "H" in
  intros p ks H;
  repeat (cbn [In app] in H;
          match type of H with
          | _ \/ _ =>
              destruct H as [H | H];
              [ first [ discriminate H | injection H as _ <-; reflexivity ] |]
          | In _ (_ ++ _)%list =>
              apply in_app_or in H; destruct H as [H | H];
              [ first [ exact (Hinner p ks H) | idtac ] |]
          | False => contradiction
          end).

(** X22.  For every reply of loaded classes,
    [put_loaded_classes_callback] succeeds; every [retain_values] it
    sends before the last one (those on the Methods containers) carries
    no key at all, and the last one, on the Classes container, carries
    for each class its own key followed by the keys of its methods. *)
Theorem loaded_classes_retain_method_keys (cs : list class_details)
  (w : world) (t : Trace) :
  trace (STATE w) = Some t ->
  exists events,
    emits (put_loaded_classes_callback (Some (msg_send cs tt))) w tt
      (events ++ [retain_values
                    ("Sessions[" ++ str (selection "sid" w) ++ "].Processes["
                     ++ str (selection "pid" w) ++ "].Classes")
                    (flat_map class_keys cs)])%list /\
    (forall p ks, In (retain_values p ks) events -> ks = []).
Proof.
  intros Ht.
  pose (Q := fun events : list store_call =>
               forall p ks, In (retain_values p ks) events -> ks = []).
  enough (exists delta,
            emits (put_loaded_classes_callback (Some (msg_send cs tt))) w tt
              delta /\
            exists events,
              delta = (events ++ [retain_values
                         ("Sessions[" ++ str (selection "sid" w)
                          ++ "].Processes[" ++ str (selection "pid" w)
                          ++ "].Classes")
                         (flat_map class_keys cs)])%list /\ Q events)
    as (delta & He & events & -> & HQ).
  { exists events. split; assumption. }
  start Ht.
  match goal with
  | |- context [for_each ?b _ cs] =>
      pose proof (for_each_spec b
                    (fun ks c => (ks ++ class_keys c)%list)
                    (fun _ => True) t (fun _ _ evs => Q evs)) as Hloop
  end.
  match type of Hloop with
  | ?prem -> _ => assert (Hbody : prem)
  end.
  { intros keys [name path methods] w9 Ht9 _. cbv beta zeta.
    unfold class_keys, class_id. cbn [c_name c_path c_methods].
    destruct methods as [methods |].
    - match goal with
      | |- context [for_each ?b _ methods] =>
          pose proof (for_each_spec b
                        (fun ks m => (ks ++ [method_key m])%list)
                        (fun _ => True) t
                        (fun _ _ evs => Q evs)) as Hin
      end.
      match type of Hin with
      | ?prem -> _ => assert (Hb : prem)
      end.
      { intros ks m w8 Ht8 _. cbv beta zeta.
        eexists. split; [emit Ht8 | unfold Q; retained_nothing Ht8]. }
      specialize (Hin Hb). clear Hb.
      destruct name, path; cbn [or_empty pyval_of_option List.map].
      all: step Ht9 ltac:(emit_atom Ht9).
      all: step Ht0 ltac:(emit_atom Ht0).
      all: step Ht1 ltac:(emit_atom Ht1).
      all: step Ht2 ltac:(emit_atom Ht2).
      all: step Ht3 ltac:(emit_atom Ht3).
      all: step Ht4 ltac:(emit_atom Ht4).
      all: step Ht5 ltac:(emit_atom Ht5).
      all: match goal with
           | |- exists e, emits (bind (for_each _ ?acc _) _) ?w0 _ e /\ _ =>
               destruct (Hin methods acc w0 Ht6
                           (Forall_always _ _ (fun _ => Logic.I)))
                 as (evss & Hrun & Hw)
           end.
      all: step Ht6 ltac:(exact Hrun).
      all: step Ht7 ltac:(emit_atom Ht7).
      all: step Ht8 ltac:(emit_atom Ht8).
      all: rewrite (fold_left_keys method_key), <- app_assoc; cbn [app].
      all: eexists; (split; [apply emits_ret |]).
      all: pose proof (retained_in_concat (fun ks => ks = []) evss
                         (loop_writes_all _ _ Q (fun _ _ _ H => H) _ _ _ Hw))
             as Hnone.
      all: unfold Q; retained_nothing Hnone.
    - destruct name, path; cbn [or_empty pyval_of_option List.map];
        (eexists; split; [emit Ht9 | unfold Q; retained_nothing Ht9]). }
  destruct (Hloop Hbody cs [] _ Ht (Forall_always _ _ (fun _ => Logic.I)))
    as (evss & Hrun & Hw).
  clear Hloop Hbody. epilogue Ht Hrun.
  exists (concat evss). rewrite fold_left_flat_keys. cbn [app].
  split; [reflexivity |].
  exact (retained_in_concat (fun ks => ks = []) evss
           (loop_writes_all _ _ Q (fun _ _ _ H => H) _ _ _ Hw)).
Qed.

Lemma loaded_classes_retain_method_keys_witness :
  exists events,
    emits (put_loaded_classes_callback (Some (msg_send [sample_class] tt)))
      (sample_world None) tt
      (events ++ [retain_values
                    ("Sessions[" ++ str (selection "sid" (sample_world None))
                     ++ "].Processes["
                     ++ str (selection "pid" (sample_world None))
                     ++ "].Classes")
                    (flat_map class_keys [sample_class])])%list /\
    (forall p ks, In (retain_values p ks) events -> ks = []).
Proof.
  apply (loaded_classes_retain_method_keys [sample_class] (sample_world None)
           sample_trace).
  reflexivity.
Defined.

(** ** A record that cannot be read *)

Lemma raises_bind_left {A B} (c : M A) (k : A -> M B) (w : world) (e : exn)
  (evs : list store_call) :
  raises c w e evs -> raises (bind c k) w e evs.
Proof.
  intros (w' & E & S1 & L). exists w'. unfold bind. rewrite E. now split.
Qed.

Lemma raises_bind_right {A B} (c : M A) (k : A -> M B) (w : world) (a : A)
  (e1 : list store_call) (e : exn) (e2 : list store_call) :
  emits c w a e1 ->
  (forall w1, STATE w1 = STATE w -> raises (k a) w1 e e2) ->
  raises (bind c k) w e (e1 ++ e2)%list.
Proof.
  intros (w1 & E1 & S1 & L1) Hk.
  destruct (Hk w1 S1) as (w2 & E2 & S2 & L2).
  exists w2. unfold bind. rewrite E1. split; [exact E2 |].
  split; [congruence |]. now rewrite L2, L1, app_assoc.
Qed.

Lemma raises_lift {A} (r : result A) (e : exn) (w : world) :
  r = raise e -> raises (lift r) w e [].
Proof. intros ->. exists w. now rewrite app_nil_r. Qed.

Lemma for_each_stops {S R} (body : S -> R -> M S) (rs1 : list R) (r : R)
  (rs2 : list R) (acc acc1 : S) (w w1 w2 : world) (e : exn) :
  for_each body acc rs1 w = (inr acc1, w1) ->
  body acc1 r w1 = (inl e, w2) ->
  for_each body acc (rs1 ++ r :: rs2)%list w = (inl e, w2).
Proof.
  revert acc w. induction rs1 as [| r1 rs1 IH]; intros acc w E1 E2.
  - cbn in E1. injection E1 as <- <-.
    cbn [app for_each]. unfold bind. now rewrite E2.
  - cbn [app for_each] in *. unfold bind in E1 |- *.
    destruct (body acc r1 w) as [[ex | a] w0]; [discriminate E1 |].
    now apply IH.
Qed.

Lemma for_each_raises {S R} (body : S -> R -> M S) (rs1 : list R) (r : R)
  (rs2 : list R) (acc acc1 : S) (w : world) (e : exn)
  (evs1 evs : list store_call) :
  emits (for_each body acc rs1) w acc1 evs1 ->
  (forall w1, STATE w1 = STATE w -> raises (body acc1 r) w1 e evs) ->
  raises (for_each body acc (rs1 ++ r :: rs2)%list) w e (evs1 ++ evs)%list.
Proof.
  intros (w1 & E1 & S1 & L1) Hr.
  destruct (Hr w1 S1) as (w2 & E2 & S2 & L2).
  exists w2. split; [exact (for_each_stops _ _ _ _ _ _ _ _ _ _ E1 E2) |].
  split; [congruence |]. now rewrite L2, L1, app_assoc.
Qed.

Lemma raises_after_gets {A B} (f : world -> A) (k : A -> M B) (w : world)
  (e : exn) (Q : list store_call -> Prop) :
  (exists d, raises (k (f w)) w e d /\ Q d) ->
  exists d, raises (bind (gets f) k) w e d /\ Q d.
Proof. exact (fun H => H). Qed.

Lemma raises_after_trace {B} (attr : string) (k : Trace -> M B) (w : world)
  (t : Trace) (e : exn) (Q : list store_call -> Prop) :
  trace (STATE w) = Some t ->
  (exists d, raises (k t) w e d /\ Q d) ->
  exists d, raises (bind (STATE_trace attr) k) w e d /\ Q d.
Proof.
  intros Ht (d & (w1 & E & S1 & L) & HQ). exists d. split; [| exact HQ].
  exists w1. unfold bind, STATE_trace. rewrite Ht. now split.
Qed.

(** X23.  When the first record whose base [int(base, 0)] cannot read
    comes after the records [rs1], [put_regions_callback] raises the
    error of that conversion; by then the elements of [rs1] have been
    created and inserted and the object of the unreadable record has
    been created, and no [retain_values] has been sent, so nothing of an
    earlier run is pruned. *)
Theorem put_regions_callback_bad_base (rs1 : list range_details)
  (r : range_details) (rs2 : list range_details) (e : exn) (w : world)
  (t : Trace) :
  trace (STATE w) = Some t ->
  Forall (fun r1 => parses (r_base r1)) rs1 ->
  int (r_base r) 0 = raise e ->
  let container := "Sessions[" ++ str (selection "sid" w) ++ "].Processes["
                   ++ str (selection "pid" w) ++ "].Memory" in
  exists events,
    raises (put_regions_callback (Some (msg_send (rs1 ++ r :: rs2)%list tt)))
      w e (events ++ [create_object (container ++ region_key r)])%list /\
    filter is_retain events = [] /\
    (forall r1, In r1 rs1 ->
       In (create_object (container ++ region_key r1)) events /\
       In (insert (container ++ region_key r1)) events).
Proof.
  intros Ht Hrs He container. subst container.
  enough (exists delta,
            raises (put_regions_callback
                      (Some (msg_send (rs1 ++ r :: rs2)%list tt))) w e delta /\
            exists events,
              delta = (events ++ [create_object
                         (("Sessions[" ++ str (selection "sid" w)
                           ++ "].Processes[" ++ str (selection "pid" w)
                           ++ "].Memory") ++ region_key r)])%list /\
              filter is_retain events = [] /\
              (forall r1, In r1 rs1 ->
                 In (create_object
                       (("Sessions[" ++ str (selection "sid" w)
                         ++ "].Processes[" ++ str (selection "pid" w)
                         ++ "].Memory") ++ region_key r1)) events /\
                 In (insert
                       (("Sessions[" ++ str (selection "sid" w)
                         ++ "].Processes[" ++ str (selection "pid" w)
                         ++ "].Memory") ++ region_key r1)) events))
    as (delta & Hr & events & -> & HF & HI).
  { exists events. repeat split; try assumption; now apply HI. }
  unfold put_regions_callback, selection. cbv zeta.
  cbn [get_values_from_callback records].
  unfold selected_session, selected_process, current.
  repeat match goal with
    | |- exists d, raises (bind (gets ?f) ?k) ?w0 ?e0 d /\ @?Q d =>
        apply (raises_after_gets f k w0 e0 Q); cbv beta
    | |- exists d, raises (bind (STATE_trace ?a) ?k) ?w0 ?e0 d /\ @?Q d =>
        apply (raises_after_trace a k w0 _ e0 Q Ht); cbv beta
    end.
  loop_spec Hloop Hbody (fun ks r => (ks ++ [region_key r])%list)
            (fun r => parses (r_base r)) t
            (fun (_ : list string) r evs =>
               element_writes
                 (("Sessions[" ++ str (selection "sid" w) ++ "].Processes["
                   ++ str (selection "pid" w) ++ "].Memory") ++ region_key r)
                 evs).
  { intros keys r0 w9 Ht9 [n Hn]. cbv beta zeta.
    destruct (r_file r0) as [file |]; body Ht9. }
  destruct (Hloop Hbody rs1 [] _ Ht Hrs) as (evss & Hrun & Hw).
  clear Hloop Hbody.
  destruct (loop_writes_elements _ (fun _ => region_key) _ _ _ _ Hw)
    as (F & E & _ & _).
  eexists. split.
  - apply raises_bind_left. eapply for_each_raises; [exact Hrun |].
    intros w1 S1. cbv beta zeta.
    assert (Ht1 : trace (STATE w1) = Some t) by (now rewrite S1).
    eapply raises_bind_right; [eapply emits_fmt; reflexivity |].
    intros w2 S2. cbv beta.
    assert (Ht2 : trace (STATE w2) = Some t) by (now rewrite S2).
    eapply raises_bind_right;
      [eapply emits_trace_create_object; exact Ht2 |].
    intros w3 S3. cbv beta.
    eapply raises_bind_right; [eapply emits_fmt; reflexivity |].
    intros w4 S4. cbv beta.
    apply raises_bind_left. apply raises_lift. exact He.
  - exists (concat evss). cbn [app]. rewrite ?app_nil_r.
    split; [| split; [exact F |]].
    + do 2 f_equal. rewrite ?append_assoc. reflexivity.
    + intros r1 Hin. apply E. rewrite loop_keys_map. now apply in_map.
Qed.

Lemma put_regions_callback_bad_base_witness :
  exists events,
    raises (put_regions_callback
              (Some (msg_send
                 ([sample_region]
                  ++ unreadable_region :: [])%list tt)))
      (sample_world None) (ValueError "invalid literal for int() with base 0: 'zz'")
      (events ++ [create_object
                    (("Sessions[" ++ str (selection "sid" (sample_world None))
                      ++ "].Processes["
                      ++ str (selection "pid" (sample_world None))
                      ++ "].Memory")
                     ++ region_key
                          unreadable_region)])%list /\
    filter is_retain events = [] /\
    (forall r1, In r1 [sample_region] ->
       In (create_object
             (("Sessions[" ++ str (selection "sid" (sample_world None))
               ++ "].Processes["
               ++ str (selection "pid" (sample_world None)) ++ "].Memory")
              ++ region_key r1)) events /\
       In (insert
             (("Sessions[" ++ str (selection "sid" (sample_world None))
               ++ "].Processes["
               ++ str (selection "pid" (sample_world None)) ++ "].Memory")
              ++ region_key r1)) events).
Proof.
  apply (put_regions_callback_bad_base [sample_region]
           unreadable_region []
           (ValueError "invalid literal for int() with base 0: 'zz'")
           (sample_world None) sample_trace).
  - reflexivity.
  - repeat constructor. exists 4096%Z. reflexivity.
  - reflexivity.
Defined.

(** ** Commands without a target *)

(** X24.  With a transaction and a client but no selected process, each
    of the commands that run one script in a batch
    ([ghidra_trace_put_regions], [..._kregions], [..._heap],
    [..._modules], [..._kmodules], [..._sections], [..._imports],
    [..._exports], [..._symbols], [..._dependencies], [..._threads],
    [..._frames], [..._loaded_classes_objc], [..._loaded_classes_java],
    [..._class_loaders_java], [..._session_attributes]) returns normally
    having only entered and left the batch: no script reaches the
    target, nothing is written and nothing is retained. *)
Theorem script_command_without_process
  (tgt : target) (validate_state : string -> result unit)
  (c : put_command) (w : world) (x : Tx) (cl : Client) :
  script_command c = true ->
  tx (STATE w) = Some x -> client (STATE w) = Some cl ->
  selection "pid" w = PyNone ->
  exists w',
    run_put_command tgt validate_state c w = (ok tt, w') /\
    store w' = (store w ++ [batch_enter; batch_exit])%list /\
    queries w' = queries w /\ current_state w' = current_state w.
Proof.
  intros Hc Hx Hcl Hp. unfold selection in Hp.
  destruct c; try discriminate Hc; cbn [run_put_command];
    unfold ghidra_trace_put_session_attributes, ghidra_trace_put_regions,
      ghidra_trace_put_kregions, ghidra_trace_put_heap,
      ghidra_trace_put_modules, ghidra_trace_put_kmodules,
      ghidra_trace_put_sections, ghidra_trace_put_imports,
      ghidra_trace_put_exports, ghidra_trace_put_symbols,
      ghidra_trace_put_dependencies, ghidra_trace_put_threads,
      ghidra_trace_put_frames, ghidra_trace_put_loaded_classes_objc,
      ghidra_trace_put_loaded_classes_java,
      ghidra_trace_put_class_loaders_java,
      put_session_attributes, put_regions, put_kregions, put_heap,
      put_modules, put_kmodules, put_sections, put_imports, put_exports,
      put_symbols, put_dependencies, put_threads, put_frames,
      put_loaded_classes_objc, put_loaded_classes_java,
      put_class_loaders_java,
      run_script, run_script_with_data, load_script, with_batch,
      bind, require_tx, selected_process, selected_session, current, gets,
      send, modify;
    rewrite Hx, Hcl; cbn [STATE set_store store current_state];
    rewrite Hp; eexists; (split; [reflexivity |]);
    cbn [store queries current_state set_store];
    rewrite <- app_assoc; repeat split.
Qed.

Lemma script_command_without_process_witness :
  exists w',
    run_put_command sample_target (fun _ => ok tt) cmd_put_regions
      (unselected_world (Some (MkTx "tx"))) = (ok tt, w') /\
    store w' = (store (unselected_world (Some (MkTx "tx")))
                ++ [batch_enter; batch_exit])%list /\
    queries w' = queries (unselected_world (Some (MkTx "tx"))) /\
    current_state w' = current_state (unselected_world (Some (MkTx "tx"))).
Proof.
  apply (script_command_without_process sample_target (fun _ => ok tt)
           cmd_put_regions (unselected_world (Some (MkTx "tx")))
           (MkTx "tx") (MkClient "Ghidra")); reflexivity.
Defined.

(** ** Operations that stop at their first record *)

(** X25.  On any non-empty reply [put_heap_callback] raises [KeyError
    'pid'] before it sends anything, and leaves every state as it was:
    the element path is formatted without the [pid] its template
    names. *)
Theorem put_heap_stops_at_first_record (w : world) (t : Trace)
  (h : heap_range) (hs : list heap_range) :
  trace (STATE w) = Some t ->
  put_heap_callback (Some (msg_send (h :: hs) tt)) w
  = (raise (KeyError "pid"), w).
Proof.
  intros Ht.
  unfold put_heap_callback, bind, selected_process, selected_session,
    current, gets, STATE_trace.
  rewrite Ht. reflexivity.
Qed.

Lemma put_heap_stops_at_first_record_witness :
  put_heap_callback
    (Some (msg_send ({| h_base := "0x2000"; h_size := 64 |} :: []) tt))
    (sample_world None)
  = (raise (KeyError "pid"), sample_world None).
Proof.
  apply (put_heap_stops_at_first_record (sample_world None) sample_trace
           {| h_base := "0x2000"; h_size := 64 |} []).
  reflexivity.
Defined.

(** X26.  On any non-empty reply [put_class_loaders_callback] creates
    the object of the first loader and then raises [NameError]: the key
    is formatted from [key], a name the function never binds.  That one
    [create_object] is all it sends: the object is never inserted and
    no [retain_values] follows. *)
Theorem put_class_loaders_stops_at_first_record (w : world) (t : Trace)
  (l : string) (ls : list string) :
  trace (STATE w) = Some t ->
  exists w',
    put_class_loaders_callback (Some (msg_send (l :: ls) tt)) w
    = (raise (NameError "name 'key' is not defined"), w') /\
    store w'
    = (store w
       ++ [create_object
             ("Sessions[" ++ str (selection "sid" w) ++ "].Processes["
              ++ str (selection "pid" w) ++ "].ClassLoaders[" ++ l
              ++ "]")])%list.
Proof.
  intros Ht. unfold selection.
  unfold put_class_loaders_callback, bind, selected_process,
    selected_session, current, gets, STATE_trace.
  rewrite Ht.
  cbn [get_values_from_callback records for_each].
  unfold bind, fmt, lift, trace_create_object, bind, STATE_trace, send,
    modify, unbound_name, throw.
  cbn [format LOADER_PATTERN].
  unfold ok, ret. cbv beta iota.
  rewrite Ht. cbv beta iota.
  cbn [STATE set_queries set_store store current_state targets queries].
  eexists. split; [reflexivity |]. reflexivity.
Qed.

Lemma put_class_loaders_stops_at_first_record_witness :
  exists w',
    put_class_loaders_callback (Some (msg_send ("loader" :: []) tt))
      (sample_world None)
    = (raise (NameError "name 'key' is not defined"), w') /\
    store w'
    = (store (sample_world None)
       ++ [create_object
             ("Sessions[" ++ str (selection "sid" (sample_world None))
              ++ "].Processes[" ++ str (selection "pid" (sample_world None))
              ++ "].ClassLoaders[" ++ "loader" ++ "]")])%list.
Proof.
  apply (put_class_loaders_stops_at_first_record (sample_world None)
           sample_trace "loader" []).
  reflexivity.
Defined.

(** ** A reply that carries no values *)

(** X27.  When the script reports an error instead of a value, every
    synchronisation callback still succeeds and sends exactly one
    request: [retain_values] with no key, which prunes the whole
    container.  For the process- and session-level operations the
    container is the usual one; for the operations on a module
    (sections, imports, exports, symbols, dependencies) the module is
    read from the missing payload, so the container is that of a module
    named [{}]. *)
Theorem error_reply_retains_nothing (description : string) (w : world)
  (t : Trace) :
  trace (STATE w) = Some t ->
  let sid := str (selection "sid" w) in
  let pid := str (selection "pid" w) in
  let tid := str (selection "tid" w) in
  emits (put_regions_callback (Some (msg_error description))) w tt
    [retain_values ("Sessions[" ++ sid ++ "].Processes[" ++ pid ++ "].Memory")
       []] /\
  emits (put_kregions_callback (Some (msg_error description))) w tt
    [retain_values ("Sessions[" ++ sid ++ "].Memory") []] /\
  emits (put_heap_callback (Some (msg_error description))) w tt
    [retain_values ("Sessions[" ++ sid ++ "].Processes[" ++ pid ++ "].Heap")
       []] /\
  emits (put_modules_callback (Some (msg_error description))) w tt
    [retain_values ("Sessions[" ++ sid ++ "].Processes[" ++ pid ++ "].Modules")
       []] /\
  emits (put_kmodules_callback (Some (msg_error description))) w tt
    [retain_values ("Sessions[" ++ sid ++ "].Modules") []] /\
  emits (put_threads_callback (Some (msg_error description))) w tt
    [retain_values ("Sessions[" ++ sid ++ "].Processes[" ++ pid ++ "].Threads")
       []] /\
  emits (put_frames_callback (Some (msg_error description))) w tt
    [retain_values ("Sessions[" ++ sid ++ "].Processes[" ++ pid
                    ++ "].Threads[" ++ tid ++ "].Stack") []] /\
  emits (put_loaded_classes_callback (Some (msg_error description))) w tt
    [retain_values ("Sessions[" ++ sid ++ "].Processes[" ++ pid ++ "].Classes")
       []] /\
  emits (put_class_loaders_callback (Some (msg_error description))) w tt
    [retain_values ("Sessions[" ++ sid ++ "].Processes[" ++ pid
                    ++ "].ClassLoaders") []] /\
  emits (put_sections_callback (Some (msg_error description))) w tt
    [retain_values ("Sessions[" ++ sid ++ "].Processes[" ++ pid
                    ++ "].Modules[{}].Sections") []] /\
  emits (put_imports_callback (Some (msg_error description))) w tt
    [retain_values ("Sessions[" ++ sid ++ "].Processes[" ++ pid
                    ++ "].Modules[{}].Imports") []] /\
  emits (put_exports_callback (Some (msg_error description))) w tt
    [retain_values ("Sessions[" ++ sid ++ "].Processes[" ++ pid
                    ++ "].Modules[{}].Exports") []] /\
  emits (put_symbols_callback (Some (msg_error description))) w tt
    [retain_values ("Sessions[" ++ sid ++ "].Processes[" ++ pid
                    ++ "].Modules[{}].Symbols") []] /\
  emits (put_dependencies_callback (Some (msg_error description))) w tt
    [retain_values ("Sessions[" ++ sid ++ "].Processes[" ++ pid
                    ++ "].Modules[{}].Dependencies") []].
Proof.
  intros Ht sid pid tid. subst sid pid tid. unfold selection.
  repeat split.
  all: match goal with
       | |- emits (?c _) _ _ _ => unfold emits, c
       end;
    cbv zeta;
    cbn [get_values_from_callback get_data_from_callback records
         cbdata_value for_each];
    unfold selected_session, selected_process, selected_thread, current,
      trace_retain_values, STATE_trace, bind, gets, fmt, lift, send, modify,
      ret, ok;
    rewrite ?Ht; cbv beta iota;
    cbn [format REGIONS_PATTERN KREGIONS_PATTERN HEAP_PATTERN MODULES_PATTERN
         KMODULES_PATTERN THREADS_PATTERN FRAMES_PATTERN CLASSES_PATTERN
         LOADERS_PATTERN SECTIONS_PATTERN IMPORTS_PATTERN EXPORTS_PATTERN
         SYMBOLS_PATTERN DEPENDENCIES_PATTERN];
    unfold ok; cbv beta iota; rewrite ?Ht; cbv beta iota;
    eexists; (split; [reflexivity |]); split; reflexivity.
Qed.

Lemma error_reply_retains_nothing_witness :
  emits (put_regions_callback (Some (msg_error "timeout")))
    (sample_world None) tt
    [retain_values
       ("Sessions[" ++ str (selection "sid" (sample_world None))
        ++ "].Processes[" ++ str (selection "pid" (sample_world None))
        ++ "].Memory") []].
Proof.
  exact (proj1 (error_reply_retains_nothing "timeout" (sample_world None)
                  sample_trace eq_refl)).
Defined.

(** ** Memory and registers *)

(** X28.  When the read of [last_length] bytes at [last_address] fails,
    [put_mem_callback] marks as ['error'] the pages from [last_address]
    to [last_address + (last_address + last_length)]: [putmem_state] is
    given the end of the range where it takes a length, so the marked
    range ends at or above [2 * last_address + last_length]. *)
Theorem failed_read_marks_error_range
  (validate_state : string -> result unit) (description : string)
  (w : world) (t : Trace) :
  trace (STATE w) = Some t -> validate_state "error" = ok tt ->
  let a := last_address w in
  let n := last_length w in
  let s := fst (quantize_pages a (a + (a + n))) in
  let e := snd (quantize_pages a (a + (a + n))) in
  emits (put_mem_callback validate_state (Some (msg_error description))) w tt
    [set_memory_state
       {| arch.space := arch.defaultSpace (memory_mapper t);
          arch.offset := s |} (e - s) "error"] /\
  (s <= a)%Z /\ (a + a + n <= s + (e - s))%Z.
Proof.
  intros Ht Hv a n s e. split.
  - unfold emits, put_mem_callback, putmem_state, require_trace, STATE_trace,
      selected_process, current, bind, gets, lift, send, modify.
    cbn [get_values_from_callback get_data_from_callback].
    rewrite Ht, Hv. unfold ok, ret. cbv beta iota.
    subst s e.
    unfold eval_range, eval_address, util.parse_and_eval, ok, quantize_pages.
    cbv beta iota zeta.
    rewrite Ht. cbv beta iota.
    unfold arch.DefaultMemoryMapper_map, overlay_needed.
    cbn [arch.space]. rewrite Ht. cbv beta iota.
    rewrite String.eqb_refl. cbn [negb andb when].
    unfold ret. cbv beta iota. rewrite Ht. cbv beta iota.
    eexists. split; [reflexivity |]. split; reflexivity.
  - pose proof (quantize_pages_covers a (a + (a + n))) as H.
    subst s e. destruct (quantize_pages a (a + (a + n))) as [s e].
    cbn [fst snd]. lia.
Qed.

Lemma failed_read_marks_error_range_witness :
  emits (put_mem_callback (fun _ => ok tt)
           (Some (msg_error "access violation")))
    (set_last 8192 4096 (sample_world None)) tt
    [set_memory_state {| arch.space := "ram"; arch.offset := 8192 |} 12288
       "error"] /\
  (8192 <= 8192)%Z /\ (8192 + 8192 + 4096 <= 8192 + 12288)%Z.
Proof.
  exact (failed_read_marks_error_range (fun _ => ok tt) "access violation"
           (set_last 8192 4096 (sample_world None)) sample_trace
           eq_refl eq_refl).
Defined.

Lemma pyval_eqb_eq (a b : pyval) : pyval_eqb a b = true -> a = b.
Proof.
  destruct a, b; simpl; try discriminate; intros H.
  - reflexivity.
  - apply Z.eqb_eq in H. now subst.
  - apply String.eqb_eq in H. now subst.
Qed.

(** X29.  When no thread of the reply is the selected one (in particular
    when no thread is selected), [put_reg_callback] returns without
    sending anything and without changing any state. *)
Theorem put_reg_callback_unknown_thread (ts : list thread_details)
  (w : world) :
  Forall (fun th => selection "tid" w <> PyInt (t_id th)) ts ->
  put_reg_callback (Some (msg_send ts tt)) w = (ok tt, w).
Proof.
  intros H. unfold selection in H.
  unfold put_reg_callback, selected_session, selected_process,
    selected_thread, current, bind, gets.
  cbn [get_values_from_callback records].
  assert (F : find_context
                match dict_get String.eqb "tid" (current_state w) with
                | Some v => v
                | None => PyNone
                end ts = None).
  { unfold find_context.
    induction H as [| th ts Hth _ IH]; [reflexivity |].
    cbn [find].
    destruct (pyval_eqb (PyInt (t_id th)) _) eqn:E; [| exact IH].
    apply pyval_eqb_eq in E. now rewrite E in Hth. }
  unfold ok, ret. cbv beta iota. rewrite F. reflexivity.
Qed.

Lemma put_reg_callback_unknown_thread_witness :
  put_reg_callback (Some (msg_send [sample_thread] tt)) (sample_world None)
  = (ok tt, sample_world None).
Proof.
  apply (put_reg_callback_unknown_thread [sample_thread] (sample_world None)).
  repeat constructor. discriminate.
Defined.

(** X30.  [put_state] raises [KeyError 'sid'] for every argument and in
    every state, before it sends anything: both of its paths are
    formatted without the [sid] their templates name. *)
Theorem put_state_raises_key_error (event_process : pyval) (w : world) :
  put_state event_process w = (raise (KeyError "sid"), w).
Proof. reflexivity. Qed.
